(** * bnk_autoconverter: the conversion pipeline, embedded and verified

    A shallow embedding of [bnk_autoconverter.py]: the filtering policy
    ([should_delete_file]), the shell runner ([run_command]), the size probe
    ([get_file_size]), the extraction and conversion steps ([extract_bnk],
    [convert_wem_files]), the workspace release ([cleanup_temp_dir]) and the
    per-archive orchestrator ([process_bnk_file]).

    The program is a sequence of file-system effects around two external
    tools, so the embedding is an explicit state-and-exception monad over a
    model of the file system (a directory tree, the process working directory,
    and the set of paths the operating system refuses to remove), with a
    write-only trace of what the program prints and which tools it runs.

    Around the pipeline, the interactive part ([get_choice], [get_format],
    [get_verbosity], [get_cleanup_settings], [find_bnk_files],
    [select_files], [validate_tools], [main]) is embedded over a second
    layer of state: the lines the console still holds. *)

From stdpp Require Import gmap strings list fin_maps.
From Stdlib Require Import ZArith Lia Ascii DecimalString DecimalNat.

Set Warnings "-register-all".
Open Scope Z_scope.

(** ** Strings and [pathlib] paths *)

(** [name.rfind('.')], counting positions from [i]. *)
Fixpoint rfind_dot (s : string) (i : nat) : option nat :=
  match s with
  | EmptyString => None
  | String c s' =>
      match rfind_dot s' (S i) with
      | Some j => Some j
      | None => if Ascii.eqb c "."%char then Some i else None
      end
  end.

(** [PurePath.stem]: the final component without its last suffix; a leading
    or a trailing dot is no suffix separator. *)
Definition stem_of (name : string) : string :=
  match rfind_dot name 0 with
  | Some i =>
      if ((0 <? i)%nat && (i <? String.length name - 1)%nat)%bool
      then String.substring 0 i name
      else name
  | None => name
  end.

(** [fnmatch(name, "*" + suffix)] with the case-sensitive rules. *)
Definition ends_with (suffix name : string) : bool :=
  let n := String.length name in
  let m := String.length suffix in
  ((m <=? n)%nat && String.eqb (String.substring (n - m) m name) suffix)%bool.

(** A [pathlib.Path]: its components, outermost first, and whether it is
    anchored at the root. Components are non-empty in every path Python
    builds. *)
Record PyPath := mkPath { p_abs : bool; p_parts : list string }.

Definition path_wf (p : PyPath) : Prop := "" ∉ p_parts p.

(** [p.name] *)
Definition path_name (p : PyPath) : string := List.last (p_parts p) "".

(** [p.stem] *)
Definition path_stem (p : PyPath) : string := stem_of (path_name p).

(** [p / c] for a single component [c]; joining the empty string is the
    identity. *)
Definition path_join (p : PyPath) (c : string) : PyPath :=
  if decide (c = "") then p else mkPath (p_abs p) (p_parts p ++ [c]).

(** [Path(c)] for a single relative component. *)
Definition path_of (c : string) : PyPath :=
  path_join (mkPath false []) c.

(** ** Filtering Policy *)

(** [should_delete_file]: the returned pair is Python's
    [(should_delete, reason)], the returned map is the dictionary
    [file_sizes] after the call (the function mutates its argument). *)
Definition should_delete_file (output_file : PyPath) (file_size : Z)
    (delete_small : bool) (min_file_size : Z) (remove_duplicates : bool)
    (file_sizes : gmap Z string) : (bool * option string) * gmap Z string :=
  if delete_small && (file_size <? min_file_size) then
    ((true, Some "small"), file_sizes)
  else if remove_duplicates && bool_decide (is_Some (file_sizes !! file_size)) then
    ((true, Some "duplicate"), file_sizes)
  else if remove_duplicates then
    ((false, None), <[file_size := path_name output_file]> file_sizes)
  else
    ((false, None), file_sizes).

(** The decision a returned pair stands for. *)
Inductive decision := Keep | DeleteSmall | DeleteDuplicate.

Definition decision_of (r : bool * option string) : option decision :=
  match r with
  | (false, None) => Some Keep
  | (true, Some reason) =>
      if decide (reason = "small") then Some DeleteSmall
      else if decide (reason = "duplicate") then Some DeleteDuplicate
      else None
  | _ => None
  end.

(** The policy run over the outputs of one archive, oldest first, as the
    conversion loop threads [file_sizes] through its iterations. *)
Fixpoint filter_outputs (outputs : list (PyPath * Z))
    (delete_small : bool) (min_file_size : Z) (remove_duplicates : bool)
    (file_sizes : gmap Z string) : list (bool * option string) :=
  match outputs with
  | [] => []
  | (output_file, file_size) :: rest =>
      let '(r, file_sizes') :=
        should_delete_file output_file file_size delete_small min_file_size
          remove_duplicates file_sizes in
      r :: filter_outputs rest delete_small min_file_size remove_duplicates file_sizes'
  end.


(** ** The file system

    A directory tree. Paths into it are absolute: the list of components
    from the root. Every node carries the size [os.stat] reports for it. *)
Inductive node :=
  | File (st_size : Z)
  | Dir (st_size : Z) (entries : gmap string node).

Fixpoint lookup_node (p : list string) (t : node) : option node :=
  match p with
  | [] => Some t
  | c :: p' =>
      match t with
      | Dir _ m =>
          match m !! c with
          | Some t' => lookup_node p' t'
          | None => None
          end
      | File _ => None
      end
  end.

(** Rewrites the entry at [p] inside its parent directory; no effect when
    the parent is missing or is no directory, and none on the root. *)
Fixpoint update_node (p : list string) (f : option node -> option node)
    (t : node) : node :=
  match t with
  | File _ => t
  | Dir s m =>
      match p with
      | [] => t
      | c :: p' =>
          match p' with
          | [] => Dir s (partial_alter f c m)
          | _ :: _ => Dir s (alter (update_node p' f) c m)
          end
      end
  end.

Definition remove_node (p : list string) (t : node) : node :=
  update_node p (fun _ => None) t.

Definition put_node (p : list string) (n : node) (t : node) : node :=
  update_node p (fun _ => Some n) t.

(** What [os.stat] tells about a path. *)
Inductive stat_result := IsFile (st_size : Z) | IsDir (st_size : Z).

Definition node_stat (n : node) : stat_result :=
  match n with
  | File s => IsFile s
  | Dir s _ => IsDir s
  end.

Definition stat (p : list string) (t : node) : option stat_result :=
  node_stat <$> lookup_node p t.

Definition is_dir (p : list string) (t : node) : bool :=
  match stat p t with
  | Some (IsDir _) => true
  | _ => false
  end.

Definition is_file (p : list string) (t : node) : Prop :=
  exists size, stat p t = Some (IsFile size).

(** [os.scandir]: the names in a directory, in the order the file system
    reports them; nothing for a path that is no directory. *)
Definition listdir (p : list string) (t : node) : list string :=
  match lookup_node p t with
  | Some (Dir _ m) => (map_to_list m).*1
  | _ => []
  end.

(** What an external tool leaves behind when it writes a regular file: the
    file, unless its directory is missing or a directory already has that
    name. *)
Definition write_file (q : list string) (size : Z) (t : node) : node :=
  if is_dir (removelast q) t && negb (is_dir q t)
  then put_node q (File size) t
  else t.

(** ** The process and its environment *)

(** The state the program acts on: the tree, the process's working
    directory, and the paths whose removal the operating system refuses (a
    read-only attribute, missing permissions, a file another process holds
    open). The program never changes the last. *)
Record World := mkWorld {
  fs : node;
  cwd : list string;
  undeletable : gset (list string)
}.

Definition resolve (w : World) (p : PyPath) : list string :=
  if p_abs p then p_parts p else cwd w ++ p_parts p.

(** A removal of [q] is refused when [q] or something below it is
    undeletable. *)
Definition blocked (w : World) (q : list string) : bool :=
  bool_decide (set_Exists
    (fun u => q `prefix_of` u /\ is_Some (stat u (fs w))) (undeletable w)).

Inductive exn :=
  | FileNotFoundError | FileExistsError | NotADirectoryError
  | IsADirectoryError | PermissionError | SameFileError | ShutilError
  | OSError | UnicodeDecodeError.

(** The command lines the program builds. *)
Inductive command :=
  | CmdExtract (tool : string) (archive : string)
  | CmdConvert (tool : string) (output input : PyPath).

(** How a started tool ends: with an exit status, having written to its
    standard output and error either text in the locale's encoding
    ([Exited]) or bytes that are none ([Undecodable]); or it cannot be
    started at all. *)
Inductive proc_result :=
  | Exited (returncode : Z)
  | Undecodable (returncode : Z)
  | SpawnFailed.

(** Modelled from the spec: the two external executables (bnkextr and
    vgmstream-cli are no part of the repository). By their command
    contracts the extractor, started in a directory holding the archive,
    writes fragment files into that directory, and the converter writes the
    output file it is given; each ends with an exit status, after writing
    to its standard output what may or may not be text, or cannot be
    started at all. What they write and how they end is theirs to choose,
    from all they can see: the executable's path, the tree, the working
    directory and the arguments. *)
Record Tools := mkTools {
  bnkextr : string -> node -> list string -> string ->
            list (string * Z) * proc_result;
  vgmstream : string -> node -> list string -> PyPath -> PyPath ->
              option Z * proc_result
}.

(** What reaches the operator's console. *)
Inductive message :=
  | MsgBanner (name : string)
  | MsgExtracting (name : string)
  | MsgConverting
  | MsgProgress (count total : nat)
  | MsgProgressNamed (count total : nat) (name : string)
  | MsgDeleting (reason : option string) (name : string) (size : Z)
  | MsgFailedToConvert (name : string)
  | MsgNewline
  | MsgCleaningUp
  | MsgMovingFragments
  | MsgErrorRunning (e : exn)
  | MsgErrorExtract (name : string)
  | MsgErrorNoFragments (name : string)
  | MsgErrorException (name : string) (e : exn)
  | MsgToolOutput (cmd : command).

(** The outcome of one fragment: the converter failed, or it succeeded and
    the policy judged the measured output. *)
Inductive outcome :=
  | ConversionFailed
  | Judged (file_size : Z) (verdict : bool * option string).

(** The trace. [Print], [SpinnerStart] and [SpinnerStop] are what the
    operator sees; the others record what the program did: a tool it ran
    and how that ended, the outcome of a fragment, a completed
    [shutil.move]. *)
Inductive event :=
  | Print (m : message)
  | SpinnerStart (m : message)
  | SpinnerStop
  | Exec (cmd : command) (r : proc_result)
  | Outcome (fragment : PyPath) (o : outcome)
  | Moved (src dst : list string).

Definition is_console (e : event) : bool :=
  match e with
  | Print _ | SpinnerStart _ | SpinnerStop => true
  | _ => false
  end.

(** The trace without the operator-facing part. *)
Definition actions (tr : list event) : list event :=
  List.filter (fun e => negb (is_console e)) tr.

(** ** The monad: state, exceptions, and a write-only trace *)

Inductive result (A : Type) :=
  | Ok (a : A)
  | Raise (e : exn).
Arguments Ok {A} a.
Arguments Raise {A} e.

Definition M (A : Type) : Type := World -> result A * World * list event.

Definition ret {A} (a : A) : M A := fun w => (Ok a, w, []).

Definition bind {A B} (m : M A) (k : A -> M B) : M B :=
  fun w =>
    match m w with
    | (Ok a, w1, t1) => let '(r, w2, t2) := k a w1 in (r, w2, t1 ++ t2)
    | (Raise e, w1, t1) => (Raise e, w1, t1)
    end.

Definition raise {A} (e : exn) : M A := fun w => (Raise e, w, []).

Declare Scope io_scope.
Delimit Scope io_scope with io.
Notation "x <- m ;; k" := (bind m (fun x => k))
  (at level 100, m at next level, right associativity) : io_scope.
Notation "m ;; k" := (bind m (fun _ => k))
  (at level 100, right associativity) : io_scope.
Open Scope io_scope.

(** [try: m except Exception: h] *)
Definition try_except {A} (m : M A) (h : exn -> M A) : M A :=
  fun w =>
    match m w with
    | (Ok a, w1, t1) => (Ok a, w1, t1)
    | (Raise e, w1, t1) => let '(r, w2, t2) := h e w1 in (r, w2, t1 ++ t2)
    end.

(** [try: m finally: fin]: [fin] runs however [m] ends; an exception of
    [fin] replaces the outcome of [m]. *)
Definition try_finally {A} (m : M A) (fin : M unit) : M A :=
  fun w =>
    let '(r, w1, t1) := m w in
    match fin w1 with
    | (Ok _, w2, t2) => (r, w2, t1 ++ t2)
    | (Raise e, w2, t2) => (Raise e, w2, t1 ++ t2)
    end.

Definition get_world : M World := fun w => (Ok w, w, []).

Definition set_fs (t : node) : M unit :=
  fun w => (Ok tt, mkWorld t (cwd w) (undeletable w), []).

Definition set_cwd (q : list string) : M unit :=
  fun w => (Ok tt, mkWorld (fs w) q (undeletable w), []).

Definition emit (e : event) : M unit := fun w => (Ok tt, w, [e]).

Definition print (m : message) : M unit := emit (Print m).

Definition when (b : bool) (m : M unit) : M unit := if b then m else ret tt.

(** [for x in xs: body x] *)
Fixpoint for_each {A} (xs : list A) (body : A -> M unit) : M unit :=
  match xs with
  | [] => ret tt
  | x :: rest => body x ;; for_each rest body
  end.

(** ** The library calls the program makes *)

(** [Path.exists] *)
Definition path_exists (p : PyPath) : M bool :=
  w <- get_world ;;
  ret (bool_decide (is_Some (stat (resolve w p) (fs w)))).

(** [os.getcwd] *)
Definition getcwd : M PyPath :=
  w <- get_world ;; ret (mkPath true (cwd w)).

(** [os.chdir] *)
Definition chdir (p : PyPath) : M unit :=
  w <- get_world ;;
  let q := resolve w p in
  match stat q (fs w) with
  | Some (IsDir _) => set_cwd q
  | Some (IsFile _) => raise NotADirectoryError
  | None => raise FileNotFoundError
  end.

(** [os.path.getsize] *)
Definition getsize (p : PyPath) : M Z :=
  w <- get_world ;;
  match stat (resolve w p) (fs w) with
  | Some (IsFile s) | Some (IsDir s) => ret s
  | None => raise FileNotFoundError
  end.

(** [Path.mkdir(exist_ok=...)], without [parents]. *)
Definition mkdir (p : PyPath) (exist_ok : bool) : M unit :=
  w <- get_world ;;
  let q := resolve w p in
  match stat q (fs w) with
  | Some (IsDir _) => if exist_ok then ret tt else raise FileExistsError
  | Some (IsFile _) => raise FileExistsError
  | None =>
      match stat (removelast q) (fs w) with
      | Some (IsDir _) => set_fs (put_node q (Dir 0 ∅) (fs w))
      | Some (IsFile _) => raise NotADirectoryError
      | None => raise FileNotFoundError
      end
  end.

(** [Path.unlink] *)
Definition unlink (p : PyPath) : M unit :=
  w <- get_world ;;
  let q := resolve w p in
  match stat q (fs w) with
  | None => raise FileNotFoundError
  | Some (IsDir _) => raise IsADirectoryError
  | Some (IsFile _) =>
      if bool_decide (q ∈ undeletable w) then raise PermissionError
      else set_fs (remove_node q (fs w))
  end.

(** [shutil.rmtree] without [ignore_errors]. It raises when the operating
    system refuses a removal below the root of the tree; how much it has
    removed by then depends on the order of its traversal, and the model
    takes the refusal to come first. In every such case the root of the
    tree stays. *)
Definition rmtree (p : PyPath) : M unit :=
  w <- get_world ;;
  let q := resolve w p in
  match stat q (fs w) with
  | None => raise FileNotFoundError
  | Some (IsFile _) => raise NotADirectoryError
  | Some (IsDir _) =>
      if blocked w q || bool_decide (q = []) then raise PermissionError
      else set_fs (remove_node q (fs w))
  end.

(** [shutil.copy2]: into the directory when the destination is one. *)
Definition copy2 (src dst : PyPath) : M unit :=
  w <- get_world ;;
  let s := resolve w src in
  let d := resolve w dst in
  let d' := if is_dir d (fs w) then resolve w (path_join dst (path_name src))
            else d in
  match lookup_node s (fs w) with
  | None => raise FileNotFoundError
  | Some (Dir _ _) => raise IsADirectoryError
  | Some (File size) =>
      if bool_decide (s = d') then raise SameFileError
      else match stat d' (fs w), stat (removelast d') (fs w) with
           | Some (IsDir _), _ => raise IsADirectoryError
           | _, Some (IsDir _) => set_fs (put_node d' (File size) (fs w))
           | _, _ => raise FileNotFoundError
           end
  end.

(** [shutil.move]: into the directory when the destination is one, where
    the name must be free; otherwise a rename, which may replace a file by
    a file. The source goes with all below it. A refused removal of the
    source fails the move; the copy its fallback may have made by then is
    left out. *)
Definition move (src dst : PyPath) : M unit :=
  w <- get_world ;;
  let s := resolve w src in
  let d := resolve w dst in
  let into := is_dir d (fs w) in
  let d' := if into then resolve w (path_join dst (path_name src)) else d in
  if into && bool_decide (s = d) then ret tt
  else if into && bool_decide (is_Some (stat d' (fs w))) then raise ShutilError
  else
    match lookup_node s (fs w) with
    | None => raise FileNotFoundError
    | Some n =>
        if bool_decide (s = d') then ret tt
        else if bool_decide (s `prefix_of` d') then raise ShutilError
        else if blocked w s then raise PermissionError
        else
          match n, stat d' (fs w), stat (removelast d') (fs w) with
          | _, None, Some (IsDir _)
          | File _, Some (IsFile _), Some (IsDir _) =>
              set_fs (put_node d' n (remove_node s (fs w))) ;;
              emit (Moved s d')
          | _, Some _, _ => raise FileExistsError
          | _, None, _ => raise FileNotFoundError
          end
    end.

(** [list(dir.glob("*" + suffix))] *)
Definition glob (dir : PyPath) (suffix : string) : M (list PyPath) :=
  w <- get_world ;;
  ret (path_join dir <$>
         List.filter (ends_with suffix) (listdir (resolve w dir) (fs w))).

Definition spinner_start (m : message) : M unit := emit (SpinnerStart m).
Definition spinner_stop : M unit := emit SpinnerStop.

Section Program.

Context (tools : Tools).

(** What a tool does when it is run from the world [w]: the tree it
    leaves, and how it ends. *)
Definition run_tool (cmd : command) (w : World) : node * proc_result :=
  match cmd with
  | CmdExtract tool archive =>
      let '(files, r) := bnkextr tools tool (fs w) (cwd w) archive in
      (foldl (fun t '(name, size) => write_file (cwd w ++ [name]) size t)
             (fs w) files, r)
  | CmdConvert tool output input =>
      let '(written, r) := vgmstream tools tool (fs w) (cwd w) output input in
      (match written with
       | Some size => write_file (resolve w output) size (fs w)
       | None => fs w
       end, r)
  end.

(** [subprocess.run(cmd, shell=True, text=True, ...)]: the tool runs to
    its end; without [capture_output] its output goes to the console
    undecoded, with it the output is read and decoded as text. Returns the
    exit status; raises when the process cannot be started, and when the
    captured output cannot be decoded. *)
Definition subprocess_run (cmd : command) (capture_output : bool) : M Z :=
  w <- get_world ;;
  let '(t, r) := run_tool cmd w in
  set_fs t ;;
  emit (Exec cmd r) ;;
  when (negb capture_output) (print (MsgToolOutput cmd)) ;;
  match r with
  | Exited returncode => ret returncode
  | Undecodable returncode =>
      if capture_output then raise UnicodeDecodeError else ret returncode
  | SpawnFailed => raise OSError
  end.

(** ** The program *)

Definition run_command (cmd : command) (verbosity : Z) : M bool :=
  try_except
    (returncode <- (if verbosity =? 3
                    then subprocess_run cmd false
                    else subprocess_run cmd true) ;;
     ret (returncode =? 0))
    (fun e =>
       when (1 <? verbosity) (print (MsgErrorRunning e)) ;;
       ret false).

Definition get_file_size (filepath : PyPath) : M Z :=
  try_except (getsize filepath) (fun _ => ret 0).

Definition extract_bnk (bnk_file temp_dir : PyPath) (bnkextr_path : string)
    (verbosity : Z) : M bool :=
  let temp_bnk := path_join temp_dir (path_name bnk_file) in
  copy2 bnk_file temp_bnk ;;
  spinner_start (MsgExtracting (path_name bnk_file)) ;;
  original_dir <- getcwd ;;
  chdir temp_dir ;;
  success <- run_command (CmdExtract bnkextr_path (path_name bnk_file)) verbosity ;;
  present <- path_exists temp_bnk ;;
  when present (unlink temp_bnk) ;;
  chdir original_dir ;;
  spinner_stop ;;
  ret success.

(** The body of the loop of [convert_wem_files], for the fragment numbered
    [count] of [total]; it returns [file_sizes] as the iteration leaves
    it. *)
Definition convert_one (output_dir : PyPath) (ext vgmstream_path : string)
    (verbosity : Z) (delete_small : bool) (min_file_size : Z)
    (remove_duplicates : bool) (total count : nat) (wem_file : PyPath)
    (file_sizes : gmap Z string) : M (gmap Z string) :=
  let output_file := path_join output_dir (path_stem wem_file +:+ "." +:+ ext) in
  (if verbosity =? 2 then print (MsgProgress count total)
   else if verbosity =? 3
        then print (MsgProgressNamed count total (path_name wem_file))
        else ret tt) ;;
  convert_success <-
    run_command (CmdConvert vgmstream_path output_file wem_file) verbosity ;;
  if convert_success then
    file_size <- get_file_size output_file ;;
    let '((should_delete, reason), file_sizes') :=
      should_delete_file output_file file_size delete_small min_file_size
        remove_duplicates file_sizes in
    emit (Outcome wem_file (Judged file_size (should_delete, reason))) ;;
    when should_delete
      (when (verbosity =? 3)
         (print (MsgDeleting reason (path_name output_file) file_size)) ;;
       try_except (unlink output_file) (fun _ => ret tt)) ;;
    ret file_sizes'
  else
    emit (Outcome wem_file ConversionFailed) ;;
    when (verbosity =? 3) (print (MsgFailedToConvert (path_name wem_file))) ;;
    ret file_sizes.

(** [for count, wem_file in enumerate(wem_files, count): ...] *)
Fixpoint convert_loop (output_dir : PyPath) (ext vgmstream_path : string)
    (verbosity : Z) (delete_small : bool) (min_file_size : Z)
    (remove_duplicates : bool) (total count : nat) (wem_files : list PyPath)
    (file_sizes : gmap Z string) : M (gmap Z string) :=
  match wem_files with
  | [] => ret file_sizes
  | wem_file :: rest =>
      file_sizes' <-
        convert_one output_dir ext vgmstream_path verbosity delete_small
          min_file_size remove_duplicates total count wem_file file_sizes ;;
      convert_loop output_dir ext vgmstream_path verbosity delete_small
        min_file_size remove_duplicates total (S count) rest file_sizes'
  end.

Definition convert_wem_files (temp_dir output_dir : PyPath)
    (ext vgmstream_path : string) (verbosity : Z) (delete_small : bool)
    (min_file_size : Z) (remove_duplicates : bool) : M bool :=
  wem_files <- glob temp_dir ".wem" ;;
  match wem_files with
  | [] => ret false
  | _ :: _ =>
      when (verbosity =? 1) (spinner_start MsgConverting) ;;
      convert_loop output_dir ext vgmstream_path verbosity delete_small
        min_file_size remove_duplicates (length wem_files) 1 wem_files ∅ ;;
      (if verbosity =? 2 then print MsgNewline
       else if verbosity =? 1 then spinner_stop
            else ret tt) ;;
      ret true
  end.

Definition cleanup_temp_dir (temp_dir output_dir : PyPath)
    (cleanup_wem : bool) (verbosity : Z) : M unit :=
  if cleanup_wem then
    when (2 <=? verbosity) (print MsgCleaningUp) ;;
    present <- path_exists temp_dir ;;
    when present (rmtree temp_dir)
  else
    when (2 <=? verbosity) (print MsgMovingFragments) ;;
    wem_files <- glob temp_dir ".wem" ;;
    for_each wem_files
      (fun wem_file =>
         try_except (move wem_file output_dir) (fun _ => ret tt)) ;;
    present <- path_exists temp_dir ;;
    when present (rmtree temp_dir).

(** The workspace and the output subdirectory of an archive. *)
Definition temp_dir_of (bnk_file : PyPath) : PyPath :=
  path_of ("temp_" +:+ path_stem bnk_file).

Definition output_dir_of (bnk_file output_base_dir : PyPath) : PyPath :=
  path_join output_base_dir (path_stem bnk_file).

(** The statements of [process_bnk_file] before its [try]: the workspace
    is made afresh, the output subdirectory is made unless it is there. *)
Definition acquire_workspace (bnk_file output_base_dir : PyPath) : M unit :=
  print (MsgBanner (path_name bnk_file)) ;;
  let temp_dir := temp_dir_of bnk_file in
  stale <- path_exists temp_dir ;;
  when stale (rmtree temp_dir) ;;
  mkdir temp_dir false ;;
  mkdir (output_dir_of bnk_file output_base_dir) true.

(** The [try] block of [process_bnk_file]. *)
Definition pipeline (bnk_file output_base_dir : PyPath)
    (ext bnkextr_path vgmstream_path : string) (verbosity : Z)
    (cleanup_wem delete_small : bool) (min_file_size : Z)
    (remove_duplicates : bool) : M bool :=
  let temp_dir := temp_dir_of bnk_file in
  let file_output_dir := output_dir_of bnk_file output_base_dir in
  extracted <- extract_bnk bnk_file temp_dir bnkextr_path verbosity ;;
  if negb extracted then
    print (MsgErrorExtract (path_name bnk_file)) ;;
    ret false
  else
    converted <-
      convert_wem_files temp_dir file_output_dir ext vgmstream_path verbosity
        delete_small min_file_size remove_duplicates ;;
    if negb converted then
      print (MsgErrorNoFragments (path_name bnk_file)) ;;
      ret false
    else
      cleanup_temp_dir temp_dir file_output_dir cleanup_wem verbosity ;;
      ret true.

(** The [finally] block of [process_bnk_file]. *)
Definition final_cleanup (temp_dir : PyPath) : M unit :=
  present <- path_exists temp_dir ;;
  when present (try_except (rmtree temp_dir) (fun _ => ret tt)).

Definition process_bnk_file (bnk_file output_base_dir : PyPath)
    (ext bnkextr_path vgmstream_path : string) (verbosity : Z)
    (cleanup_wem delete_small : bool) (min_file_size : Z)
    (remove_duplicates : bool) : M bool :=
  acquire_workspace bnk_file output_base_dir ;;
  try_finally
    (try_except
       (pipeline bnk_file output_base_dir ext bnkextr_path vgmstream_path
          verbosity cleanup_wem delete_small min_file_size remove_duplicates)
       (fun e =>
          spinner_stop ;;
          print (MsgErrorException (path_name bnk_file) e) ;;
          ret false))
    (final_cleanup (temp_dir_of bnk_file)).

(** The comprehension of [main] that builds the success report: the
    archives, in order, whose processing returned true. *)
Fixpoint processed_files (files_to_process : list PyPath)
    (output_dir : PyPath) (ext bnkextr_path vgmstream_path : string)
    (verbosity : Z) (cleanup_wem delete_small : bool) (min_file_size : Z)
    (remove_duplicates : bool) : M (list PyPath) :=
  match files_to_process with
  | [] => ret []
  | bnk_file :: rest =>
      ok <- process_bnk_file bnk_file output_dir ext bnkextr_path
              vgmstream_path verbosity cleanup_wem delete_small min_file_size
              remove_duplicates ;;
      report <- processed_files rest output_dir ext bnkextr_path
                  vgmstream_path verbosity cleanup_wem delete_small
                  min_file_size remove_duplicates ;;
      ret (if ok then bnk_file :: report else report)
  end.

End Program.

(** ** Reasoning about runs *)

(** A triple: from a world in [P], however the run of [m] ends, the
    outcome and the world it leaves are in [Q], and every event of its
    trace is in [phi]. *)
Definition hoare {A} (phi : event -> Prop) (P : World -> Prop) (m : M A)
    (Q : result A -> World -> Prop) : Prop :=
  forall w r w' tr, P w -> m w = (r, w', tr) -> Q r w' /\ Forall phi tr.

(** [m] keeps [I], also when it raises. *)
Definition keeps {A} (phi : event -> Prop) (I : World -> Prop) (m : M A) : Prop :=
  hoare phi I m (fun _ => I).

Definition not_moved (e : event) : Prop :=
  match e with
  | Moved _ _ => False
  | _ => True
  end.

Definition any_event (e : event) : Prop := True.

(** The tools a run started, in order. *)
Definition executed (tr : list event) : list command :=
  omap (fun e => match e with Exec cmd _ => Some cmd | _ => None end) tr.

(** The outcomes of the fragments, in order. *)
Definition outcomes (tr : list event) : list (PyPath * outcome) :=
  omap (fun e => match e with Outcome f o => Some (f, o) | _ => None end) tr.

(** The completed moves, in order. *)
Definition moves (tr : list event) : list (list string * list string) :=
  omap (fun e => match e with Moved s d => Some (s, d) | _ => None end) tr.

(** Two programs that differ in nothing but what the operator sees: from
    every world, the same outcome, the same world, the same actions. *)
Definition same_but_console {A} (m1 m2 : M A) : Prop :=
  forall w,
    (m1 w).1.1 = (m2 w).1.1 /\ (m1 w).1.2 = (m2 w).1.2 /\
    actions (m1 w).2 = actions (m2 w).2.

(** The invariants of a run. [same_dirs]: the working directory and the
    undeletable paths are [c] and [U], and the tree has the directories
    of [t0], no more and no fewer. [same_outside X]: outside [X] the tree
    is as [t0] is. *)
Definition same_dirs (t0 : node) (c : list string) (U : gset (list string))
    (w : World) : Prop :=
  cwd w = c /\ undeletable w = U /\ forall q, is_dir q (fs w) = is_dir q t0.

Definition same_outside (X : list string) (t0 : node) (w : World) : Prop :=
  forall q, ~ X `prefix_of` q -> stat q (fs w) = stat q t0.

(** While fragments are moved out of it, the workspace [c0 ++ [temp]]
    stands. *)
Definition standing (c0 : list string) (U : gset (list string))
    (temp : string) (w : World) : Prop :=
  cwd w = c0 /\ undeletable w = U /\ is_dir (c0 ++ [temp]) (fs w) = true.

Section Runs.

Context (tools : Tools).
Context (bnk_file output_base_dir : PyPath).
Context (ext bnkextr_path vgmstream_path : string) (verbosity : Z).
Context (cleanup_wem delete_small : bool) (min_file_size : Z).
Context (remove_duplicates : bool).

(** The ways through the [try] block of [process_bnk_file], from the
    world [w1] the workspace was acquired in: to the outcome, the world and
    the trace the block ends with. *)
Inductive pipeline_run (w1 : World) :
    result bool -> World -> list event -> Prop :=
  | run_extract_raised e w t1 :
      extract_bnk tools bnk_file (temp_dir_of bnk_file) bnkextr_path verbosity w1
        = (Raise e, w, t1) ->
      pipeline_run w1 (Raise e) w t1
  | run_extract_failed w t1 :
      extract_bnk tools bnk_file (temp_dir_of bnk_file) bnkextr_path verbosity w1
        = (Ok false, w, t1) ->
      pipeline_run w1 (Ok false) w
        (t1 ++ [Print (MsgErrorExtract (path_name bnk_file))])
  | run_convert_raised e w2 t1 w t2 :
      extract_bnk tools bnk_file (temp_dir_of bnk_file) bnkextr_path verbosity w1
        = (Ok true, w2, t1) ->
      convert_wem_files tools (temp_dir_of bnk_file)
        (output_dir_of bnk_file output_base_dir) ext vgmstream_path verbosity
        delete_small min_file_size remove_duplicates w2 = (Raise e, w, t2) ->
      pipeline_run w1 (Raise e) w (t1 ++ t2)
  | run_no_fragments w2 t1 w t2 :
      extract_bnk tools bnk_file (temp_dir_of bnk_file) bnkextr_path verbosity w1
        = (Ok true, w2, t1) ->
      convert_wem_files tools (temp_dir_of bnk_file)
        (output_dir_of bnk_file output_base_dir) ext vgmstream_path verbosity
        delete_small min_file_size remove_duplicates w2 = (Ok false, w, t2) ->
      pipeline_run w1 (Ok false) w
        (t1 ++ t2 ++ [Print (MsgErrorNoFragments (path_name bnk_file))])
  | run_release_raised e w2 t1 w3 t2 w t3 :
      extract_bnk tools bnk_file (temp_dir_of bnk_file) bnkextr_path verbosity w1
        = (Ok true, w2, t1) ->
      convert_wem_files tools (temp_dir_of bnk_file)
        (output_dir_of bnk_file output_base_dir) ext vgmstream_path verbosity
        delete_small min_file_size remove_duplicates w2 = (Ok true, w3, t2) ->
      cleanup_temp_dir (temp_dir_of bnk_file)
        (output_dir_of bnk_file output_base_dir) cleanup_wem verbosity w3
        = (Raise e, w, t3) ->
      pipeline_run w1 (Raise e) w (t1 ++ t2 ++ t3)
  | run_completed w2 t1 w3 t2 w t3 :
      extract_bnk tools bnk_file (temp_dir_of bnk_file) bnkextr_path verbosity w1
        = (Ok true, w2, t1) ->
      convert_wem_files tools (temp_dir_of bnk_file)
        (output_dir_of bnk_file output_base_dir) ext vgmstream_path verbosity
        delete_small min_file_size remove_duplicates w2 = (Ok true, w3, t2) ->
      cleanup_temp_dir (temp_dir_of bnk_file)
        (output_dir_of bnk_file output_base_dir) cleanup_wem verbosity w3
        = (Ok tt, w, t3) ->
      pipeline_run w1 (Ok true) w (t1 ++ t2 ++ t3).

(** Extraction and conversion both succeeded from [w1]. *)
Definition both_succeeded (w1 : World) : Prop :=
  exists w2 t1 w3 t2,
    extract_bnk tools bnk_file (temp_dir_of bnk_file) bnkextr_path verbosity w1
      = (Ok true, w2, t1) /\
    convert_wem_files tools (temp_dir_of bnk_file)
      (output_dir_of bnk_file output_base_dir) ext vgmstream_path verbosity
      delete_small min_file_size remove_duplicates w2 = (Ok true, w3, t2).

(** The ways through [process_bnk_file]: the acquisition raises, and the
    exception escapes; or the [try] block returns; or it raises, the
    handler turns that into a failure; in both the [finally] block runs. *)
Inductive step_run (w : World) : result bool -> World -> list event -> Prop :=
  | step_acquire_raised e w' t0 :
      acquire_workspace bnk_file output_base_dir w = (Raise e, w', t0) ->
      step_run w (Raise e) w' t0
  | step_returned w1 t0 b w2 tp w' :
      acquire_workspace bnk_file output_base_dir w = (Ok tt, w1, t0) ->
      pipeline_run w1 (Ok b) w2 tp ->
      final_cleanup (temp_dir_of bnk_file) w2 = (Ok tt, w', []) ->
      step_run w (Ok b) w' (t0 ++ tp)
  | step_caught w1 t0 e w2 tp w' :
      acquire_workspace bnk_file output_base_dir w = (Ok tt, w1, t0) ->
      pipeline_run w1 (Raise e) w2 tp ->
      final_cleanup (temp_dir_of bnk_file) w2 = (Ok tt, w', []) ->
      step_run w (Ok false) w'
        (t0 ++ tp ++
         [SpinnerStop; Print (MsgErrorException (path_name bnk_file) e)]).

End Runs.

(** The fragments of a workspace, as the conversion step enumerates them
    from the world [w]. *)
Definition fragments (temp_dir : PyPath) (w : World) : list PyPath :=
  path_join temp_dir <$>
    List.filter (ends_with ".wem") (listdir (resolve w temp_dir) (fs w)).

(** Whether a tool that ended, ended well. *)
Definition exit_ok (r : proc_result) : bool :=
  match r with
  | Exited returncode | Undecodable returncode => returncode =? 0
  | SpawnFailed => false
  end.

(** Whether the output of a tool reads as text. *)
Definition decodes (r : proc_result) : bool :=
  match r with
  | Undecodable _ => false
  | _ => true
  end.

(** What [run_command] makes of a run at a verbosity: the exit status
    counts, and below verbosity 3, where the output is captured, so does
    whether it decodes. *)
Definition command_ok (verbosity : Z) (r : proc_result) : bool :=
  exit_ok r && ((verbosity =? 3) || decodes r).

(** A converter whose output always reads as text. *)
Definition converter_writes_text (tools : Tools) : Prop :=
  forall tool t c output input,
    decodes (vgmstream tools tool t c output input).2 = true.

(** Two verbosities at which the shell runner treats the output of the
    converter alike: both capture it, or neither does, or there is nothing
    in it that capturing could stumble on. *)
Definition alike (tools : Tools) (v1 v2 : Z) : Prop :=
  (v1 =? 3) = (v2 =? 3) \/ converter_writes_text tools.

(** A program that says something and does nothing. *)
Definition silent (m : M unit) : Prop :=
  forall w, exists tr, m w = (Ok tt, w, tr) /\ actions tr = [].

(** The outputs the policy judged in a run, each with its measured size
    and its verdict, given where the output of a fragment goes. *)
Definition judged (output_of : PyPath -> PyPath) (tr : list event) :
    list ((PyPath * Z) * (bool * option string)) :=
  omap (fun fo : PyPath * outcome =>
          match fo.2 with
          | Judged file_size verdict => Some ((output_of fo.1, file_size), verdict)
          | ConversionFailed => None
          end) (outcomes tr).

(** ** Scenarios

    A program directory [/app] with one archive [input/foo.bnk] and an
    empty [output], the process running in [/app]. *)
Definition foo_bnk : PyPath := mkPath true ["app"; "input"; "foo.bnk"].

Definition output_base : PyPath := mkPath true ["app"; "output"].

Definition app_tree : node :=
  Dir 0 {[ "app" :=
    Dir 0 {[ "input" := Dir 0 {[ "foo.bnk" := File 777 ]};
             "output" := Dir 0 ∅ ]} ]}.

(** The same after an earlier run over the archive has left an output. *)
Definition app_tree_rerun : node :=
  Dir 0 {[ "app" :=
    Dir 0 {[ "input" := Dir 0 {[ "foo.bnk" := File 777 ]};
             "output" := Dir 0 {[ "foo" := Dir 0 {[ "old.wav" := File 5000 ]} ]} ]} ]}.

Definition app_world (t : node) (U : gset (list string)) : World :=
  mkWorld t ["app"] U.

(** The workspace of [foo.bnk], once acquired, seen from [/app]. *)
Definition foo_workspace : list string := ["app"; "temp_foo"].

(** The copy of the archive in its workspace: a path the operating system
    will not remove once it is there (as when the archive is read-only and
    the copy inherits the attribute). *)
Definition foo_copy : list string := ["app"; "temp_foo"; "foo.bnk"].

(** An extractor that writes two fragments and a converter that writes an
    output of 5000 and of 6000 bytes for them; both exit with 0. *)
Definition two_fragments : Tools :=
  mkTools
    (fun _ _ _ _ => ([("1.wem", 10); ("2.wem", 20)], Exited 0))
    (fun _ _ _ _ input =>
       (Some (if decide (path_name input = "1.wem") then 5000 else 6000),
        Exited 0)).

(** An extractor that writes a fragment and then fails. *)
Definition failing_extractor : Tools :=
  mkTools
    (fun _ _ _ _ => ([("1.wem", 10)], Exited 1))
    (fun _ _ _ _ _ => (Some 5000, Exited 0)).

(** An extractor that succeeds and writes nothing. *)
Definition empty_archive : Tools :=
  mkTools
    (fun _ _ _ _ => ([], Exited 0))
    (fun _ _ _ _ _ => (Some 5000, Exited 0)).

(** A converter that exits with 0 and writes nothing. *)
Definition mute_converter : Tools :=
  mkTools
    (fun _ _ _ _ => ([("1.wem", 10)], Exited 0))
    (fun _ _ _ _ _ => (None, Exited 0)).

(** [process_bnk_file] over [foo.bnk] at verbosity 1, writing wav, with
    small-file deletion below 4844 bytes and duplicate removal on. *)
Definition process_foo (tools : Tools) (cleanup_wem : bool) (w : World) :
    result bool * World * list event :=
  process_bnk_file tools foo_bnk output_base "wav" "bnkextr.exe"
    "vgmstream-cli.exe" 1 cleanup_wem true 4844 true w.

(** The program directory after an earlier run that retained a fragment
    [1.wem] in the output subdirectory of [foo.bnk]. *)
Definition app_tree_retained : node :=
  Dir 0 {[ "app" :=
    Dir 0 {[ "input" := Dir 0 {[ "foo.bnk" := File 777 ]};
             "output" := Dir 0 {[ "foo" := Dir 0 {[ "1.wem" := File 999 ]} ]} ]} ]}.

(** The world in which [foo.bnk] is released: after the acquisition, the
    extraction and the conversion of a run at verbosity 1 from the world
    [w]. *)
Definition before_release (tools : Tools) (w : World) : World :=
  let w1 := (acquire_workspace foo_bnk output_base w).1.2 in
  let w2 := (extract_bnk tools foo_bnk (temp_dir_of foo_bnk) "bnkextr.exe" 1 w1).1.2 in
  (convert_wem_files tools (temp_dir_of foo_bnk) (output_dir_of foo_bnk output_base)
     "wav" "vgmstream-cli.exe" 1 true 4844 true w2).1.2.

(** The program directory with a regular file where the output
    subdirectory of [foo.bnk] would go. *)
Definition app_tree_taken : node :=
  Dir 0 {[ "app" :=
    Dir 0 {[ "input" := Dir 0 {[ "foo.bnk" := File 777 ]};
             "output" := Dir 0 {[ "foo" := File 5 ]} ]} ]}.

(** A converter that writes a part of its output and fails. *)
Definition failing_converter : Tools :=
  mkTools
    (fun _ _ _ _ => ([("1.wem", 10)], Exited 0))
    (fun _ _ _ _ _ => (Some 100, Exited 1)).

(** A converter that succeeds with an output of 100 bytes. *)
Definition tiny_outputs : Tools :=
  mkTools
    (fun _ _ _ _ => ([("1.wem", 10)], Exited 0))
    (fun _ _ _ _ _ => (Some 100, Exited 0)).

(** A converter that exits with 0 and an output of 100 bytes, after
    writing to its standard output bytes that are no text in the locale's
    encoding. *)
Definition garbled_converter : Tools :=
  mkTools
    (fun _ _ _ _ => ([("1.wem", 10)], Exited 0))
    (fun _ _ _ _ _ => (Some 100, Undecodable 0)).

(** The same converter, writing no output file. *)
Definition garbled_mute_converter : Tools :=
  mkTools
    (fun _ _ _ _ => ([("1.wem", 10)], Exited 0))
    (fun _ _ _ _ _ => (None, Undecodable 0)).

(** An extractor that writes a fragment and exits with 0, after writing
    such bytes to its standard output. *)
Definition garbled_extractor : Tools :=
  mkTools
    (fun _ _ _ _ => ([("1.wem", 10)], Undecodable 0))
    (fun _ _ _ _ _ => (Some 5000, Exited 0)).

(** The world in which the fragments of [foo.bnk] are converted: after the
    acquisition and the extraction of a run at verbosity 1 from [/app]. *)
Definition before_conversion (tools : Tools) : World :=
  let w1 := (acquire_workspace foo_bnk output_base (app_world app_tree ∅)).1.2 in
  (extract_bnk tools foo_bnk (temp_dir_of foo_bnk) "bnkextr.exe" 1 w1).1.2.

(** An extractor that writes two fragments and a converter that writes an
    output of 5000 bytes for each. *)
Definition twin_outputs : Tools :=
  mkTools
    (fun _ _ _ _ => ([("1.wem", 10); ("2.wem", 20)], Exited 0))
    (fun _ _ _ _ _ => (Some 5000, Exited 0)).

(** ** Releasing the workspace, as an invariant *)

(** A completed move of a fragment out of the workspace [T] into the
    directory [O]: the only kind of move a release makes. *)
Definition fragment_move (T O : list string) (e : event) : Prop :=
  match e with
  | Moved s d =>
      exists name,
        ends_with ".wem" name = true /\ s = T ++ [name] /\ d = O ++ [name]
  | _ => True
  end.

(** While the workspace [c0 ++ [temp]] is released: it stands, and every
    path outside it that was there in [t0] is as it was. *)
Definition releasing (c0 : list string) (U : gset (list string))
    (temp : string) (t0 : node) (w : World) : Prop :=
  cwd w = c0 /\ undeletable w = U /\ is_dir (c0 ++ [temp]) (fs w) = true /\
  forall q,
    ~ (c0 ++ [temp]) `prefix_of` q -> is_Some (stat q t0) ->
    stat q (fs w) = stat q t0.

(** ** Text, as the console functions handle it

    Console input is taken to be ASCII text; what follows are Python's
    string methods on such text. *)

(** The characters [str.isspace] holds of. *)
Definition is_space (c : ascii) : bool :=
  let n := nat_of_ascii c in
  ((9 <=? n) && (n <=? 13) || (28 <=? n) && (n <=? 32))%nat.

Definition is_digit (c : ascii) : bool :=
  let n := nat_of_ascii c in ((48 <=? n) && (n <=? 57))%nat.

Definition digit_value (c : ascii) : Z := Z.of_nat (nat_of_ascii c) - 48.

Fixpoint lstrip (s : string) : string :=
  match s with
  | EmptyString => EmptyString
  | String c s' => if is_space c then lstrip s' else s
  end.

Fixpoint rstrip (s : string) : string :=
  match s with
  | EmptyString => EmptyString
  | String c s' =>
      match rstrip s' with
      | EmptyString => if is_space c then EmptyString else String c EmptyString
      | r => String c r
      end
  end.

(** [s.strip()] *)
Definition strip (s : string) : string := rstrip (lstrip s).

(** The strings of whitespace only, the empty one among them. *)
Fixpoint blank (s : string) : bool :=
  match s with
  | EmptyString => true
  | String c s' => is_space c && blank s'
  end.

(** The strings without whitespace. *)
Fixpoint spaceless (s : string) : bool :=
  match s with
  | EmptyString => true
  | String c s' => negb (is_space c) && spaceless s'
  end.

(** [s.split()]: the maximal runs of characters that are no whitespace;
    [cur] is the run being read. *)
Fixpoint split_go (cur : string) (s : string) : list string :=
  match s with
  | EmptyString => if decide (cur = "") then [] else [cur]
  | String c s' =>
      if is_space c
      then (if decide (cur = "") then [] else [cur]) ++ split_go "" s'
      else split_go (cur +:+ String c "") s'
  end.

Definition split (s : string) : list string := split_go "" s.

Definition upper_char (c : ascii) : ascii :=
  let n := nat_of_ascii c in
  if ((97 <=? n) && (n <=? 122))%nat then ascii_of_nat (n - 32) else c.

(** [s.upper()] *)
Fixpoint upper (s : string) : string :=
  match s with
  | EmptyString => EmptyString
  | String c s' => String (upper_char c) (upper s')
  end.

Fixpoint all_digits (s : string) : bool :=
  match s with
  | EmptyString => true
  | String c s' => is_digit c && all_digits s'
  end.

(** [s.isdigit()] *)
Definition isdigit (s : string) : bool :=
  negb (bool_decide (s = "")) && all_digits s.

Fixpoint count_digits (s : string) : nat :=
  match s with
  | EmptyString => O
  | String c s' => ((if is_digit c then 1 else 0) + count_digits s')%nat
  end.

(** The digits of an integer literal as [int] reads them: one underscore is
    allowed between two digits. [after_digit] tells whether the character
    before was a digit. *)
Fixpoint int_digits (s : string) (acc : Z) (after_digit : bool) : option Z :=
  match s with
  | EmptyString => if after_digit then Some acc else None
  | String c s' =>
      if is_digit c then int_digits s' (10 * acc + digit_value c) true
      else if Ascii.eqb c "_"%char && after_digit then int_digits s' acc false
      else None
  end.

(** [sys.int_info.default_max_str_digits] *)
Definition int_max_str_digits : nat := 4300.

(** [int(text)], [None] for [ValueError]: blanks around the literal, one
    sign, decimal digits, and no more digits than the interpreter
    converts. *)
Definition int_of (text : string) : option Z :=
  let s := strip text in
  let '(negative, body) :=
    match s with
    | String "+"%char r => (false, r)
    | String "-"%char r => (true, r)
    | _ => (false, s)
    end in
  if (int_max_str_digits <? count_digits body)%nat then None
  else (fun n => if negative : bool then - n else n) <$> int_digits body 0 false.

(** [str(n)] of a natural number. *)
Definition str_nat (n : nat) : string :=
  NilEmpty.string_of_uint (Nat.to_uint n).

(** [xs[i]], [None] for [IndexError]; a negative index counts from the
    end. *)
Definition py_index {A} (xs : list A) (i : Z) : option A :=
  let n := Z.of_nat (length xs) in
  if (0 <=? i) && (i <? n) then xs !! Z.to_nat i
  else if (- n <=? i) && (i <? 0) then xs !! Z.to_nat (n + i)
  else None.

(** [enumerate(xs, start)] *)
Definition enumerate {A} (start : nat) (xs : list A) : list (nat * A) :=
  zip (seq start (length xs)) xs.

(** A dictionary literal, in the order of its items. *)
Definition dict := list (string * string).

(** [d[k]], [None] for [KeyError]. *)
Fixpoint dict_get (d : dict) (k : string) : option string :=
  match d with
  | [] => None
  | (k', v) :: d' => if decide (k' = k) then Some v else dict_get d' k
  end.

(** [k in d] *)
Definition dict_has (d : dict) (k : string) : bool :=
  bool_decide (k ∈ d.*1).

(** The newline character, and [c * n]. *)
Definition nl : string := String "010"%char "".

Fixpoint times (c : string) (n : nat) : string :=
  match n with
  | O => ""
  | S n' => c +:+ times c n'
  end.

(** [str(p)], in the POSIX flavour: [/] between the components. *)
Definition path_str (p : PyPath) : string :=
  match p_parts p with
  | [] => if p_abs p then "/" else "."
  | parts => (if p_abs p then "/" else "") +:+ String.concat "/" parts
  end.

(** [p.parent] *)
Definition path_parent (p : PyPath) : PyPath :=
  mkPath (p_abs p) (removelast (p_parts p)).

(** ** The console session

    The interactive part of the program reads lines from the console and
    writes to it, around the pipeline. Its state is the world and the lines
    the console still holds; reading past the last raises. *)

Inductive ui_exn :=
  | LibraryError (e : exn)
  | EOFError
  | ValueError
  | KeyError
  | IndexError
  | SystemExit (code : Z).

(** What a session shows: a printed line, the prompt of an [input], an
    event of the pipeline. *)
Inductive ui_event :=
  | Say (text : string)
  | Ask (prompt : string)
  | Ran (e : event).

Record Session := mkSession { world : World; stdin : list string }.

Inductive answer (A : Type) :=
  | Returned (a : A)
  | Raised (e : ui_exn).
Arguments Returned {A} a.
Arguments Raised {A} e.

Definition UI (A : Type) : Type := Session -> answer A * Session * list ui_event.

Definition ui_ret {A} (a : A) : UI A := fun s => (Returned a, s, []).

Definition ui_bind {A B} (m : UI A) (k : A -> UI B) : UI B :=
  fun s =>
    match m s with
    | (Returned a, s1, t1) => let '(r, s2, t2) := k a s1 in (r, s2, t1 ++ t2)
    | (Raised e, s1, t1) => (Raised e, s1, t1)
    end.

Definition ui_raise {A} (e : ui_exn) : UI A := fun s => (Raised e, s, []).

Declare Scope ui_scope.
Delimit Scope ui_scope with ui.
Notation "x <- m ;; k" := (ui_bind m (fun x => k))
  (at level 100, m at next level, right associativity) : ui_scope.
Notation "m ;; k" := (ui_bind m (fun _ => k))
  (at level 100, right associativity) : ui_scope.

(** A step of the pipeline, run inside the session. The tools are taken
    not to read from the console. *)
Definition lift {A} (m : M A) : UI A :=
  fun s =>
    let '(r, w, tr) := m (world s) in
    (match r with
     | Ok a => Returned a
     | Raise e => Raised (LibraryError e)
     end, mkSession w (stdin s), Ran <$> tr).

(** [print(text)] *)
Definition say (text : string) : UI unit := fun s => (Returned tt, s, [Say text]).

(** [input(prompt)] *)
Definition input (prompt : string) : UI string :=
  fun s =>
    match stdin s with
    | [] => (Raised EOFError, s, [Ask prompt])
    | line :: rest => (Returned line, mkSession (world s) rest, [Ask prompt])
    end.

(** [sys.exit(code)] *)
Definition sys_exit {A} (code : Z) : UI A := ui_raise (SystemExit code).

Fixpoint ui_for_each {A} (xs : list A) (body : A -> UI unit) : UI unit :=
  match xs with
  | [] => ui_ret tt
  | x :: rest => ui_bind (body x) (fun _ => ui_for_each rest body)
  end.

(** What the interpreter knows of how the program was started:
    [sys._MEIPASS] when a bundle sets it, [sys.frozen], [sys.executable]
    and [__file__]. *)
Record Runtime := mkRuntime {
  meipass : option PyPath;
  frozen : bool;
  executable : PyPath;
  script : PyPath
}.

(** ** The interactive program *)

Open Scope ui_scope.

(** One turn of the loop of [get_choice] on the typed [choice]: the value
    to return, or [None] for an invalid choice. With a validator the value
    is the validator's; without one, the choice itself when it is a key of
    [options]. *)
Definition accept {A} (options : dict) (validator : option (string -> option A))
    (choice : string) : option (A + string) :=
  match validator with
  | Some validate => inl <$> validate choice
  | None => if dict_has options choice then Some (inr choice) else None
  end.

(** The loop of [get_choice], by recursion on the lines the console still
    holds: each turn reads one, and on an empty console [input] raises. *)
Fixpoint get_choice_loop {A} (options : dict)
    (validator : option (string -> option A)) (lines : list string) :
    UI (A + string) :=
  match lines with
  | [] => _ <- input "Enter choice: " ;; ui_raise EOFError
  | _ :: rest =>
      line <- input "Enter choice: " ;;
      let choice := strip line in
      match accept options validator choice with
      | Some value => ui_ret value
      | None => say "Invalid choice." ;; get_choice_loop options validator rest
      end
  end.

Definition get_choice {A} (prompt : string) (options : dict)
    (validator : option (string -> option A)) : UI (A + string) :=
  say prompt ;;
  ui_for_each options (fun '(k, v) => say (k +:+ ". " +:+ v)) ;;
  fun s => get_choice_loop options validator (stdin s) s.

(** [get_choice(prompt, options)], as every caller has it: without a
    validator the value is the key typed. *)
Definition get_choice_key (prompt : string) (options : dict) : UI string :=
  value <- get_choice prompt options (None : option (string -> option Empty_set)) ;;
  match value with
  | inr choice => ui_ret choice
  | inl impossible => match impossible with end
  end.

Definition formats : dict :=
  [("1", "wav"); ("2", "mp3"); ("3", "ogg"); ("4", "flac"); ("5", "m4a")].

Definition get_format : UI string :=
  choice <- get_choice_key "Select output format:"
              ((fun '(k, v) => (k, upper v)) <$> formats) ;;
  match dict_get formats choice with
  | Some format => ui_ret format
  | None => ui_raise KeyError
  end.

Definition levels : dict :=
  [("1", "Minimal output"); ("2", "Standard output"); ("3", "Full output")].

Definition get_verbosity : UI Z :=
  choice <- get_choice_key (nl +:+ "Output verbosity:") levels ;;
  match int_of choice with
  | Some verbosity => ui_ret verbosity
  | None => ui_raise ValueError
  end.

Definition get_cleanup_settings : UI (bool * bool * Z * bool) :=
  choice <- get_choice_key (nl +:+ "Clean up .wem files after conversion?")
              [("1", "Keep .wem files"); ("2", "Delete .wem files")] ;;
  let cleanup_wem := bool_decide (choice = "2") in
  choice <- get_choice_key
              (nl +:+ "Delete small output files?" +:+ nl +:+
               "Note: Files smaller than 4844 bytes are usually empty/silent audio.")
              [("1", "Keep all output files");
               ("2", "Delete files smaller than specified size")] ;;
  let delete_small := bool_decide (choice = "2") in
  min_file_size <-
    (if delete_small then
       size_input <- input (nl +:+ "Enter minimum file size in bytes (default: 4844): ") ;;
       let size_input := strip size_input in
       ui_ret (if decide (size_input = "") then 4844
               else match int_of size_input with
                    | Some size => size
                    | None => 4844
                    end)
     else ui_ret 0) ;;
  choice <- get_choice_key
              (nl +:+ "Remove duplicate files by size?" +:+ nl +:+
               "WARNING: This may remove unique files that happen to have the same size!")
              [("1", "Keep all files");
               ("2", "Remove files with identical file sizes")] ;;
  let remove_duplicates := bool_decide (choice = "2") in
  ui_ret (cleanup_wem, delete_small, min_file_size, remove_duplicates).

(** [get_executable_dir]. A [Path] always has a [parent], so the working
    directory the source names as the alternative is never asked for. *)
Definition get_executable_dir (rt : Runtime) : PyPath :=
  if frozen rt then path_parent (executable rt) else path_parent (script rt).

(** [get_resource_path], for a relative path given by its components; the
    result is the path the joined string names. Without [sys._MEIPASS] the
    base is the parent of [__file__], which a [Path] always has. *)
Definition get_resource_path (rt : Runtime) (relative_path : list string) :
    PyPath :=
  let base_path :=
    match meipass rt with
    | Some bundle => bundle
    | None => path_parent (script rt)
    end in
  foldl path_join base_path relative_path.

Definition find_bnk_files (rt : Runtime) : UI (list PyPath * PyPath) :=
  let script_dir := get_executable_dir rt in
  let input_dir := path_join script_dir "input" in
  present <- lift (path_exists input_dir) ;;
  (if negb present then
     say (nl +:+ "[ERROR] Input directory '" +:+ path_str input_dir +:+ "' not found!") ;;
     say ("Please create an 'input' folder in " +:+ path_str script_dir +:+
          " and place your .bnk files there.") ;;
     input "Press Enter to exit..." ;;
     sys_exit 1
   else ui_ret tt) ;;
  bnk_files <- lift (glob input_dir ".bnk") ;;
  (match bnk_files with
   | [] =>
       say ("[ERROR] No .bnk files found in " +:+ path_str input_dir +:+ "!") ;;
       input "Press Enter to exit..." ;;
       sys_exit 1
   | _ :: _ => ui_ret tt
   end) ;;
  ui_ret (bnk_files, path_join script_dir "output").

(** The archives of the numbers typed in the multiple selection; [None]
    when the comprehensions raise [ValueError] or [IndexError]. *)
Definition select_multiple (bnk_files : list PyPath) (numbers : list string) :
    option (list PyPath) :=
  ns ← mapM int_of (List.filter isdigit numbers) ;
  let indices := (fun n => n - 1) <$> ns in
  mapM (py_index bnk_files)
    (List.filter (fun i => (0 <=? i) && (i <? Z.of_nat (length bnk_files)))
       indices).

Definition select_files (bnk_files : list PyPath) : UI (list PyPath) :=
  say (nl +:+ "[*] Scanning for .bnk files...") ;;
  ui_for_each (enumerate 1 bnk_files)
    (fun '(i, bnk_file) =>
       say ("     " +:+ str_nat i +:+ ". " +:+ path_name bnk_file)) ;;
  say (nl +:+ "Select .bnk files to process:") ;;
  say "A. Process ALL files" ;;
  say "M. Select MULTIPLE files" ;;
  ui_for_each (enumerate 1 bnk_files)
    (fun '(i, bnk_file) =>
       say (str_nat i +:+ ". Process only " +:+ path_name bnk_file)) ;;
  line <- input "Enter your choice: " ;;
  let selection := upper (strip line) in
  if decide (selection = "A") then ui_ret bnk_files
  else if decide (selection = "M") then
    say (nl +:+ "Enter file numbers separated by spaces (e.g., 1 3 5):") ;;
    line <- input "" ;;
    let numbers := split (strip line) in
    match select_multiple bnk_files numbers with
    | Some files => ui_ret files
    | None => ui_ret []
    end
  else
    match int_of selection with
    | Some n =>
        let index := n - 1 in
        if (0 <=? index) && (index <? Z.of_nat (length bnk_files)) then
          match py_index bnk_files index with
          | Some bnk_file => ui_ret [bnk_file]
          | None => ui_raise IndexError
          end
        else ui_ret []
    | None => ui_ret []
    end.

Definition validate_tools (rt : Runtime) : UI (string * string) :=
  let bnkextr_path := get_resource_path rt ["bnkextr.exe"] in
  let vgmstream_path :=
    get_resource_path rt ["vgmstream-cli"; "vgmstream-cli.exe"] in
  ui_for_each
    [(bnkextr_path, "bnkextr.exe"); (vgmstream_path, "vgmstream-cli.exe")]
    (fun '(tool_path, tool_name) =>
       present <- lift (path_exists tool_path) ;;
       if negb present then
         say ("[ERROR] " +:+ tool_name +:+ " not found at " +:+ path_str tool_path) ;;
         input "Press Enter to exit..." ;;
         sys_exit 1
       else ui_ret tt) ;;
  ui_ret (path_str bnkextr_path, path_str vgmstream_path).

Section Main.

Context (tools : Tools) (rt : Runtime).

Definition main : UI unit :=
  say (times "=" 40) ;;
  say "    BNK Audio Extractor and Converter" ;;
  say (times "=" 40) ;;
  say "" ;;
  ext <- get_format ;;
  verbosity <- get_verbosity ;;
  settings <- get_cleanup_settings ;;
  let '(cleanup_wem, delete_small, min_file_size, remove_duplicates) :=
    settings in
  found <- find_bnk_files rt ;;
  let '(bnk_files, output_dir) := found in
  files_to_process <- select_files bnk_files ;;
  match files_to_process with
  | [] => say "No files selected for processing."
  | _ :: _ =>
      say (nl +:+ "[*] Creating main output directory...") ;;
      lift (mkdir output_dir true) ;;
      paths <- validate_tools rt ;;
      let '(bnkextr_path, vgmstream_path) := paths in
      report <-
        lift (processed_files tools files_to_process output_dir ext
                bnkextr_path vgmstream_path verbosity cleanup_wem delete_small
                min_file_size remove_duplicates) ;;
      say (nl +:+ times "=" 40) ;;
      say "[*] All conversions completed!" ;;
      ui_for_each report
        (fun bnk_file =>
           say ("[*] Output saved to: " +:+ path_str output_dir +:+ "/" +:+
                path_stem bnk_file +:+ "/")) ;;
      say (times "=" 40) ;;
      _ <- input "Press Enter to exit..." ;;
      ui_ret tt
  end.

End Main.

Close Scope ui_scope.

(** The program started as the script [/app/bnk_autoconverter.py], not
    bundled. *)
Definition app_runtime : Runtime :=
  mkRuntime None false (mkPath true ["usr"; "bin"; "python3"])
    (mkPath true ["app"; "bnk_autoconverter.py"]).

(** ** Reasoning about sessions *)

(** An event that is no event of the pipeline. *)
Definition console_only (e : ui_event) : Prop :=
  match e with
  | Ran _ => False
  | _ => True
  end.

(** [m] is questions and answers only: however it ends, the world is as it
    was, no step of the pipeline was taken, and the console holds a tail of
    what it held; a value it returns is in [R], an exception it raises is
    in [E]. *)
Definition asks_only {A} (E : ui_exn -> Prop) (R : A -> Prop) (m : UI A) : Prop :=
  forall s r s' tr,
    m s = (r, s', tr) ->
    world s' = world s /\ Forall console_only tr /\
    suffix (stdin s') (stdin s) /\
    match r with
    | Returned a => R a
    | Raised e => E e
    end.

(** The lines [get_choice] prints before it asks, and its exchange over a
    list of lines it rejects. *)
Definition menu (prompt : string) (options : dict) : list ui_event :=
  Say prompt ::
  ((fun kv : string * string => Say (kv.1 +:+ ". " +:+ kv.2)) <$> options).

Definition rejections (bad : list string) : list ui_event :=
  bad ≫= (fun _ => [Ask "Enter choice: "; Say "Invalid choice."]).

(** How a run of a part of the session stands to the line that announces
    the work: idle, with the world as it was, console traffic only, and an
    end that is a return, the end of input or exit status 1; or announced,
    with console traffic only before the line. *)
Definition announced_or_idle {A} (line : string)
    (s : Session) (r : answer A) (s' : Session) (tr : list ui_event) : Prop :=
  (world s' = world s /\ Forall console_only tr /\
   match r with
   | Returned _ => True
   | Raised e => e = EOFError \/ e = SystemExit 1
   end) \/
  (exists tr1 tr2, tr = tr1 ++ Say line :: tr2 /\ Forall console_only tr1).

(** [token] is the number the menu shows before [file]: a string of
    digits that reads as the place of [file] in [bnk_files], counted from
    1. *)
Definition names_archive (bnk_files : list PyPath) (token : string)
    (file : PyPath) : Prop :=
  isdigit token = true /\
  exists k, int_of token = Some (Z.of_nat (S k)) /\ bnk_files !! k = Some file.

(** The tools a session started, in order. *)
Definition tools_run (tr : list ui_event) : list command :=
  executed (omap (fun e => match e with Ran e' => Some e' | _ => None end) tr).

(** * Names and paths *)

Example stem_examples :
  stem_of "foo.bnk" = "foo" /\ stem_of "a.tar.gz" = "a.tar" /\
  stem_of ".wem" = ".wem" /\ stem_of "foo." = "foo." /\ stem_of "" = "" /\
  ends_with ".wem" "12.wem" = true /\ ends_with ".wem" "foo.bnk" = false /\
  ends_with ".wem" ".wem" = true.
Proof. repeat split; reflexivity. Qed.

Example path_examples :
  temp_dir_of foo_bnk = mkPath false ["temp_foo"] /\
  output_dir_of foo_bnk output_base = mkPath true ["app"; "output"; "foo"] /\
  resolve (app_world app_tree ∅) (temp_dir_of foo_bnk) = foo_workspace /\
  resolve (mkWorld app_tree foo_workspace ∅)
    (path_join (temp_dir_of foo_bnk) (path_name foo_bnk))
  = ["app"; "temp_foo"; "temp_foo"; "foo.bnk"].
Proof. repeat split; reflexivity. Qed.

(** * Filtering Policy *)

Lemma should_delete_file_small output_file file_size min_file_size
    remove_duplicates file_sizes :
  file_size < min_file_size ->
  should_delete_file output_file file_size true min_file_size
    remove_duplicates file_sizes = ((true, Some "small"), file_sizes).
Proof.
  intros Hlt. unfold should_delete_file.
  apply Z.ltb_lt in Hlt. by rewrite Hlt.
Qed.

(** C1. With small-file deletion enabled and a size strictly below the
    threshold, the decision is delete-as-small, whatever the duplicate
    setting and whatever sizes [file_sizes] already holds (also this very
    size); it is never delete-as-duplicate, and [file_sizes] is left as it
    was. *)
Theorem small_before_duplicate output_file file_size delete_small
    min_file_size remove_duplicates file_sizes :
  delete_small = true ->
  file_size < min_file_size ->
  let '(verdict, file_sizes') :=
    should_delete_file output_file file_size delete_small min_file_size
      remove_duplicates file_sizes in
  decision_of verdict = Some DeleteSmall /\
  decision_of verdict <> Some DeleteDuplicate /\
  file_sizes' = file_sizes.
Proof.
  intros -> Hlt. rewrite should_delete_file_small by done.
  split; [reflexivity | split; [discriminate | reflexivity]].
Qed.

Lemma small_before_duplicate_witness :
  let file_sizes : gmap Z string := {[ 50 := "first.wav" ]} in
  file_sizes !! 50 = Some "first.wav" /\
  let '(verdict, file_sizes') :=
    should_delete_file (mkPath false ["out"; "second.wav"]) 50 true 100 true
      file_sizes in
  decision_of verdict = Some DeleteSmall /\
  decision_of verdict <> Some DeleteDuplicate /\
  file_sizes' = file_sizes.
Proof.
  split; [reflexivity |].
  apply (small_before_duplicate (mkPath false ["out"; "second.wav"]) 50 true
           100 true {[ 50 := "first.wav" ]}); [reflexivity | lia].
Defined.

(** C2. Duplicate removal on, small-file deletion off: outputs of sizes
    1000, 2000, 1000, judged in that order from an empty [file_sizes], get
    keep, keep, delete-as-duplicate. *)
Theorem duplicate_law o1 o2 o3 min_file_size :
  decision_of <$>
    filter_outputs [(o1, 1000); (o2, 2000); (o3, 1000)] false min_file_size
      true ∅
  = [Some Keep; Some Keep; Some DeleteDuplicate].
Proof.
  cbn. unfold should_delete_file. cbn.
  rewrite (bool_decide_eq_false_2 (is_Some ((∅ : gmap Z string) !! 1000)))
    by (rewrite lookup_empty; by intros [? ?]).
  cbn.
  rewrite bool_decide_eq_false_2
    by (rewrite lookup_insert_ne by lia; rewrite lookup_empty; by intros [? ?]).
  cbn.
  rewrite bool_decide_eq_true_2; [done |].
  rewrite lookup_insert_ne by lia. rewrite lookup_insert_eq. eauto.
Qed.

(** C3. [file_sizes] changes only on the keep path of rule 3: duplicate
    removal is on, the verdict is keep, the size was not in [file_sizes], and
    the change is the recording of that size under the file's name. On a
    delete verdict, and with duplicate removal off, it is returned as it
    was. *)
Theorem file_sizes_frame output_file file_size delete_small min_file_size
    remove_duplicates file_sizes :
  let '(verdict, file_sizes') :=
    should_delete_file output_file file_size delete_small min_file_size
      remove_duplicates file_sizes in
  (file_sizes' = file_sizes \/
   remove_duplicates = true /\ decision_of verdict = Some Keep /\
   file_sizes !! file_size = None /\
   file_sizes' = <[file_size := path_name output_file]> file_sizes) /\
  (file_sizes' <> file_sizes ->
   remove_duplicates = true /\ decision_of verdict = Some Keep /\
   file_sizes !! file_size = None) /\
  (decision_of verdict <> Some Keep -> file_sizes' = file_sizes) /\
  (remove_duplicates = false -> file_sizes' = file_sizes).
Proof.
  unfold should_delete_file.
  destruct (delete_small && (file_size <? min_file_size)) eqn:Hsmall.
  { cbn. repeat split; auto; try congruence. }
  destruct remove_duplicates; cbn [andb].
  - case_bool_decide as Hseen.
    + cbn. repeat split; auto; congruence.
    + assert (file_sizes !! file_size = None) as Hnone.
      { destruct (file_sizes !! file_size) eqn:E; [|done]. destruct Hseen; eauto. }
      cbn. repeat split; auto; try congruence.
  - cbn. repeat split; auto; congruence.
Qed.

(** * The directory tree *)

Lemma lookup_node_app p q t :
  lookup_node (p ++ q) t = lookup_node p t ≫= lookup_node q.
Proof.
  revert t. induction p as [|c p IH]; intros t; [done |].
  cbn. destruct t as [|s m]; [done |].
  destruct (m !! c); [apply IH | done].
Qed.

Lemma is_dir_stat p t : is_dir p t = true <-> exists s, stat p t = Some (IsDir s).
Proof.
  unfold is_dir. destruct (stat p t) as [[|]|]; split; try done; eauto.
  - by intros [? ?].
  - by intros [? ?].
Qed.

Lemma is_dir_lookup p t :
  is_dir p t = true <-> exists s m, lookup_node p t = Some (Dir s m).
Proof.
  unfold is_dir, stat. destruct (lookup_node p t) as [[|]|]; cbn; split;
    try done; eauto.
  - by intros (? & ? & ?).
  - by intros (? & ? & ?).
Qed.

(** Whatever lies below a path lies in a directory. *)
Lemma lookup_below_is_dir p c q t :
  is_Some (lookup_node (p ++ c :: q) t) -> is_dir p t = true.
Proof.
  rewrite lookup_node_app. intros [n Hn].
  apply is_dir_lookup.
  destruct (lookup_node p t) as [[|s m]|]; cbn in Hn; try done. eauto.
Qed.

Lemma stat_below_is_dir p q t :
  p `prefix_of` q -> p <> q -> is_Some (stat q t) -> is_dir p t = true.
Proof.
  intros [r ->] Hne Hq. destruct r as [|c r].
  { by rewrite app_nil_r in Hne. }
  apply (lookup_below_is_dir p c r). unfold stat in Hq.
  destruct (lookup_node (p ++ c :: r) t); [eauto | by destruct Hq].
Qed.

(** An update shows only at its path and below. *)
Lemma stat_update_node_outside p f q t :
  ~ p `prefix_of` q -> stat q (update_node p f t) = stat q t.
Proof.
  revert q t. induction p as [|c p IH]; intros q t Hq.
  { destruct Hq. apply prefix_nil. }
  destruct t as [|s m]; [done |].
  destruct q as [|c' q]; [by destruct p |].
  unfold stat. cbn [update_node]. destruct p as [|c2 p].
  - cbn. destruct (decide (c = c')) as [->|Hne].
    + destruct Hq. by apply prefix_cons, prefix_nil.
    + by rewrite lookup_partial_alter_ne.
  - cbn [lookup_node]. destruct (decide (c = c')) as [->|Hne].
    + rewrite lookup_alter_eq. destruct (m !! c') as [n|]; cbn; [|done].
      apply (IH q n). intros Hp. apply Hq. by apply prefix_cons.
    + by rewrite lookup_alter_ne.
Qed.

(** At its path, in an existing directory, an update shows as the new
    entry, with all that the entry holds. *)
Lemma lookup_update_node_at p f r t :
  p <> [] -> is_dir (removelast p) t = true ->
  lookup_node (p ++ r) (update_node p f t) = f (lookup_node p t) ≫= lookup_node r.
Proof.
  revert t. induction p as [|c p IH]; intros t Hp Hdir; [done |].
  destruct t as [|s m].
  { apply is_dir_lookup in Hdir as (? & ? & Hd). destruct p; cbn in Hd; done. }
  cbn [update_node]. destruct p as [|c2 p].
  - cbn. rewrite lookup_partial_alter_eq. destruct (m !! c); by destruct (f _).
  - change ((c :: c2 :: p) ++ r) with (c :: ((c2 :: p) ++ r)).
    cbn [lookup_node]. rewrite lookup_alter_eq.
    apply is_dir_lookup in Hdir as (s' & m' & Hd).
    change (removelast (c :: c2 :: p)) with (c :: removelast (c2 :: p)) in Hd.
    cbn [lookup_node] in Hd.
    destruct (m !! c) as [n|]; [|done]. cbn.
    apply IH; [done |]. apply is_dir_lookup; eauto.
Qed.

(** Outside an existing directory an update does nothing. *)
Lemma update_node_no_parent p f t :
  p <> [] -> is_dir (removelast p) t = false -> update_node p f t = t.
Proof.
  revert t. induction p as [|c p IH]; intros t Hp Hdir; [done |].
  destruct t as [|s m]; [done |].
  cbn [update_node]. destruct p as [|c2 p].
  - by destruct (is_dir_lookup [] (Dir s m)) as [_ []]; [eauto | ].
  - change (removelast (c :: c2 :: p)) with (c :: removelast (c2 :: p)) in Hdir.
    f_equal. apply map_eq. intros i. destruct (decide (c = i)) as [<-|Hne].
    + rewrite lookup_alter_eq. destruct (m !! c) as [n|] eqn:Hn; [|done].
      cbn. f_equal. apply IH; [done |].
      unfold is_dir, stat in *. cbn [lookup_node] in Hdir. by rewrite Hn in Hdir.
    + by rewrite lookup_alter_ne.
Qed.

Lemma update_node_nil f t : update_node [] f t = t.
Proof. by destruct t. Qed.

(** The two ways an update can go. *)
Lemma update_node_cases p f t :
  update_node p f t = t \/
  (p <> [] /\ is_dir (removelast p) t = true /\
   forall r, lookup_node (p ++ r) (update_node p f t)
             = f (lookup_node p t) ≫= lookup_node r).
Proof.
  destruct p as [|c p]; [left; apply update_node_nil |].
  destruct (is_dir (removelast (c :: p)) t) eqn:Hdir.
  - right. repeat split; [done |]. intros r. by apply lookup_update_node_at.
  - left. by apply update_node_no_parent.
Qed.

Lemma is_dir_prefix p q t :
  p `prefix_of` q -> is_dir q t = true -> is_dir p t = true.
Proof.
  intros Hpq Hq. destruct (decide (p = q)) as [->|Hne]; [done |].
  apply (stat_below_is_dir p q); [done | done |].
  apply is_dir_stat in Hq as [s ->]. eauto.
Qed.

Lemma is_dir_false_below p q t :
  p `prefix_of` q -> is_dir p t = false -> is_dir q t = false.
Proof.
  intros Hpq Hp. destruct (is_dir q t) eqn:Hq; [|done].
  by rewrite (is_dir_prefix p q t Hpq Hq) in Hp.
Qed.

Lemma is_dir_outside p f q t :
  ~ p `prefix_of` q -> is_dir q (update_node p f t) = is_dir q t.
Proof. intros H. unfold is_dir. by rewrite stat_update_node_outside. Qed.

(** A regular file put where no directory stands leaves the directories
    of the tree as they are. *)
Lemma is_dir_put_file p s q t :
  is_dir p t = false -> is_dir q (put_node p (File s) t) = is_dir q t.
Proof.
  intros Hp. destruct (decide (p `prefix_of` q)) as [[r ->]|Hout].
  - rewrite (is_dir_false_below p (p ++ r) t) by (done || by eexists).
    unfold put_node. destruct (update_node_cases p (fun _ => Some (File s)) t)
      as [->|(_ & _ & Hat)].
    + by apply (is_dir_false_below p); [eexists|].
    + unfold is_dir, stat. rewrite Hat. cbn. by destruct r.
  - by apply is_dir_outside.
Qed.

Lemma is_dir_write_file p s q t :
  is_dir q (write_file p s t) = is_dir q t.
Proof.
  unfold write_file. destruct (is_dir (removelast p) t); cbn [andb]; [|done].
  destruct (is_dir p t) eqn:Hp; cbn [negb]; [done |].
  by apply is_dir_put_file.
Qed.

Lemma stat_write_file_outside p s q t :
  ~ p `prefix_of` q -> stat q (write_file p s t) = stat q t.
Proof.
  intros H. unfold write_file.
  destruct (is_dir (removelast p) t && negb (is_dir p t)); [|done].
  by apply stat_update_node_outside.
Qed.

(** Below a removed entry there is nothing. *)
Lemma stat_remove_node_below p q t :
  p <> [] -> p `prefix_of` q -> stat q (remove_node p t) = None.
Proof.
  intros Hp [r ->]. unfold remove_node, stat.
  destruct (update_node_cases p (fun _ => None) t) as [Hsame|(_ & Hdir & Hat)];
    [|by rewrite Hat].
  destruct (is_dir (removelast p) t) eqn:Hdir.
  { by rewrite lookup_update_node_at. }
  rewrite Hsame, lookup_node_app.
  destruct (lookup_node p t) eqn:Hl; [|done].
  destruct (exists_last Hp) as (p0 & c & ->).
  rewrite removelast_last in Hdir.
  rewrite (lookup_below_is_dir p0 c [] t) in Hdir; [done |].
  rewrite Hl. eauto.
Qed.

(** Removing a regular file leaves the directories as they are. *)
Lemma is_dir_remove_file p s q t :
  stat p t = Some (IsFile s) -> is_dir q (remove_node p t) = is_dir q t.
Proof.
  intros Hfile. assert (is_dir p t = false) as Hp by (unfold is_dir; by rewrite Hfile).
  destruct (decide (p `prefix_of` q)) as [Hpre|Hout].
  - rewrite (is_dir_false_below p q t) by done.
    destruct (decide (p = [])) as [->|Hne].
    + unfold remove_node. rewrite update_node_nil.
      by apply (is_dir_false_below []).
    + unfold is_dir. by rewrite stat_remove_node_below.
  - by apply is_dir_outside.
Qed.

(** A new entry put at a free path hides no directory. *)
Lemma is_dir_put_free p n q t :
  is_dir p t = false -> is_dir q t = true -> is_dir q (put_node p n t) = true.
Proof.
  intros Hp Hq. destruct (decide (p `prefix_of` q)) as [Hpre|Hout].
  - by rewrite (is_dir_false_below p q t) in Hq.
  - unfold put_node. by rewrite is_dir_outside.
Qed.

(** A fresh directory is empty. *)
Lemma stat_put_empty_dir_below p c r t :
  stat p t = None -> stat (p ++ c :: r) (put_node p (Dir 0 ∅) t) = None.
Proof.
  intros Hfree. unfold put_node.
  destruct (update_node_cases p (fun _ => Some (Dir 0 ∅)) t) as [->|(_ & _ & Hat)].
  - unfold stat in *. rewrite lookup_node_app.
    by destruct (lookup_node p t).
  - unfold stat. rewrite Hat. cbn. by rewrite lookup_empty.
Qed.

Lemma is_dir_put_dir p s m t :
  p <> [] -> is_dir (removelast p) t = true ->
  is_dir p (put_node p (Dir s m) t) = true.
Proof.
  intros Hp Hdir. unfold put_node, is_dir, stat.
  rewrite <- (app_nil_r p) at 1. by rewrite lookup_update_node_at.
Qed.

(** * Rules of the program logic *)

Section Rules.
Context {A B : Type}.
Implicit Types (phi : event -> Prop) (P I : World -> Prop).

Lemma hoare_ret phi P (a : A) (Q : result A -> World -> Prop) :
  (forall w, P w -> Q (Ok a) w) -> hoare phi P (ret a) Q.
Proof. intros HQ w r w' tr HP [= <- <- <-]. auto. Qed.

Lemma hoare_raise phi P e (Q : result A -> World -> Prop) :
  (forall w, P w -> Q (Raise e) w) -> hoare phi P (raise e) Q.
Proof. intros HQ w r w' tr HP [= <- <- <-]. auto. Qed.

Lemma hoare_bind phi P (m : M A) (k : A -> M B) Q1
    (Q2 : result B -> World -> Prop) :
  hoare phi P m Q1 ->
  (forall a, hoare phi (Q1 (Ok a)) (k a) Q2) ->
  (forall e w, Q1 (Raise e) w -> Q2 (Raise e) w) ->
  hoare phi P (bind m k) Q2.
Proof.
  intros Hm Hk Hraise w r w' tr HP Hrun. unfold bind in Hrun.
  destruct (m w) as [[[a|e] w1] t1] eqn:Em.
  - destruct (Hm _ _ _ _ HP Em) as [HQ1 Ht1].
    destruct (k a w1) as [[r2 w2] t2] eqn:Ek. injection Hrun as <- <- <-.
    destruct (Hk a _ _ _ _ HQ1 Ek) as [HQ2 Ht2].
    split; [done | by apply Forall_app].
  - injection Hrun as <- <- <-.
    destruct (Hm _ _ _ _ HP Em) as [HQ1 Ht1]. auto.
Qed.

Lemma hoare_consequence phi (P P' : World -> Prop) (m : M A)
    (Q Q' : result A -> World -> Prop) :
  hoare phi P' m Q' ->
  (forall w, P w -> P' w) -> (forall r w, Q' r w -> Q r w) ->
  hoare phi P m Q.
Proof.
  intros Hm HP HQ w r w' tr Hw Hrun.
  destruct (Hm _ _ _ _ (HP _ Hw) Hrun). auto.
Qed.

Lemma hoare_try_except phi P (m : M A) (h : exn -> M A) Q1
    (Q2 : result A -> World -> Prop) :
  hoare phi P m Q1 ->
  (forall a w, Q1 (Ok a) w -> Q2 (Ok a) w) ->
  (forall e, hoare phi (Q1 (Raise e)) (h e) Q2) ->
  hoare phi P (try_except m h) Q2.
Proof.
  intros Hm Hok Hh w r w' tr HP Hrun. unfold try_except in Hrun.
  destruct (m w) as [[[a|e] w1] t1] eqn:Em.
  - injection Hrun as <- <- <-.
    destruct (Hm _ _ _ _ HP Em) as [HQ1 Ht1]. auto.
  - destruct (Hm _ _ _ _ HP Em) as [HQ1 Ht1].
    destruct (h e w1) as [[r2 w2] t2] eqn:Eh. injection Hrun as <- <- <-.
    destruct (Hh e _ _ _ _ HQ1 Eh) as [HQ2 Ht2].
    split; [done | by apply Forall_app].
Qed.

Lemma keeps_ret phi I (a : A) : keeps phi I (ret a).
Proof. by apply hoare_ret. Qed.

Lemma keeps_raise phi I e : keeps phi I (raise e : M A).
Proof. by apply hoare_raise. Qed.

Lemma keeps_bind phi I (m : M A) (k : A -> M B) :
  keeps phi I m -> (forall a, keeps phi I (k a)) -> keeps phi I (bind m k).
Proof. intros Hm Hk. eapply hoare_bind; [apply Hm | apply Hk | done]. Qed.

Lemma keeps_try_except phi I (m : M A) (h : exn -> M A) :
  keeps phi I m -> (forall e, keeps phi I (h e)) -> keeps phi I (try_except m h).
Proof. intros Hm Hh. eapply hoare_try_except; [apply Hm | done | apply Hh]. Qed.

End Rules.

Lemma keeps_emit phi I e : phi e -> keeps phi I (emit e).
Proof.
  intros He w r w' tr HI [= <- <- <-]. split; [done |]. by constructor.
Qed.

Lemma keeps_print phi I m : phi (Print m) -> keeps phi I (print m).
Proof. apply keeps_emit. Qed.

Lemma keeps_when phi I b m : keeps phi I m -> keeps phi I (when b m).
Proof. intros Hm. destruct b; [done | apply keeps_ret]. Qed.

Lemma keeps_get_world {B} phi I (k : World -> M B) :
  (forall w0, keeps phi (fun w => w = w0 /\ I w) (k w0)) ->
  keeps phi I (bind get_world k).
Proof.
  intros Hk w r w' tr HI Hrun. unfold bind, get_world in Hrun.
  destruct (k w w) as [[r2 w2] t2] eqn:Ek. injection Hrun as <- <- <-.
  destruct (Hk w w r2 w2 t2 (conj eq_refl HI) Ek) as [[_ H] Ht]. auto.
Qed.

(** Reading the world and acting on what was read. *)
Lemma hoare_get_world {B} phi P (k : World -> M B) Q :
  (forall w0, hoare phi (fun w => w = w0 /\ P w) (k w0) Q) ->
  hoare phi P (bind get_world k) Q.
Proof.
  intros Hk w r w' tr HP Hrun. unfold bind, get_world in Hrun.
  destruct (k w w) as [[r2 w2] t2] eqn:Ek. injection Hrun as <- <- <-.
  exact (Hk w w r2 w2 t2 (conj eq_refl HP) Ek).
Qed.

Lemma hoare_set_fs phi P t (Q : result unit -> World -> Prop) :
  (forall w, P w -> Q (Ok tt) (mkWorld t (cwd w) (undeletable w))) ->
  hoare phi P (set_fs t) Q.
Proof. intros HQ w r w' tr HP [= <- <- <-]. auto. Qed.

Lemma hoare_set_cwd phi P q (Q : result unit -> World -> Prop) :
  (forall w, P w -> Q (Ok tt) (mkWorld (fs w) q (undeletable w))) ->
  hoare phi P (set_cwd q) Q.
Proof. intros HQ w r w' tr HP [= <- <- <-]. auto. Qed.

(** * The library calls and the invariants *)

Lemma keeps_pure {A} phi (I : World -> Prop) (m : M A) :
  (forall w r w' tr, m w = (r, w', tr) -> w' = w /\ Forall phi tr) ->
  keeps phi I m.
Proof.
  intros Hm w r w' tr HI Hrun. destruct (Hm _ _ _ _ Hrun) as [-> ?]. auto.
Qed.

Lemma keeps_path_exists phi I p : keeps phi I (path_exists p).
Proof. apply keeps_pure. intros w r w' tr [= <- <- <-]. auto. Qed.

Lemma keeps_glob phi I dir suffix : keeps phi I (glob dir suffix).
Proof. apply keeps_pure. intros w r w' tr [= <- <- <-]. auto. Qed.

Lemma keeps_getsize phi I p : keeps phi I (getsize p).
Proof.
  apply keeps_pure. intros w r w' tr. unfold getsize, bind, get_world.
  destruct (stat _ _) as [[|]|]; intros [= <- <- <-]; auto.
Qed.

Lemma keeps_at_set_fs phi (I : World -> Prop) w0 t :
  (I w0 -> I (mkWorld t (cwd w0) (undeletable w0))) ->
  hoare phi (fun w => w = w0 /\ I w) (set_fs t) (fun _ => I).
Proof. intros H. apply hoare_set_fs. intros w [-> HI]. auto. Qed.

Section Dirs.
Context (t0 : node) (c : list string) (U : gset (list string)).
Context (phi : event -> Prop).

Local Abbreviation I := (same_dirs t0 c U).

Lemma same_dirs_set_fs w t :
  (forall q, is_dir q t = is_dir q (fs w)) ->
  I w -> I (mkWorld t (cwd w) (undeletable w)).
Proof.
  intros Ht (Hc & HU & Hd). repeat split; [done | done |].
  intros q. cbn. by rewrite Ht.
Qed.

Lemma keeps_unlink p : keeps phi I (unlink p).
Proof.
  unfold unlink. apply hoare_get_world; intros w0; cbv zeta.
  destruct (stat (resolve w0 p) (fs w0)) as [[s|s]|] eqn:Hst;
    try (apply hoare_raise; by intros ? []).
  case_bool_decide; [apply hoare_raise; by intros ? [] |].
  apply keeps_at_set_fs. apply same_dirs_set_fs.
  intros q. by apply (is_dir_remove_file _ s).
Qed.

Lemma is_dir_foldl_write (files : list (string * Z)) d q t :
  is_dir q (foldl (fun t '(name, size) => write_file (d ++ [name]) size t) t files)
  = is_dir q t.
Proof.
  revert t. induction files as [|[n s] files IH]; intros t; [done |].
  cbn. by rewrite IH, is_dir_write_file.
Qed.

End Dirs.

Section ProgramDirs.
Context (tools : Tools).
Context (t0 : node) (c : list string) (U : gset (list string)).

Local Abbreviation I := (same_dirs t0 c U).

Lemma keeps_subprocess_run cmd capture :
  keeps not_moved I (subprocess_run tools cmd capture).
Proof.
  unfold subprocess_run. apply hoare_get_world; intros w0; cbv zeta.
  assert (forall q, is_dir q (run_tool tools cmd w0).1 = is_dir q (fs w0)) as Hdirs.
  { intros q. unfold run_tool. destruct cmd as [tool archive|tool output input].
    - destruct (bnkextr _ _ _ _ _) as [files r]. cbn. apply is_dir_foldl_write.
    - destruct (vgmstream _ _ _ _ _ _) as [[size|] r]; cbn; [|done].
      apply is_dir_write_file. }
  destruct (run_tool tools cmd w0) as [t r]. cbn in Hdirs.
  eapply hoare_bind; [by apply keeps_at_set_fs, same_dirs_set_fs | | done].
  intros ?. apply keeps_bind; [by apply keeps_emit |].
  intros ?. apply keeps_bind; [apply keeps_when; by apply keeps_print |].
  intros ?. destruct r; [apply keeps_ret | | apply keeps_raise].
  destruct capture; [apply keeps_raise | apply keeps_ret].
Qed.

Lemma keeps_run_command cmd verbosity :
  keeps not_moved I (run_command tools cmd verbosity).
Proof.
  unfold run_command. apply keeps_try_except.
  - apply keeps_bind; [destruct (verbosity =? 3); apply keeps_subprocess_run |].
    intros ?. apply keeps_ret.
  - intros e. apply keeps_bind; [apply keeps_when; by apply keeps_print |].
    intros ?. apply keeps_ret.
Qed.

Lemma keeps_get_file_size phi filepath :
  keeps phi I (get_file_size filepath).
Proof.
  unfold get_file_size. apply keeps_try_except; [apply keeps_getsize |].
  intros ?. apply keeps_ret.
Qed.

Lemma keeps_convert_one output_dir ext vgmstream_path verbosity delete_small
    min_file_size remove_duplicates total count wem_file file_sizes :
  keeps not_moved I
    (convert_one tools output_dir ext vgmstream_path verbosity delete_small
       min_file_size remove_duplicates total count wem_file file_sizes).
Proof.
  unfold convert_one. cbv zeta.
  apply keeps_bind.
  { destruct (verbosity =? 2); [by apply keeps_print |].
    destruct (verbosity =? 3); [by apply keeps_print | apply keeps_ret]. }
  intros ?. apply keeps_bind; [apply keeps_run_command |].
  intros [|].
  - apply keeps_bind; [apply keeps_get_file_size |]. intros file_size.
    destruct (should_delete_file _ _ _ _ _ _) as [[should_delete reason] ?].
    apply keeps_bind; [by apply keeps_emit |]. intros ?.
    apply keeps_bind; [|intros ?; apply keeps_ret].
    apply keeps_when. apply keeps_bind; [apply keeps_when; by apply keeps_print |].
    intros ?. apply keeps_try_except; [apply keeps_unlink |].
    intros ?. apply keeps_ret.
  - apply keeps_bind; [by apply keeps_emit |]. intros ?.
    apply keeps_bind; [apply keeps_when; by apply keeps_print |].
    intros ?. apply keeps_ret.
Qed.

Lemma keeps_convert_loop output_dir ext vgmstream_path verbosity delete_small
    min_file_size remove_duplicates total wem_files :
  forall count file_sizes,
  keeps not_moved I
    (convert_loop tools output_dir ext vgmstream_path verbosity delete_small
       min_file_size remove_duplicates total count wem_files file_sizes).
Proof.
  induction wem_files as [|wem_file rest IH]; intros count file_sizes; cbn.
  - apply keeps_ret.
  - apply keeps_bind; [apply keeps_convert_one |]. intros ?. apply IH.
Qed.

Lemma keeps_convert_wem_files temp_dir output_dir ext vgmstream_path verbosity
    delete_small min_file_size remove_duplicates :
  keeps not_moved I
    (convert_wem_files tools temp_dir output_dir ext vgmstream_path verbosity
       delete_small min_file_size remove_duplicates).
Proof.
  unfold convert_wem_files. apply keeps_bind; [apply keeps_glob |].
  intros [|wem_file rest]; [apply keeps_ret |].
  apply keeps_bind; [apply keeps_when; by apply keeps_emit |]. intros ?.
  apply keeps_bind; [apply keeps_convert_loop |]. intros ?.
  apply keeps_bind; [|intros ?; apply keeps_ret].
  destruct (verbosity =? 2); [by apply keeps_print |].
  destruct (verbosity =? 1); [by apply keeps_emit | apply keeps_ret].
Qed.

End ProgramDirs.

(** * Extraction *)

Lemma hoare_pure_pre {A} phi (F : Prop) (P : World -> Prop) (m : M A) Q :
  (F -> hoare phi P m Q) -> hoare phi (fun w => F /\ P w) m Q.
Proof. intros H w r w' tr [HF HP]. by apply H. Qed.

Lemma stat_foldl_write_outside (files : list (string * Z)) d q t :
  ~ d `prefix_of` q ->
  stat q (foldl (fun t '(name, size) => write_file (d ++ [name]) size t) t files)
  = stat q t.
Proof.
  intros Hq. revert t. induction files as [|[n s] files IH]; intros t; [done |].
  cbn. rewrite IH. apply stat_write_file_outside.
  intros Hpre. apply Hq. etrans; [|done]. by apply prefix_app_r.
Qed.

Lemma path_of_nonempty s : s <> "" -> path_of s = mkPath false [s].
Proof. intros Hs. unfold path_of, path_join. by destruct (decide (s = "")). Qed.

Lemma prefix_snoc_more (c : list string) x ys :
  (c ++ [x]) `prefix_of` (c ++ x :: ys).
Proof. exists ys. by rewrite <- (assoc_L (++)). Qed.

Section Extraction.
Context (tools : Tools).
Context (t0 : node) (c0 : list string) (U : gset (list string)).
Context (temp : string).

Local Abbreviation T := (c0 ++ [temp]).

(** The invariant of the extraction: the directories of [t0], and [t0]
    outside the workspace. *)
Local Abbreviation inv c :=
  (fun w => same_dirs t0 c U w /\ same_outside T t0 w).

Lemma inv_set_fs c w t :
  (forall q, is_dir q t = is_dir q (fs w)) ->
  (forall q, ~ T `prefix_of` q -> stat q t = stat q (fs w)) ->
  inv c w -> inv c (mkWorld t (cwd w) (undeletable w)).
Proof.
  intros Hd Hs [HD HO]. split; [by apply same_dirs_set_fs |].
  intros q Hq. cbn. rewrite Hs by done. by apply HO.
Qed.

Lemma copy2_into_workspace phi src :
  is_dir T t0 = true ->
  hoare phi (inv c0)
    (copy2 src (path_join (mkPath false [temp]) (path_name src)))
    (fun r w => inv c0 w /\ forall a, r = Ok a -> path_name src <> "").
Proof.
  intros HT. unfold copy2. apply hoare_get_world; intros w0; cbv zeta.
  apply (hoare_consequence _ _ (fun w => (inv c0 w0) /\ w = w0) _ _
           (fun r w => inv c0 w /\ forall a, r = Ok a -> path_name src <> ""));
    [| by intros ? [-> ?] | done].
  apply hoare_pure_pre. intros [(Hc & HU & Hd) Hout].
  set (name := path_name src).
  set (dst := path_join (mkPath false [temp]) name).
  set (d' := if is_dir (resolve w0 dst) (fs w0) then _ else _).
  assert (T `prefix_of` d' /\ (name = "" -> is_dir d' (fs w0) = true))
    as [HTd Hempty].
  { subst d' dst. unfold path_join, resolve. rewrite Hc.
    destruct (decide (name = "")) as [->|Hne]; cbn.
    - rewrite Hd, HT. cbn. by rewrite Hd.
    - split; [|done].
      destruct (is_dir (c0 ++ [temp; name]) (fs w0)); apply prefix_snoc_more. }
  clearbody d'.
  destruct (lookup_node (resolve w0 src) (fs w0)) as [[size|]|];
    try (apply hoare_raise; by intros ? ->).
  case_bool_decide; [apply hoare_raise; by intros ? -> |].
  destruct (stat d' (fs w0)) as [[|]|] eqn:Hd';
    try (apply hoare_raise; by intros ? ->);
    (destruct (stat (removelast d') (fs w0)) as [[|]|];
       try (apply hoare_raise; by intros ? ->));
    (apply hoare_set_fs; intros ? ->; split;
     [ apply inv_set_fs; [| | done];
       [ intros q; apply is_dir_put_file; unfold is_dir; by rewrite Hd'
       | intros q Hq; apply stat_update_node_outside;
         intros Hpre; apply Hq; by etrans ]
     | intros _ _ Hname; specialize (Hempty Hname);
       unfold is_dir in Hempty; by rewrite Hd' in Hempty ]).
Qed.

Lemma chdir_to phi c p q :
  (forall w, cwd w = c -> resolve w p = q) ->
  is_dir q t0 = true ->
  hoare phi (inv c) (chdir p) (fun r w => r = Ok tt /\ inv q w).
Proof.
  intros Hres Hq. unfold chdir. apply hoare_get_world; intros w0; cbv zeta.
  apply (hoare_consequence _ _ (fun w => (inv c w0) /\ w = w0) _ _
           (fun r w => r = Ok tt /\ inv q w));
    [| by intros ? [-> ?] | done].
  apply hoare_pure_pre. intros [(Hc & HU & Hd) Hout].
  rewrite (Hres w0 Hc). pose proof (Hd q) as Hdq. rewrite Hq in Hdq.
  apply is_dir_stat in Hdq as [s ->].
  apply hoare_set_cwd. intros ? ->. repeat split; done.
Qed.

Lemma keeps_extractor phi archive tool capture :
  (forall e, not_moved e -> phi e) ->
  keeps phi (inv T) (subprocess_run tools (CmdExtract tool archive) capture).
Proof.
  intros Hphi.
  unfold subprocess_run. apply hoare_get_world; intros w0; cbv zeta.
  apply (hoare_consequence _ _ (fun w => (inv T w0) /\ w = w0) _ _
           (fun r w => inv T w)); [| by intros ? [-> ?] | done].
  apply hoare_pure_pre. intros Hinv. pose proof Hinv as [(Hc & HU & Hd) Hout].
  unfold run_tool. destruct (bnkextr _ _ _ _ _) as [files r].
  eapply hoare_bind with (Q1 := fun _ => inv T); [| | done].
  - apply hoare_set_fs. intros ? ->. apply inv_set_fs; [| | done].
    + intros q. apply is_dir_foldl_write.
    + intros q Hq. apply stat_foldl_write_outside. by rewrite Hc.
  - intros ?. apply keeps_bind; [by apply keeps_emit, Hphi |].
    intros ?. apply keeps_bind; [apply keeps_when; by apply keeps_print, Hphi |].
    intros ?. destruct r; [apply keeps_ret | | apply keeps_raise].
    destruct capture; [apply keeps_raise | apply keeps_ret].
Qed.

Lemma keeps_run_extractor archive tool verbosity :
  hoare not_moved (inv T) (run_command tools (CmdExtract tool archive) verbosity)
    (fun r w => (exists b, r = Ok b) /\ inv T w).
Proof.
  unfold run_command.
  eapply hoare_try_except with (Q1 := fun _ => inv T).
  - apply keeps_bind; [destruct (verbosity =? 3); by apply keeps_extractor |].
    intros ?. apply keeps_ret.
  - intros a w ?. eauto.
  - intros e.
    eapply hoare_bind with (Q1 := fun r w => (exists b, r = Ok b) /\ inv T w).
    + destruct (1 <? verbosity); cbn.
      * intros w r w' tr HI [= <- <- <-].
        split; [split; [eauto | done] | by repeat constructor].
      * intros w r w' tr HI [= <- <- <-].
        split; [split; [eauto | done] | by repeat constructor].
    + intros ?. apply hoare_ret. intros w [_ ?]. eauto.
    + intros ? ? [[? [=]] _].
Qed.

(** The copy the program looks for after the extractor has run, seen from
    inside the workspace. *)
Lemma path_exists_from_workspace phi name :
  name <> "" ->
  is_dir (T ++ [temp]) t0 = false ->
  hoare phi (inv T)
    (path_exists (path_join (mkPath false [temp]) name))
    (fun r w => r = Ok false /\ inv T w).
Proof.
  intros Hname Hnodir w r w' tr HI. pose proof HI as [(Hc & HU & Hd) Hout].
  unfold path_exists, bind, get_world, ret. cbn.
  intros [= <- <- <-]. split; [|by constructor]. split; [|done].
  f_equal. apply bool_decide_eq_false_2. intros Hsome.
  unfold path_join, resolve in Hsome. destruct (decide (name = "")); [done |].
  cbn in Hsome. rewrite Hc in Hsome.
  rewrite <- (Hd (T ++ [temp])) in Hnodir.
  rewrite (stat_below_is_dir (T ++ [temp]) (T ++ [temp; name]) (fs w))
    in Hnodir; [done | | | done].
  - exists [name]. by rewrite <- !(assoc_L (++)).
  - intros Heq. apply (f_equal length) in Heq. rewrite !length_app in Heq.
    cbn in Heq. lia.
Qed.

Lemma extract_bnk_frame bnk_file bnkextr_path verbosity :
  is_dir T t0 = true ->
  is_dir c0 t0 = true ->
  (path_name bnk_file <> "" -> is_dir (T ++ [temp]) t0 = false) ->
  hoare not_moved (inv c0)
    (extract_bnk tools bnk_file (mkPath false [temp]) bnkextr_path verbosity)
    (fun _ => inv c0).
Proof.
  intros HT Hc0 Hnodir. unfold extract_bnk. cbv zeta.
  eapply hoare_bind; [by apply copy2_into_workspace | | by intros ? ? []].
  intros []. cbn beta.
  apply (hoare_consequence _ _
           (fun w => path_name bnk_file <> "" /\ inv c0 w) _ _ (fun _ => inv c0));
    [| intros w [? Hn]; split; [by apply (Hn tt) | done] | done].
  apply hoare_pure_pre. intros Hname. specialize (Hnodir Hname).
  apply keeps_bind; [by apply keeps_emit |]. intros ?.
  eapply hoare_bind with
    (Q1 := fun r w => r = Ok (mkPath true c0) /\ inv c0 w);
    [| | by intros ? ? [[=] _]].
  { intros w r w' tr HI [= <- <- <-]. destruct HI as [(Hc & ? & ?) ?].
    rewrite Hc. repeat split; done || by constructor. }
  intros original_dir.
  apply (hoare_consequence _ _
           (fun w => original_dir = mkPath true c0 /\ inv c0 w) _ _
           (fun _ => inv c0));
    [| by intros w [[= ->] ?] | done].
  apply hoare_pure_pre. intros ->.
  eapply hoare_bind; [apply (chdir_to _ c0 _ T) | | by intros ? ? [[=] _]].
  { intros w Hc. unfold resolve. cbn. by rewrite Hc. }
  { done. }
  intros []. cbn beta.
  apply (hoare_consequence _ _ (inv T) _ _ (fun _ => inv c0));
    [| by intros w [_ ?] | done].
  eapply hoare_bind; [apply keeps_run_extractor | | by intros ? ? [[? [=]] _]].
  intros success. cbn beta.
  apply (hoare_consequence _ _ (inv T) _ _ (fun _ => inv c0));
    [| by intros w [_ ?] | done].
  eapply hoare_bind;
    [by apply path_exists_from_workspace | | by intros ? ? [[=] _]].
  intros present. cbn beta.
  apply (hoare_consequence _ _ (fun w => present = false /\ inv T w) _ _
           (fun _ => inv c0));
    [| by intros w [[= ->] ?] | done].
  apply hoare_pure_pre. intros ->. cbn [when].
  eapply hoare_bind with (Q1 := fun r w => r = Ok tt /\ inv T w);
    [by apply hoare_ret | | by intros ? ? [[=] _]].
  intros []. cbn beta.
  apply (hoare_consequence _ _ (inv T) _ _ (fun _ => inv c0));
    [| by intros w [_ ?] | done].
  eapply hoare_bind; [apply (chdir_to _ T _ c0) | | by intros ? ? [[=] _]];
    [done | done |].
  intros []. cbn beta.
  apply (hoare_consequence _ _ (inv c0) _ _ (fun _ => inv c0));
    [| by intros w [_ ?] | done].
  apply keeps_bind; [by apply keeps_emit |]. intros ?. apply keeps_ret.
Qed.

End Extraction.

(** * Names *)

Lemma string_length_app (a b : string) :
  String.length (a +:+ b) = (String.length a + String.length b)%nat.
Proof.
  induction a as [|x a IH]; [done |].
  change (String x a +:+ b) with (String x (a +:+ b)). cbn. by rewrite IH.
Qed.

Lemma stem_of_nonempty name : name <> "" -> stem_of name <> "".
Proof.
  intros Hname. unfold stem_of. destruct (rfind_dot name 0) as [i|]; [|done].
  destruct (_ && _) eqn:Hi; [|done].
  apply andb_true_iff in Hi as [Hi _]. apply Nat.ltb_lt in Hi.
  destruct i as [|i]; [lia |]. by destruct name.
Qed.

Lemma temp_name_not_stem s : "temp_" +:+ s <> s.
Proof.
  intros Heq. apply (f_equal String.length) in Heq.
  rewrite string_length_app in Heq. cbn in Heq. lia.
Qed.

Lemma temp_dir_of_parts bnk_file :
  temp_dir_of bnk_file = mkPath false ["temp_" +:+ path_stem bnk_file].
Proof. unfold temp_dir_of. by apply path_of_nonempty. Qed.

Lemma resolve_join_last w p s :
  s <> "" -> List.last (resolve w (path_join p s)) "" = s.
Proof.
  intros Hs. unfold path_join, resolve. destruct (decide (s = "")); [done |].
  cbn. destruct (p_abs p); [|rewrite (assoc_L (++))]; apply last_last.
Qed.

(** * Acquiring the workspace *)

Lemma bind_ok {A B} (m : M A) (k : A -> M B) w b w' tr :
  bind m k w = (Ok b, w', tr) ->
  exists a w1 t1 t2,
    m w = (Ok a, w1, t1) /\ k a w1 = (Ok b, w', t2) /\ tr = t1 ++ t2.
Proof.
  unfold bind. destruct (m w) as [[[a|e] w1] t1]; [|done].
  destruct (k a w1) as [[r w2] t2] eqn:Ek. intros [= -> -> <-].
  by exists a, w1, t1, t2.
Qed.

Lemma bind_get_world {B} (k : World -> M B) w : bind get_world k w = k w w.
Proof. unfold bind, get_world. by destruct (k w w) as [[? ?] ?]. Qed.

Lemma bind_path_exists {B} p (k : bool -> M B) w :
  bind (path_exists p) k w
  = k (bool_decide (is_Some (stat (resolve w p) (fs w)))) w.
Proof.
  unfold bind, path_exists, get_world, ret. cbn.
  by destruct (k _ w) as [[? ?] ?].
Qed.

Lemma mkdir_ok p exist_ok w w' tr :
  mkdir p exist_ok w = (Ok tt, w', tr) ->
  let q := resolve w p in
  tr = [] /\ cwd w' = cwd w /\ undeletable w' = undeletable w /\
  ((exist_ok = true /\ is_dir q (fs w) = true /\ fs w' = fs w) \/
   (stat q (fs w) = None /\ is_dir (removelast q) (fs w) = true /\
    fs w' = put_node q (Dir 0 ∅) (fs w))).
Proof.
  unfold mkdir. rewrite bind_get_world. cbv zeta.
  unfold is_dir. destruct (stat (resolve w p) (fs w)) as [[|]|] eqn:Hq.
  - done.
  - destruct exist_ok; [|done]. intros [= <- <-]. repeat split; auto.
  - destruct (stat (removelast (resolve w p)) (fs w)) as [[|]|] eqn:Hpar;
      [done | | done].
    intros [= <- <-]. repeat split; auto.
Qed.

Lemma stat_none_below p q t :
  p `prefix_of` q -> stat p t = None -> stat q t = None.
Proof.
  intros [r ->] Hp. unfold stat in *. rewrite lookup_node_app.
  by destruct (lookup_node p t).
Qed.

(** What making a directory changes: its own path. *)
Lemma mkdir_frame p exist_ok w w' tr q :
  mkdir p exist_ok w = (Ok tt, w', tr) ->
  q <> resolve w p -> stat q (fs w') = stat q (fs w).
Proof.
  intros Hrun Hq. apply mkdir_ok in Hrun as (_ & _ & _ & [(_ & _ & ->)|(Hfree & _ & ->)]);
    [done |].
  destruct (decide (resolve w p `prefix_of` q)) as [[r Hr]|Hout].
  - destruct r as [|c r]; [by rewrite app_nil_r in Hr |]. subst q.
    rewrite stat_put_empty_dir_below by done.
    symmetry. apply (stat_none_below (resolve w p)); [by eexists | done].
  - by apply stat_update_node_outside.
Qed.

Lemma mkdir_keeps_dir p exist_ok w w' tr q :
  mkdir p exist_ok w = (Ok tt, w', tr) ->
  is_dir q (fs w) = true -> is_dir q (fs w') = true.
Proof.
  intros Hrun Hq. apply mkdir_ok in Hrun as (_ & _ & _ & [(_ & _ & ->)|(Hfree & _ & ->)]);
    [done |].
  apply is_dir_put_free; [|done]. unfold is_dir. by rewrite Hfree.
Qed.

(** The stale workspace, if there is one, goes, with all below it. *)
Lemma purge_ok td w w' tr :
  (stale <- path_exists td ;; when stale (rmtree td)) w = (Ok tt, w', tr) ->
  let q := resolve w td in
  tr = [] /\ cwd w' = cwd w /\ undeletable w' = undeletable w /\
  stat q (fs w') = None /\
  (forall u, ~ q `prefix_of` u -> stat u (fs w') = stat u (fs w)) /\
  (forall u, is_dir u (fs w) = true -> ~ q `prefix_of` u -> is_dir u (fs w') = true).
Proof.
  rewrite bind_path_exists.
  case_bool_decide as Hex; cbn [when].
  - unfold rmtree. rewrite bind_get_world. cbv zeta.
    destruct (stat (resolve w td) (fs w)) as [[|]|] eqn:Hq; try done.
    destruct (blocked w (resolve w td) || bool_decide (resolve w td = [])) eqn:Hb;
      [done |].
    intros [= <- <-].
    apply orb_false_iff in Hb as [_ Hnil]. apply bool_decide_eq_false in Hnil.
    repeat split; auto.
    + by apply stat_remove_node_below.
    + intros u Hu. by apply stat_update_node_outside.
    + intros u Hd Hu. cbn. unfold remove_node. by rewrite is_dir_outside.
  - intros [= <- <-]. repeat split; auto.
    destruct (stat (resolve w td) (fs w)) eqn:Hq; [|done]. destruct Hex. eauto.
Qed.

Lemma acquire_workspace_ok bnk_file output_base_dir w w1 tr :
  let temp := "temp_" +:+ path_stem bnk_file in
  let T := cwd w ++ [temp] in
  let O := resolve w (output_dir_of bnk_file output_base_dir) in
  acquire_workspace bnk_file output_base_dir w = (Ok tt, w1, tr) ->
  cwd w1 = cwd w /\ undeletable w1 = undeletable w /\
  is_dir T (fs w1) = true /\ is_dir (cwd w) (fs w1) = true /\
  (path_name bnk_file <> "" -> is_dir (T ++ [temp]) (fs w1) = false) /\
  (forall q, ~ T `prefix_of` q -> q <> O -> stat q (fs w1) = stat q (fs w)) /\
  Forall not_moved tr /\
  (forall c, T ++ [c] <> O -> stat (T ++ [c]) (fs w1) = None).
Proof.
  intros temp T O. unfold acquire_workspace. rewrite temp_dir_of_parts.
  fold temp. intros Hrun.
  apply bind_ok in Hrun as ([] & w0 & t0 & t0' & Hprint & Hrun & ->).
  injection Hprint as <- <-.
  apply bind_ok in Hrun as (stale & wa & ta & ta' & Hex & Hrun & ->).
  apply bind_ok in Hrun as ([] & wb & tb & tb' & Hrm & Hrun & ->).
  assert ((stale <- path_exists (mkPath false [temp]) ;;
           when stale (rmtree (mkPath false [temp]))) w = (Ok tt, wb, ta ++ tb))
    as Hpurge.
  { unfold bind at 1. by rewrite Hex, Hrm. }
  clear Hex Hrm. apply purge_ok in Hpurge as (Ht & Hc & HU & Hgone & Hout & Hdirs).
  change (resolve w (mkPath false [temp])) with T in *.
  apply bind_ok in Hrun as ([] & wc & tc & tc' & HmkT & HmkO & ->).
  pose proof (mkdir_ok _ _ _ _ _ HmkT) as (-> & HcT & HUT & HT).
  pose proof (mkdir_ok _ _ _ _ _ HmkO) as (-> & HcO & HUO & HO).
  assert (resolve wb (mkPath false [temp]) = T) as HrT.
  { unfold resolve. cbn. by rewrite Hc. }
  assert (resolve wc (output_dir_of bnk_file output_base_dir) = O) as HrO.
  { unfold resolve, O. cbn. by rewrite HcT, Hc. }
  rewrite HrT in HT. rewrite HrO in HO.
  destruct HT as [(_ & HTdir & _)|(_ & Hpar & HfsT)].
  { unfold is_dir in HTdir. by rewrite Hgone in HTdir. }
  unfold T in Hpar. rewrite removelast_last in Hpar.
  assert (is_dir T (fs wc) = true) as HTc.
  { rewrite HfsT. apply is_dir_put_dir; [by destruct (cwd w) |].
    unfold T. by rewrite removelast_last. }
  assert (is_dir (cwd w) (fs wc) = true) as Hcwd.
  { by apply (mkdir_keeps_dir _ _ _ _ _ _ HmkT). }
  split; [congruence |]. split; [congruence |].
  split; [by apply (mkdir_keeps_dir _ _ _ _ _ _ HmkO) |].
  split; [by apply (mkdir_keeps_dir _ _ _ _ _ _ HmkO) |].
  assert (forall c, T ++ [c] <> O -> stat (T ++ [c]) (fs w1) = None) as Hempty.
  { intros c HneO.
    rewrite (mkdir_frame _ _ _ _ _ (T ++ [c]) HmkO) by by rewrite HrO.
    rewrite HfsT. by apply stat_put_empty_dir_below. }
  split; [| split; [| split]]; [| | | done].
  - intros Hname. unfold is_dir. rewrite Hempty; [done |].
    intros Heq. apply (f_equal (fun l => List.last l "")) in Heq.
    rewrite last_last in Heq. unfold O, output_dir_of in Heq.
    rewrite resolve_join_last in Heq by by apply stem_of_nonempty.
    by apply temp_name_not_stem in Heq.
  - intros q Hq HqO.
    rewrite (mkdir_frame _ _ _ _ _ q HmkO) by by rewrite HrO.
    rewrite (mkdir_frame _ _ _ _ _ q HmkT).
    + by apply Hout.
    + rewrite HrT. intros ->. by apply Hq.
  - destruct ta; [|done]. cbn in Ht. subst tb. by repeat constructor.
Qed.

(** * Releasing the workspace *)

Lemma not_blocked w q :
  (forall u, u ∈ undeletable w -> ~ q `prefix_of` u) -> blocked w q = false.
Proof.
  intros Hfree. unfold blocked. apply bool_decide_eq_false_2.
  intros (u & Hu & Hpre & _). by apply (Hfree u).
Qed.

Lemma ends_with_nonempty suffix name :
  suffix <> "" -> ends_with suffix name = true -> name <> "".
Proof.
  intros Hs Hend ->. unfold ends_with in Hend. cbn in Hend.
  destruct suffix; [done |]. done.
Qed.

Lemma hoare_when_print phi (P : World -> Prop) b m :
  phi (Print m) ->
  hoare phi P (when b (print m)) (fun r w => r = Ok tt /\ P w).
Proof.
  intros Hphi w r w' tr HP. destruct b; intros [= <- <- <-].
  - split; [done | by repeat constructor].
  - split; [done | by constructor].
Qed.

Lemma hoare_for_each_ok {A} phi (I : World -> Prop) (xs : list A) body :
  (forall x, x ∈ xs -> hoare phi I (body x) (fun r w => r = Ok tt /\ I w)) ->
  hoare phi I (for_each xs body) (fun r w => r = Ok tt /\ I w).
Proof.
  induction xs as [|x xs IH]; intros Hbody; cbn.
  - by apply hoare_ret.
  - eapply hoare_bind; [apply Hbody; by left | | by intros ? ? [[=] _]].
    intros []. cbn beta.
    eapply hoare_consequence; [apply IH | by intros ? [_ ?] | done].
    intros y Hy. apply Hbody. by right.
Qed.

Section Release.
Context (c0 : list string) (U : gset (list string)) (temp : string).

Local Abbreviation T := (c0 ++ [temp]).
Local Abbreviation temp_dir := (mkPath false [temp]).

Local Abbreviation standing := (standing c0 U temp).

Lemma keeps_move_fragment name output_dir :
  name <> "" ->
  keeps any_event standing (move (path_join temp_dir name) output_dir).
Proof.
  intros Hname. unfold move. apply hoare_get_world; intros w0; cbv zeta.
  apply (hoare_consequence _ _ (fun w => standing w0 /\ w = w0) _ _
           (fun _ => standing)); [| by intros ? [-> ?] | done].
  apply hoare_pure_pre. intros (Hc & HU & HT).
  assert (resolve w0 (path_join temp_dir name) = T ++ [name]) as ->.
  { unfold path_join, resolve. destruct (decide (name = "")); [done |].
    cbn. by rewrite Hc, <- (assoc_L (++)). }
  set (s := T ++ [name]).
  assert (~ s `prefix_of` T) as HsT.
  { intros Hpre. apply prefix_length in Hpre. unfold s in Hpre.
    rewrite length_app in Hpre. cbn in Hpre. lia. }
  set (into := is_dir (resolve w0 output_dir) (fs w0)).
  set (d' := if into then _ else _). clearbody d' into.
  destruct (into && bool_decide (s = resolve w0 output_dir));
    [apply hoare_ret; by intros ? -> |].
  destruct (into && bool_decide (is_Some (stat d' (fs w0))));
    [apply hoare_raise; by intros ? -> |].
  destruct (lookup_node s (fs w0)) as [n|];
    [|apply hoare_raise; by intros ? ->].
  case_bool_decide; [apply hoare_ret; by intros ? -> |].
  case_bool_decide as Hsd; [apply hoare_raise; by intros ? -> |].
  destruct (blocked w0 s); [apply hoare_raise; by intros ? -> |].
  assert (forall e : stat_result,
            (stat d' (fs w0) = None \/ exists z, stat d' (fs w0) = Some (IsFile z)) ->
            hoare any_event (fun w => w = w0)
              (set_fs (put_node d' n (remove_node s (fs w0))) ;; emit (Moved s d'))
              (fun _ => standing)) as Hput.
  { intros _ Hd'. eapply hoare_bind with (Q1 := fun _ => standing); [| | done].
    - apply hoare_set_fs. intros ? ->. repeat split; [done | done |]. cbn.
      apply is_dir_put_free.
      + unfold remove_node. rewrite is_dir_outside by done.
        unfold is_dir. by destruct Hd' as [->|[? ->]].
      + unfold remove_node. by rewrite is_dir_outside.
    - intros ?. by apply keeps_emit. }
  destruct n as [size|size m];
    destruct (stat d' (fs w0)) as [[|]|] eqn:Hd';
    destruct (stat (removelast d') (fs w0)) as [[|]|];
    try (apply hoare_raise; by intros ? ->);
    apply (Hput (IsFile 0)); eauto.
Qed.

Lemma cleanup_temp_dir_spec output_dir cleanup_wem verbosity :
  hoare any_event standing
    (cleanup_temp_dir temp_dir output_dir cleanup_wem verbosity)
    (fun r w =>
       cwd w = c0 /\ undeletable w = U /\
       (is_dir T (fs w) = true \/ stat T (fs w) = None) /\
       ((forall u, u ∈ U -> ~ T `prefix_of` u) ->
        r = Ok tt /\ stat T (fs w) = None)).
Proof.
  assert (hoare any_event standing
            (present <- path_exists temp_dir ;; when present (rmtree temp_dir))
            (fun r w =>
               cwd w = c0 /\ undeletable w = U /\
               (is_dir T (fs w) = true \/ stat T (fs w) = None) /\
               ((forall u, u ∈ U -> ~ T `prefix_of` u) ->
                r = Ok tt /\ stat T (fs w) = None))) as Hremove.
  { intros w r w' tr (Hc & HU & HT). rewrite bind_path_exists.
    assert (resolve w temp_dir = T) as -> by (unfold resolve; cbn; by rewrite Hc).
    pose proof HT as HT'. apply is_dir_stat in HT' as [s Hs].
    rewrite bool_decide_eq_true_2 by (rewrite Hs; eauto). cbn [when].
    unfold rmtree. rewrite bind_get_world. cbv zeta.
    assert (resolve w temp_dir = T) as -> by (unfold resolve; cbn; by rewrite Hc).
    rewrite Hs. rewrite (bool_decide_eq_false_2 (T = [])) by by destruct c0.
    rewrite orb_false_r. destruct (blocked w T) eqn:Hb.
    - intros [= <- <- <-]. split; [|by constructor].
      split; [done |]. split; [done |]. split; [by left |]. intros Hfree.
      rewrite not_blocked in Hb; [done |]. by rewrite HU.
    - intros [= <- <- <-]. split; [|by constructor]. cbn.
      assert (stat T (remove_node T (fs w)) = None) as Hgone.
      { apply stat_remove_node_below; [by destruct c0 | done]. }
      split; [done |]. split; [done |]. split; [by right |]. done. }
  unfold cleanup_temp_dir. destruct cleanup_wem.
  - eapply hoare_bind; [by apply hoare_when_print | | by intros ? ? [[=] _]].
    intros []. cbn beta.
    eapply hoare_consequence; [apply Hremove | by intros ? [_ ?] | done].
  - eapply hoare_bind; [by apply hoare_when_print | | by intros ? ? [[=] _]].
    intros []. cbn beta.
    eapply hoare_bind with
      (Q1 := fun r w =>
               (exists l, r = Ok l /\
                  Forall (fun p => exists n, n <> "" /\ p = path_join temp_dir n) l)
               /\ standing w);
      [| | by intros ? ? [(? & [=] & _) _]].
    { intros w r w' tr [_ Hst]. unfold glob. rewrite bind_get_world.
      intros [= <- <- <-]. split; [|by constructor]. split; [|done].
      eexists. split; [done |]. apply Forall_fmap, Forall_forall.
      intros n Hn. apply list_elem_of_In, filter_In in Hn as [_ Hn].
      exists n. split; [|done]. by apply (ends_with_nonempty ".wem"). }
    intros wem_files. cbn beta.
    apply (hoare_consequence _ _
             (fun w => Forall (fun p => exists n, n <> "" /\ p = path_join temp_dir n)
                         wem_files /\ standing w) _ _
             (fun r w =>
               cwd w = c0 /\ undeletable w = U /\
               (is_dir T (fs w) = true \/ stat T (fs w) = None) /\
               ((forall u, u ∈ U -> ~ T `prefix_of` u) ->
                r = Ok tt /\ stat T (fs w) = None)));
      [| by intros w [(l & [= <-] & Hl) ?] | done].
    apply hoare_pure_pre. intros Hall.
    eapply hoare_bind with (Q1 := fun r w => r = Ok tt /\ standing w);
      [| | by intros ? ? [[=] _]].
    + apply hoare_for_each_ok. intros wem_file Hin.
      rewrite Forall_forall in Hall. destruct (Hall _ Hin) as (n & Hn & ->).
      eapply hoare_try_except with (Q1 := fun _ => standing);
        [by apply keeps_move_fragment | intros [] ? ?; by split |].
      intros ?. by apply hoare_ret.
    + intros []. cbn beta.
      eapply hoare_consequence; [apply Hremove | by intros ? [_ ?] | done].
Qed.

End Release.

(** * The per-archive step, taken apart *)

Lemma bind_cases {A B} (m : M A) (k : A -> M B) w r w' tr :
  bind m k w = (r, w', tr) ->
  (exists e, m w = (Raise e, w', tr) /\ r = Raise e) \/
  (exists a w1 t1 t2,
     m w = (Ok a, w1, t1) /\ k a w1 = (r, w', t2) /\ tr = t1 ++ t2).
Proof.
  unfold bind. destruct (m w) as [[[a|e] w1] t1].
  - destruct (k a w1) as [[r2 w2] t2] eqn:Ek. intros [= <- <- <-].
    right. by exists a, w1, t1, t2.
  - intros [= <- <- <-]. left. by exists e.
Qed.

Lemma final_cleanup_runs td w :
  exists w',
    final_cleanup td w = (Ok tt, w', []) /\
    cwd w' = cwd w /\ undeletable w' = undeletable w /\
    (forall q, ~ resolve w td `prefix_of` q -> stat q (fs w') = stat q (fs w)) /\
    (stat (resolve w td) (fs w) = None \/
     (is_dir (resolve w td) (fs w) = true /\ blocked w (resolve w td) = false /\
      resolve w td <> []) ->
     stat (resolve w td) (fs w') = None).
Proof.
  unfold final_cleanup. rewrite bind_path_exists.
  case_bool_decide as Hex; cbn [when].
  - unfold try_except, rmtree. rewrite bind_get_world. cbv zeta.
    destruct (stat (resolve w td) (fs w)) as [[|]|] eqn:Hq.
    + exists w. repeat split; auto. intros [[=]|[Hd _]].
      unfold is_dir in Hd. by rewrite Hq in Hd.
    + destruct (blocked w (resolve w td) || bool_decide (resolve w td = []))
        eqn:Hb.
      * exists w. repeat split; auto. intros [[=]|(_ & Hnb & Hnil)].
        rewrite Hnb in Hb. cbn in Hb. by apply bool_decide_eq_true in Hb.
      * apply orb_false_iff in Hb as [_ Hnil]. apply bool_decide_eq_false in Hnil.
        eexists. split; [done |]. cbn. repeat split; auto.
        -- intros q Hq'. by apply stat_update_node_outside.
        -- intros _. by apply stat_remove_node_below.
    + by destruct Hex.
  - exists w. repeat split; auto. intros _.
    destruct (stat (resolve w td) (fs w)) eqn:Hq; [|done]. destruct Hex. eauto.
Qed.

Section Step.
Context (tools : Tools).
Context (bnk_file output_base_dir : PyPath).
Context (ext bnkextr_path vgmstream_path : string) (verbosity : Z).
Context (cleanup_wem delete_small : bool) (min_file_size : Z).
Context (remove_duplicates : bool).

Local Abbreviation temp_dir := (temp_dir_of bnk_file).
Local Abbreviation out_dir := (output_dir_of bnk_file output_base_dir).
Local Abbreviation the_pipeline :=
  (pipeline tools bnk_file output_base_dir ext bnkextr_path vgmstream_path
     verbosity cleanup_wem delete_small min_file_size remove_duplicates).
Local Abbreviation the_extraction :=
  (extract_bnk tools bnk_file temp_dir bnkextr_path verbosity).
Local Abbreviation the_conversion :=
  (convert_wem_files tools temp_dir out_dir ext vgmstream_path verbosity
     delete_small min_file_size remove_duplicates).
Local Abbreviation the_release :=
  (cleanup_temp_dir temp_dir out_dir cleanup_wem verbosity).

Local Abbreviation pipeline_run :=
  (pipeline_run tools bnk_file output_base_dir ext bnkextr_path vgmstream_path
     verbosity cleanup_wem delete_small min_file_size remove_duplicates).
Local Abbreviation step_run :=
  (step_run tools bnk_file output_base_dir ext bnkextr_path vgmstream_path
     verbosity cleanup_wem delete_small min_file_size remove_duplicates).

Lemma pipeline_cases w1 r w tr :
  the_pipeline w1 = (r, w, tr) -> pipeline_run w1 r w tr.
Proof.
  unfold pipeline. cbv zeta. intros Hrun.
  apply bind_cases in Hrun as [(e & He & ->)|(ex & w2 & t1 & t1' & He & Hrun & ->)].
  { by constructor. }
  destruct ex; cbn [negb] in Hrun.
  - apply bind_cases in Hrun as [(e & Hc & ->)|(cv & w3 & t2 & t2' & Hc & Hrun & ->)].
    { by econstructor. }
    destruct cv; cbn [negb] in Hrun.
    + apply bind_cases in Hrun as [(e & Hr & ->)|([] & w4 & t3 & t3' & Hr & Hrun & ->)].
      { by econstructor. }
      injection Hrun as <- <- <-. rewrite app_nil_r. by econstructor.
    + injection Hrun as <- <- <-. by econstructor.
  - injection Hrun as <- <- <-. by econstructor.
Qed.

Lemma process_bnk_file_cases w r w' tr :
  process_bnk_file tools bnk_file output_base_dir ext bnkextr_path
    vgmstream_path verbosity cleanup_wem delete_small min_file_size
    remove_duplicates w = (r, w', tr) ->
  step_run w r w' tr.
Proof.
  unfold process_bnk_file. intros Hrun.
  apply bind_cases in Hrun as [(e & Ha & ->)|([] & w1 & t0 & t0' & Ha & Hrun & ->)].
  { by constructor. }
  unfold try_finally, try_except in Hrun.
  destruct (the_pipeline w1) as [[[b|e] w2] tp] eqn:Hp.
  - destruct (final_cleanup_runs temp_dir w2) as (w3 & Hf & _).
    rewrite Hf in Hrun. injection Hrun as <- <- <-. rewrite app_nil_r.
    apply pipeline_cases in Hp. by econstructor.
  - remember (final_cleanup temp_dir) as fin eqn:Efin. cbn in Hrun. subst fin.
    destruct (final_cleanup_runs temp_dir w2) as (w3 & Hf & _).
    rewrite Hf in Hrun. injection Hrun as <- <- <-. rewrite app_nil_r.
    apply pipeline_cases in Hp. by econstructor.
Qed.

End Step.

(** * The workspace over the per-archive step *)

Lemma moves_app t1 t2 : moves (t1 ++ t2) = moves t1 ++ moves t2.
Proof. apply omap_app. Qed.

Lemma moves_none tr : Forall not_moved tr -> moves tr = [].
Proof.
  induction 1 as [|e tr He _ IH]; [done |]. by destruct e.
Qed.

Section Workspace.
Context (tools : Tools).
Context (bnk_file output_base_dir : PyPath).
Context (ext bnkextr_path vgmstream_path : string) (verbosity : Z).
Context (cleanup_wem delete_small : bool) (min_file_size : Z).
Context (remove_duplicates : bool).

Local Abbreviation temp := ("temp_" +:+ path_stem bnk_file).
Local Abbreviation pipeline_run :=
  (pipeline_run tools bnk_file output_base_dir ext bnkextr_path vgmstream_path
     verbosity cleanup_wem delete_small min_file_size remove_duplicates).
Local Abbreviation both_succeeded :=
  (both_succeeded tools bnk_file output_base_dir ext bnkextr_path
     vgmstream_path verbosity delete_small min_file_size remove_duplicates).

Lemma extraction_facts w1 r w2 t1 :
  is_dir (cwd w1 ++ [temp]) (fs w1) = true ->
  is_dir (cwd w1) (fs w1) = true ->
  (path_name bnk_file <> "" ->
   is_dir ((cwd w1 ++ [temp]) ++ [temp]) (fs w1) = false) ->
  extract_bnk tools bnk_file (temp_dir_of bnk_file) bnkextr_path verbosity w1
    = (r, w2, t1) ->
  same_dirs (fs w1) (cwd w1) (undeletable w1) w2 /\
  same_outside (cwd w1 ++ [temp]) (fs w1) w2 /\
  Forall not_moved t1.
Proof.
  intros HT Hc Hno Hrun. rewrite temp_dir_of_parts in Hrun.
  destruct (extract_bnk_frame tools (fs w1) (cwd w1) (undeletable w1) temp
              bnk_file bnkextr_path verbosity HT Hc Hno w1 r w2 t1)
    as [[? ?] ?]; [|done|done].
  split; [by repeat split | by intros ?].
Qed.

Lemma conversion_facts t0 c U w2 r w3 t2 :
  same_dirs t0 c U w2 ->
  convert_wem_files tools (temp_dir_of bnk_file)
    (output_dir_of bnk_file output_base_dir) ext vgmstream_path verbosity
    delete_small min_file_size remove_duplicates w2 = (r, w3, t2) ->
  same_dirs t0 c U w3 /\ Forall not_moved t2.
Proof.
  intros Hinv Hrun.
  exact (keeps_convert_wem_files tools t0 c U _ _ _ _ _ _ _ _ w2 r w3 t2 Hinv Hrun).
Qed.

Lemma release_facts c U w3 r w t3 :
  standing c U temp w3 ->
  cleanup_temp_dir (temp_dir_of bnk_file)
    (output_dir_of bnk_file output_base_dir) cleanup_wem verbosity w3
    = (r, w, t3) ->
  cwd w = c /\ undeletable w = U /\
  (is_dir (c ++ [temp]) (fs w) = true \/ stat (c ++ [temp]) (fs w) = None) /\
  ((forall u, u ∈ U -> ~ (c ++ [temp]) `prefix_of` u) ->
   r = Ok tt /\ stat (c ++ [temp]) (fs w) = None).
Proof.
  intros Hst Hrun. rewrite temp_dir_of_parts in Hrun.
  by destruct (cleanup_temp_dir_spec c U temp _ _ _ w3 r w t3 Hst Hrun).
Qed.

(** However the [try] block ends, the process is back in its working
    directory, the workspace is a directory or gone, and a fragment has
    been moved only if extraction and conversion both succeeded. Where no
    removal inside the workspace is refused, the block either completes,
    leaving no workspace, or has moved nothing. *)
Lemma pipeline_run_facts w1 r w2 tp :
  is_dir (cwd w1 ++ [temp]) (fs w1) = true ->
  is_dir (cwd w1) (fs w1) = true ->
  (path_name bnk_file <> "" ->
   is_dir ((cwd w1 ++ [temp]) ++ [temp]) (fs w1) = false) ->
  pipeline_run w1 r w2 tp ->
  cwd w2 = cwd w1 /\ undeletable w2 = undeletable w1 /\
  (is_dir (cwd w1 ++ [temp]) (fs w2) = true \/
   stat (cwd w1 ++ [temp]) (fs w2) = None) /\
  (Forall not_moved tp \/ both_succeeded w1) /\
  ((forall u, u ∈ undeletable w1 -> ~ (cwd w1 ++ [temp]) `prefix_of` u) ->
   (r = Ok true /\ stat (cwd w1 ++ [temp]) (fs w2) = None) \/
   (r <> Ok true /\ Forall not_moved tp)).
Proof.
  intros HT Hc Hno Hrun.
  assert (forall w, same_dirs (fs w1) (cwd w1) (undeletable w1) w ->
            cwd w = cwd w1 /\ undeletable w = undeletable w1 /\
            (is_dir (cwd w1 ++ [temp]) (fs w) = true \/
             stat (cwd w1 ++ [temp]) (fs w) = None)) as Hsame.
  { intros w (? & ? & Hd). repeat split; [done | done |]. left. by rewrite Hd. }
  assert (forall w, same_dirs (fs w1) (cwd w1) (undeletable w1) w ->
            standing (cwd w1) (undeletable w1) temp w) as Hstand.
  { intros w (? & ? & Hd). repeat split; [done | done |]. by rewrite Hd. }
  destruct Hrun as [e w t1 He|w t1 He|e w2 t1 w t2 He Hcv|w2 t1 w t2 He Hcv
                   |e w2 t1 w3 t2 w t3 He Hcv Hrl|w2 t1 w3 t2 w t3 He Hcv Hrl].
  - destruct (extraction_facts _ _ _ _ HT Hc Hno He) as (Hd & _ & Ht1).
    destruct (Hsame _ Hd) as (? & ? & ?).
    split; [done |]. split; [done |]. split; [done |]. split; [by left |].
    intros _. by right.
  - destruct (extraction_facts _ _ _ _ HT Hc Hno He) as (Hd & _ & Ht1).
    destruct (Hsame _ Hd) as (? & ? & ?).
    assert (Forall not_moved (t1 ++ [Print (MsgErrorExtract (path_name bnk_file))])).
    { apply Forall_app. split; [done | by repeat constructor]. }
    split; [done |]. split; [done |]. split; [done |]. split; [by left |].
    intros _. by right.
  - destruct (extraction_facts _ _ _ _ HT Hc Hno He) as (Hd & _ & Ht1).
    destruct (conversion_facts _ _ _ _ _ _ _ Hd Hcv) as (Hd' & Ht2).
    destruct (Hsame _ Hd') as (? & ? & ?).
    assert (Forall not_moved (t1 ++ t2)) by by apply Forall_app.
    split; [done |]. split; [done |]. split; [done |]. split; [by left |].
    intros _. by right.
  - destruct (extraction_facts _ _ _ _ HT Hc Hno He) as (Hd & _ & Ht1).
    destruct (conversion_facts _ _ _ _ _ _ _ Hd Hcv) as (Hd' & Ht2).
    destruct (Hsame _ Hd') as (? & ? & ?).
    assert (Forall not_moved
              (t1 ++ t2 ++ [Print (MsgErrorNoFragments (path_name bnk_file))])).
    { apply Forall_app. split; [done |].
      apply Forall_app. split; [done | by repeat constructor]. }
    split; [done |]. split; [done |]. split; [done |]. split; [by left |].
    intros _. by right.
  - destruct (extraction_facts _ _ _ _ HT Hc Hno He) as (Hd & _ & Ht1).
    destruct (conversion_facts _ _ _ _ _ _ _ Hd Hcv) as (Hd' & Ht2).
    destruct (release_facts _ _ _ _ _ _ (Hstand _ Hd') Hrl) as (? & ? & ? & Hfree).
    split; [done |]. split; [done |]. split; [done |].
    split; [right; by exists w2, t1, w3, t2 |].
    intros Hu. by destruct (Hfree Hu) as [[=] _].
  - destruct (extraction_facts _ _ _ _ HT Hc Hno He) as (Hd & _ & Ht1).
    destruct (conversion_facts _ _ _ _ _ _ _ Hd Hcv) as (Hd' & Ht2).
    destruct (release_facts _ _ _ _ _ _ (Hstand _ Hd') Hrl) as (? & ? & ? & Hfree).
    split; [done |]. split; [done |]. split; [done |].
    split; [right; by exists w2, t1, w3, t2 |].
    intros Hu. left. by destruct (Hfree Hu).
Qed.

End Workspace.

Section Orchestrator.
Context (tools : Tools).
Context (bnk_file output_base_dir : PyPath).
Context (ext bnkextr_path vgmstream_path : string) (verbosity : Z).
Context (cleanup_wem delete_small : bool) (min_file_size : Z).
Context (remove_duplicates : bool).

Local Abbreviation temp := ("temp_" +:+ path_stem bnk_file).

Lemma resolve_temp_dir w :
  resolve w (temp_dir_of bnk_file) = cwd w ++ [temp].
Proof. by rewrite temp_dir_of_parts. Qed.

(** What holds when [process_bnk_file] has run, however it ended. *)
Lemma step_run_facts w r w' tr :
  step_run tools bnk_file output_base_dir ext bnkextr_path vgmstream_path
    verbosity cleanup_wem delete_small min_file_size remove_duplicates
    w r w' tr ->
  (forall b, r = Ok b ->
     cwd w' = cwd w /\ undeletable w' = undeletable w /\
     ((forall u, u ∈ undeletable w -> ~ (cwd w ++ [temp]) `prefix_of` u) ->
      stat (cwd w ++ [temp]) (fs w') = None /\
      (b = false -> moves tr = []))) /\
  (moves tr <> [] ->
   exists w1 t0,
     acquire_workspace bnk_file output_base_dir w = (Ok tt, w1, t0) /\
     both_succeeded tools bnk_file output_base_dir ext bnkextr_path
       vgmstream_path verbosity delete_small min_file_size remove_duplicates w1).
Proof.
  intros Hstep.
  assert (forall w1 t0 rp w2 tp,
            acquire_workspace bnk_file output_base_dir w = (Ok tt, w1, t0) ->
            pipeline_run tools bnk_file output_base_dir ext bnkextr_path
              vgmstream_path verbosity cleanup_wem delete_small min_file_size
              remove_duplicates w1 rp w2 tp ->
            final_cleanup (temp_dir_of bnk_file) w2 = (Ok tt, w', []) ->
            (cwd w' = cwd w /\ undeletable w' = undeletable w /\
             ((forall u, u ∈ undeletable w -> ~ (cwd w ++ [temp]) `prefix_of` u) ->
              stat (cwd w ++ [temp]) (fs w') = None /\
              (rp <> Ok true -> moves (t0 ++ tp) = []))) /\
            (moves (t0 ++ tp) <> [] ->
             both_succeeded tools bnk_file output_base_dir ext bnkextr_path
               vgmstream_path verbosity delete_small min_file_size
               remove_duplicates w1)) as Hmain.
  { intros w1 t0 rp w2 tp Hacq Hpipe Hfin.
    destruct (acquire_workspace_ok _ _ _ _ _ Hacq)
      as (Hc1 & HU1 & HT1 & Hcwd1 & Hno1 & _ & Ht0 & _).
    rewrite <- Hc1 in HT1, Hcwd1, Hno1.
    destruct (pipeline_run_facts _ _ _ _ _ _ _ _ _ _ _ _ _ _ _ HT1 Hcwd1 Hno1 Hpipe)
      as (Hc2 & HU2 & HT2 & Hmoved & Hfree).
    destruct (final_cleanup_runs (temp_dir_of bnk_file) w2)
      as (w3 & Hfin' & Hc3 & HU3 & _ & Hgone).
    rewrite Hfin in Hfin'. injection Hfin' as <-.
    rewrite resolve_temp_dir, Hc2, Hc1 in Hgone. rewrite Hc1 in HT2.
    split.
    - split; [congruence |]. split; [congruence |]. intros Hu. split.
      + apply Hgone. destruct HT2 as [HT2|HT2]; [right | by left].
        split; [done |]. split; [|by destruct (cwd w)].
        apply not_blocked. intros u Hin. apply Hu. by rewrite <- HU1, <- HU2.
      + intros Hrp. rewrite moves_app, (moves_none t0) by done. cbn.
        rewrite HU1, Hc1 in Hfree. destruct (Hfree Hu) as [[-> _]|[_ Hnm]];
          [done | by apply moves_none].
    - intros Hmv. destruct Hmoved as [Hnm|Hboth]; [|done].
      destruct Hmv. rewrite moves_app, (moves_none t0), (moves_none tp); done. }
  destruct Hstep as [e w' t0 Hacq|w1 t0 b w2 tp w' Hacq Hpipe Hfin
                    |w1 t0 e w2 tp w' Hacq Hpipe Hfin].
  - clear Hmain. split; [done |]. intros Hmv.
    unfold acquire_workspace in Hacq. rewrite temp_dir_of_parts in Hacq.
    destruct Hmv. apply moves_none.
    assert (keeps not_moved (fun _ => True)
              (print (MsgBanner (path_name bnk_file)) ;;
               stale <- path_exists (mkPath false [temp]) ;;
               when stale (rmtree (mkPath false [temp])) ;;
               mkdir (mkPath false [temp]) false ;;
               mkdir (output_dir_of bnk_file output_base_dir) true)) as Hk.
    { apply keeps_bind; [by apply keeps_print |]. intros ?.
      apply keeps_bind; [apply keeps_path_exists |]. intros ?.
      apply keeps_bind; [apply keeps_when |].
      { unfold rmtree. apply hoare_get_world; intros w0; cbv zeta.
        destruct (stat _ _) as [[|]|]; try by apply hoare_raise.
        destruct (_ || _); [by apply hoare_raise | by apply hoare_set_fs]. }
      intros ?.
      assert (forall p b, keeps not_moved (fun _ => True) (mkdir p b)) as Hmk.
      { intros p b'. unfold mkdir. apply hoare_get_world; intros w0; cbv zeta.
        destruct (stat _ _) as [[|]|]; try by apply hoare_raise.
        - destruct b'; [by apply hoare_ret | by apply hoare_raise].
        - destruct (stat _ _) as [[|]|];
            try (by apply hoare_raise); by apply hoare_set_fs. }
      apply keeps_bind; [apply Hmk |]. intros ?. apply Hmk. }
    by destruct (Hk w (Raise e) w' t0 I Hacq).
  - destruct (Hmain _ _ _ _ _ Hacq Hpipe Hfin) as [(Hc & HU & Hfree) Hmv].
    split.
    + intros b' [= <-]. split; [done |]. split; [done |]. intros Hu.
      destruct (Hfree Hu) as [Hgone Hnone]. split; [done |].
      intros ->. by apply Hnone.
    + intros Hm. exists w1, t0. split; [done |]. by apply Hmv.
  - destruct (Hmain _ _ _ _ _ Hacq Hpipe Hfin) as [(Hc & HU & Hfree) Hmv].
    assert (moves (t0 ++ tp ++
                   [SpinnerStop; Print (MsgErrorException (path_name bnk_file) e)])
            = moves (t0 ++ tp)) as Heq.
    { rewrite (assoc_L (++)), moves_app. cbn. by rewrite app_nil_r. }
    rewrite Heq. split.
    + intros b' [= <-]. split; [done |]. split; [done |]. intros Hu.
      destruct (Hfree Hu) as [Hgone Hnone]. split; [done |].
      intros _. by apply Hnone.
    + intros Hm. exists w1, t0. split; [done |]. by apply Hmv.
Qed.

End Orchestrator.

(** * The conversion step *)

Lemma bind_run {A B} (m : M A) (k : A -> M B) w a w1 t1 r w2 t2 :
  m w = (Ok a, w1, t1) -> k a w1 = (r, w2, t2) ->
  bind m k w = (r, w2, t1 ++ t2).
Proof. intros Hm Hk. unfold bind. by rewrite Hm, Hk. Qed.

Lemma executed_app t1 t2 : executed (t1 ++ t2) = executed t1 ++ executed t2.
Proof. apply omap_app. Qed.

Lemma outcomes_app t1 t2 : outcomes (t1 ++ t2) = outcomes t1 ++ outcomes t2.
Proof. apply omap_app. Qed.

Lemma actions_app t1 t2 : actions (t1 ++ t2) = actions t1 ++ actions t2.
Proof. apply List.filter_app. Qed.

Lemma outcomes_actions tr : outcomes (actions tr) = outcomes tr.
Proof.
  unfold outcomes, actions.
  induction tr as [|[] tr IH]; cbn; rewrite ?IH; done.
Qed.

Lemma executed_actions tr : executed (actions tr) = executed tr.
Proof.
  unfold executed, actions.
  induction tr as [|[] tr IH]; cbn; rewrite ?IH; done.
Qed.

Section Conversion.
Context (tools : Tools).

Lemma subprocess_run_runs cmd capture w :
  subprocess_run tools cmd capture w
  = (match (run_tool tools cmd w).2 with
     | Exited returncode => Ok returncode
     | Undecodable returncode =>
         if capture then Raise UnicodeDecodeError else Ok returncode
     | SpawnFailed => Raise OSError
     end,
     mkWorld (run_tool tools cmd w).1 (cwd w) (undeletable w),
     Exec cmd (run_tool tools cmd w).2 ::
       (if capture then [] else [Print (MsgToolOutput cmd)])).
Proof.
  unfold subprocess_run. rewrite bind_get_world.
  destruct (run_tool tools cmd w) as [t [code|code|]]; by destruct capture.
Qed.

(** The shell runner always returns: the tool has run, and the answer is
    whether it exited with status 0 and, where its output was captured,
    whether that output could be decoded. *)
Lemma run_command_runs cmd verbosity w :
  exists tr,
    run_command tools cmd verbosity w
    = (Ok (command_ok verbosity (run_tool tools cmd w).2),
       mkWorld (run_tool tools cmd w).1 (cwd w) (undeletable w), tr) /\
    actions tr = [Exec cmd (run_tool tools cmd w).2].
Proof.
  unfold run_command, try_except, bind, command_ok.
  destruct (verbosity =? 3); rewrite subprocess_run_runs;
    destruct (run_tool tools cmd w) as [t [code|code|]]; cbn;
    rewrite ?andb_true_r, ?andb_false_r;
    try (eexists; split; reflexivity);
    destruct (1 <? verbosity); cbn; eexists; split; reflexivity.
Qed.

Lemma command_ok_true verbosity r :
  command_ok verbosity r = true <->
  r = Exited 0 \/ (verbosity = 3 /\ r = Undecodable 0).
Proof.
  unfold command_ok. destruct r as [code|code|]; cbn.
  - rewrite orb_true_r, andb_true_r, Z.eqb_eq. split.
    + intros ->. by left.
    + by intros [[= ->]|[_ [=]]].
  - rewrite orb_false_r, andb_true_iff, !Z.eqb_eq. split.
    + intros [-> ->]. by right.
    + by intros [[=]|[-> [= ->]]].
  - split; [done|]. by intros [[=]|[_ [=]]].
Qed.

Lemma get_file_size_runs filepath w :
  get_file_size filepath w
  = (Ok match stat (resolve w filepath) (fs w) with
        | Some (IsFile s) | Some (IsDir s) => s
        | None => 0
        end, w, []).
Proof.
  unfold get_file_size, try_except, getsize. rewrite bind_get_world.
  by destruct (stat _ _) as [[|]|].
Qed.

Lemma try_unlink_runs p w :
  exists w', try_except (unlink p) (fun _ => ret tt) w = (Ok tt, w', []) /\
             cwd w' = cwd w /\ undeletable w' = undeletable w.
Proof.
  unfold try_except, unlink. rewrite bind_get_world. cbv zeta.
  destruct (stat _ _) as [[|]|]; try (by exists w).
  case_bool_decide; [by exists w |]. by eexists.
Qed.

Section One.
Context (output_dir : PyPath) (ext vgmstream_path : string).
Context (delete_small : bool) (min_file_size : Z) (remove_duplicates : bool).

Local Abbreviation output_of wem_file :=
  (path_join output_dir (path_stem wem_file +:+ "." +:+ ext)).
Local Abbreviation command_of wem_file :=
  (CmdConvert vgmstream_path (output_of wem_file) wem_file).

(** What one iteration comes to: the converter's effect, then, when the
    shell runner reports success, the policy's verdict on the measured
    size and the attempt to remove a condemned output. *)
Lemma convert_one_runs verbosity total count wem_file file_sizes w :
  let t := (run_tool tools (command_of wem_file) w).1 in
  let r := (run_tool tools (command_of wem_file) w).2 in
  let file_size :=
    match stat (resolve w (output_of wem_file)) t with
    | Some (IsFile s) | Some (IsDir s) => s
    | None => 0
    end in
  let judged :=
    should_delete_file (output_of wem_file) file_size delete_small
      min_file_size remove_duplicates file_sizes in
  exists w' tr,
    convert_one tools output_dir ext vgmstream_path verbosity delete_small
      min_file_size remove_duplicates total count wem_file file_sizes w
    = (Ok (if command_ok verbosity r then judged.2 else file_sizes), w', tr) /\
    cwd w' = cwd w /\ undeletable w' = undeletable w /\
    w' = (if command_ok verbosity r && judged.1.1
          then (try_except (unlink (output_of wem_file)) (fun _ => ret tt)
                  (mkWorld t (cwd w) (undeletable w))).1.2
          else mkWorld t (cwd w) (undeletable w)) /\
    actions tr =
      [Exec (command_of wem_file) r;
       Outcome wem_file
         (if command_ok verbosity r then Judged file_size judged.1 else ConversionFailed)].
Proof.
  intros t r file_size judged. unfold convert_one. cbv zeta.
  destruct (run_command_runs (command_of wem_file) verbosity w) as (tr1 & Hrun & Hact).
  fold t r in Hrun, Hact.
  set (w1 := mkWorld t (cwd w) (undeletable w)) in *.
  set (progress := if verbosity =? 2 then _ else _).
  assert (exists tp, progress w = (Ok tt, w, tp) /\ actions tp = []) as (tp & Hp & Hpa).
  { subst progress. destruct (verbosity =? 2); [by eexists |].
    destruct (verbosity =? 3); by eexists. }
  clearbody progress.
  assert (forall m, exists td,
            when (verbosity =? 3) (print m) w1 = (Ok tt, w1, td) /\ actions td = [])
    as Hsay.
  { intros m. destruct (verbosity =? 3); by eexists. }
  destruct (command_ok verbosity r) eqn:Hok; cbn [andb].
  - pose proof (get_file_size_runs (output_of wem_file) w1) as Hsize.
    change (resolve w1 (output_of wem_file)) with (resolve w (output_of wem_file))
      in Hsize.
    change (fs w1) with t in Hsize. fold file_size in Hsize.
    destruct judged as [[should_delete reason] file_sizes'] eqn:Hj.
    subst judged. cbn [fst snd].
    destruct (try_unlink_runs (output_of wem_file) w1) as (w2 & Hun & Hc2 & HU2).
    destruct (Hsay (MsgDeleting reason (path_name (output_of wem_file)) file_size))
      as (td & Htd & Htda).
    destruct should_delete.
    + eexists _, _. split.
      { eapply bind_run; [exact Hp |]. eapply bind_run; [exact Hrun |].
        eapply bind_run; [exact Hsize |]. rewrite Hj.
        eapply bind_run; [reflexivity |]. eapply bind_run; [|reflexivity].
        cbn [when]. eapply bind_run; [exact Htd | exact Hun]. }
      rewrite Hun. cbn [fst snd]. split; [done |]. split; [done |]. split; [done |].
      rewrite !actions_app, Hpa, Hact, Htda. done.
    + eexists _, _. split.
      { eapply bind_run; [exact Hp |]. eapply bind_run; [exact Hrun |].
        eapply bind_run; [exact Hsize |]. rewrite Hj.
        eapply bind_run; [reflexivity |]. eapply bind_run; reflexivity. }
      split; [done |]. split; [done |]. split; [done |].
      rewrite !actions_app, Hpa, Hact. done.
  - destruct (Hsay (MsgFailedToConvert (path_name wem_file))) as (td & Htd & Htda).
    eexists _, _. split.
    { eapply bind_run; [exact Hp |]. eapply bind_run; [exact Hrun |].
      eapply bind_run; [reflexivity |]. eapply bind_run; [exact Htd | reflexivity]. }
    split; [done |]. split; [done |]. split; [done |].
    rewrite !actions_app, Hpa, Hact, Htda. done.
Qed.

End One.

Lemma same_but_console_bind {A B} (m1 m2 : M A) (k1 k2 : A -> M B) :
  same_but_console m1 m2 ->
  (forall a, same_but_console (k1 a) (k2 a)) ->
  same_but_console (bind m1 k1) (bind m2 k2).
Proof.
  intros Hm Hk w. unfold bind. destruct (Hm w) as (Hr & Hw & Ha).
  destruct (m1 w) as [[r1 w1] t1], (m2 w) as [[r2 w2] t2].
  cbn [fst snd] in Hr, Hw, Ha.
  subst r2 w2. destruct r1 as [a|e]; [|done].
  destruct (Hk a w1) as (Hr' & Hw' & Ha').
  destruct (k1 a w1) as [[r1' w1'] t1'], (k2 a w1) as [[r2' w2'] t2'].
  cbn [fst snd] in *. by rewrite !actions_app, Ha, Ha'.
Qed.

Lemma same_but_console_refl {A} (m : M A) : same_but_console m m.
Proof. by intros w. Qed.

Lemma same_but_console_silent (m1 m2 : M unit) :
  silent m1 -> silent m2 -> same_but_console m1 m2.
Proof.
  intros H1 H2 w. destruct (H1 w) as (t1 & E1 & A1), (H2 w) as (t2 & E2 & A2).
  rewrite E1, E2. cbn [fst snd]. by rewrite A1, A2.
Qed.

Lemma silent_ret : silent (ret tt).
Proof. intros w. by exists []. Qed.

Lemma silent_console e : is_console e = true -> silent (emit e).
Proof. intros He w. exists [e]. split; [done |]. unfold actions. cbn. by rewrite He. Qed.

Lemma silent_when b m : silent m -> silent (when b m).
Proof. intros Hm. destruct b; [done | apply silent_ret]. Qed.

Section Loop.
Context (output_dir : PyPath) (ext vgmstream_path : string).
Context (delete_small : bool) (min_file_size : Z) (remove_duplicates : bool).

Local Abbreviation output_of :=
  (fun wem_file => path_join output_dir (path_stem wem_file +:+ "." +:+ ext)).
Local Abbreviation command_of :=
  (fun wem_file => CmdConvert vgmstream_path (output_of wem_file) wem_file).

Lemma command_ok_alike v1 v2 wem_file w :
  alike tools v1 v2 ->
  command_ok v1 (run_tool tools (command_of wem_file) w).2
  = command_ok v2 (run_tool tools (command_of wem_file) w).2.
Proof.
  unfold command_ok. intros [-> | Htext]; [done |].
  assert (decodes (run_tool tools (command_of wem_file) w).2 = true) as ->.
  { unfold run_tool.
    specialize (Htext vgmstream_path (fs w) (cwd w) (output_of wem_file) wem_file).
    by destruct (vgmstream _ _ _ _ _ _) as [? r]. }
  by rewrite !orb_true_r.
Qed.

Lemma convert_one_same v1 v2 total count wem_file file_sizes :
  alike tools v1 v2 ->
  same_but_console
    (convert_one tools output_dir ext vgmstream_path v1 delete_small
       min_file_size remove_duplicates total count wem_file file_sizes)
    (convert_one tools output_dir ext vgmstream_path v2 delete_small
       min_file_size remove_duplicates total count wem_file file_sizes).
Proof.
  intros Halike w. pose proof (command_ok_alike v1 v2 wem_file w Halike) as Hok.
  destruct (convert_one_runs output_dir ext vgmstream_path delete_small
              min_file_size remove_duplicates v1 total count wem_file file_sizes w)
    as (w1 & t1 & E1 & _ & _ & W1 & A1).
  destruct (convert_one_runs output_dir ext vgmstream_path delete_small
              min_file_size remove_duplicates v2 total count wem_file file_sizes w)
    as (w2 & t2 & E2 & _ & _ & W2 & A2).
  rewrite E1, E2. cbn [fst snd]. by rewrite A1, A2, W1, W2, Hok.
Qed.

Lemma convert_loop_same v1 v2 total wem_files :
  alike tools v1 v2 ->
  forall count file_sizes,
  same_but_console
    (convert_loop tools output_dir ext vgmstream_path v1 delete_small
       min_file_size remove_duplicates total count wem_files file_sizes)
    (convert_loop tools output_dir ext vgmstream_path v2 delete_small
       min_file_size remove_duplicates total count wem_files file_sizes).
Proof.
  intros Halike.
  induction wem_files as [|wem_file rest IH]; intros count file_sizes; cbn.
  - apply same_but_console_refl.
  - apply same_but_console_bind; [by apply convert_one_same |]. intros ?. apply IH.
Qed.

Lemma convert_wem_files_same temp_dir v1 v2 :
  alike tools v1 v2 ->
  same_but_console
    (convert_wem_files tools temp_dir output_dir ext vgmstream_path v1
       delete_small min_file_size remove_duplicates)
    (convert_wem_files tools temp_dir output_dir ext vgmstream_path v2
       delete_small min_file_size remove_duplicates).
Proof.
  intros Halike. unfold convert_wem_files.
  apply same_but_console_bind; [apply same_but_console_refl |].
  intros [|wem_file rest]; [apply same_but_console_refl |].
  apply same_but_console_bind.
  { apply same_but_console_silent; by apply silent_when, silent_console. }
  intros ?. apply same_but_console_bind; [by apply convert_loop_same |].
  intros ?. apply same_but_console_bind; [|intros ?; apply same_but_console_refl].
  apply same_but_console_silent.
  - destruct (v1 =? 2); [by apply silent_console |].
    destruct (v1 =? 1); [by apply silent_console | apply silent_ret].
  - destruct (v2 =? 2); [by apply silent_console |].
    destruct (v2 =? 1); [by apply silent_console | apply silent_ret].
Qed.

(** The loop runs the converter on every fragment, in order, whatever
    becomes of each; the verdicts it reaches are those of the policy run
    over the measured outputs. *)
Lemma convert_loop_runs verbosity total wem_files :
  forall count file_sizes w,
  exists file_sizes' w' tr,
    convert_loop tools output_dir ext vgmstream_path verbosity delete_small
      min_file_size remove_duplicates total count wem_files file_sizes w
    = (Ok file_sizes', w', tr) /\
    executed tr = command_of <$> wem_files /\
    (outcomes tr).*1 = wem_files /\
    (judged output_of tr).*2
    = filter_outputs (judged output_of tr).*1 delete_small min_file_size
        remove_duplicates file_sizes.
Proof.
  induction wem_files as [|wem_file rest IH]; intros count file_sizes w; cbn.
  { by exists file_sizes, w, []. }
  destruct (convert_one_runs output_dir ext vgmstream_path delete_small
              min_file_size remove_duplicates verbosity total count wem_file
              file_sizes w)
    as (w1 & t1 & Hone & _ & _ & _ & Hact).
  match type of Hone with _ = (Ok ?x, _, _) => set (fs1 := x) in * end.
  destruct (IH (S count) fs1 w1) as (fs2 & w2 & t2 & Hrest & Hex & Hout & Hjud).
  exists fs2, w2, (t1 ++ t2). split; [by eapply bind_run |].
  assert (executed t1 = [command_of wem_file]) as Hex1.
  { by rewrite <- executed_actions, Hact. }
  split; [by rewrite executed_app, Hex1, Hex |].
  unfold judged in *. rewrite outcomes_app.
  rewrite <- (outcomes_actions t1), Hact.
  split; [cbn; by rewrite Hout |].
  cbn [outcomes omap]. cbn -[filter_outputs should_delete_file].
  subst fs1. destruct (command_ok _ _); cbn -[filter_outputs should_delete_file].
  - cbn [filter_outputs].
    destruct (should_delete_file _ _ _ _ _ _) as [verdict fs'] eqn:Hv.
    cbn in Hjud |- *. by rewrite Hjud.
  - done.
Qed.

End Loop.
End Conversion.

(** * The scenarios, run *)

(** Two fragments, both converted and kept; the fragments deleted with
    the workspace, or moved to the output subdirectory when retained. *)
Example two_fragments_converted :
  let run := process_foo two_fragments true (app_world app_tree ∅) in
  run.1.1 = Ok true /\
  stat foo_workspace (fs run.1.2) = None /\
  listdir ["app"; "output"; "foo"] (fs run.1.2) = ["1.wav"; "2.wav"] /\
  (outcomes run.2).*2 = [Judged 5000 (false, None); Judged 6000 (false, None)] /\
  moves run.2 = [].
Proof. by vm_compute. Qed.

Example two_fragments_retained :
  let run := process_foo two_fragments false (app_world app_tree ∅) in
  run.1.1 = Ok true /\
  stat foo_workspace (fs run.1.2) = None /\
  listdir ["app"; "output"; "foo"] (fs run.1.2)
  = ["1.wem"; "1.wav"; "2.wem"; "2.wav"] /\
  moves run.2 =
    [(["app"; "temp_foo"; "1.wem"], ["app"; "output"; "foo"; "1.wem"]);
     (["app"; "temp_foo"; "2.wem"], ["app"; "output"; "foo"; "2.wem"])].
Proof. by vm_compute. Qed.

(** An archive that is not there: the copy raises inside the [try]
    block, the exception is caught and reported, and the workspace is
    removed. *)
Example missing_archive_caught :
  let run :=
    process_bnk_file two_fragments (mkPath true ["app"; "input"; "bar.bnk"])
      output_base "wav" "bnkextr.exe" "vgmstream-cli.exe" 1 false true 4844
      true (app_world app_tree ∅) in
  run.1.1 = Ok false /\
  run.2 = [Print (MsgBanner "bar.bnk"); SpinnerStop;
           Print (MsgErrorException "bar.bnk" FileNotFoundError)] /\
  stat ["app"; "temp_bar"] (fs run.1.2) = None /\
  stat ["app"; "output"; "bar"] (fs run.1.2) = Some (IsDir 0).
Proof. by vm_compute. Qed.

(** * The conversion step, as specified *)

Lemma bind_glob {B} dir suffix (k : list PyPath -> M B) w :
  bind (glob dir suffix) k w
  = k (path_join dir <$>
         List.filter (ends_with suffix) (listdir (resolve w dir) (fs w))) w.
Proof.
  unfold bind, glob, get_world, ret. cbn. by destruct (k _ w) as [[? ?] ?].
Qed.

(** C5. The conversion step never raises. It returns false exactly when
    the workspace holds no fragment at enumeration; otherwise it returns
    true, whatever the converter does, having run the converter once on
    every fragment, in order, and having reached an outcome for each. *)
Theorem conversion_false_iff_no_fragments tools temp_dir output_dir ext
    vgmstream_path verbosity delete_small min_file_size remove_duplicates w :
  exists w' tr,
    convert_wem_files tools temp_dir output_dir ext vgmstream_path verbosity
      delete_small min_file_size remove_duplicates w
    = (Ok (bool_decide (fragments temp_dir w <> [])), w', tr) /\
    executed tr =
      (fun wem_file =>
         CmdConvert vgmstream_path
           (path_join output_dir (path_stem wem_file +:+ "." +:+ ext)) wem_file)
      <$> fragments temp_dir w /\
    (outcomes tr).*1 = fragments temp_dir w.
Proof.
  unfold convert_wem_files. rewrite bind_glob.
  fold (fragments temp_dir w).
  destruct (fragments temp_dir w) as [|wem_file rest] eqn:Hfr.
  { exists w, []. by rewrite bool_decide_eq_false_2 by by intros []. }
  rewrite bool_decide_eq_true_2 by done.
  assert (exists ts, when (verbosity =? 1) (spinner_start MsgConverting) w
                     = (Ok tt, w, ts) /\ actions ts = []) as (ts & Hs & Hsa).
  { destruct (verbosity =? 1); by eexists. }
  destruct (convert_loop_runs tools output_dir ext vgmstream_path delete_small
              min_file_size remove_duplicates verbosity
              (length (wem_file :: rest)) (wem_file :: rest) 1%nat ∅ w)
    as (fs' & w' & tl & Hloop & Hex & Hout & _).
  assert (exists te,
            (if verbosity =? 2 then print MsgNewline
             else if verbosity =? 1 then spinner_stop else ret tt) w'
            = (Ok tt, w', te) /\ actions te = []) as (te & He & Hea).
  { destruct (verbosity =? 2); [by eexists |].
    destruct (verbosity =? 1); by eexists. }
  exists w', (ts ++ tl ++ te ++ []). split.
  { eapply bind_run; [exact Hs |]. eapply bind_run; [exact Hloop |].
    eapply bind_run; [exact He | reflexivity]. }
  rewrite app_nil_r, !executed_app, !outcomes_app.
  rewrite <- (executed_actions ts), <- (executed_actions te), Hsa, Hea.
  rewrite <- (outcomes_actions ts), <- (outcomes_actions te), Hsa, Hea.
  change (executed []) with (@nil command).
  change (outcomes []) with (@nil (PyPath * outcome)).
  rewrite !app_nil_r. cbn [app]. by rewrite Hex, Hout.
Qed.

(** Two runs of the conversion step that differ in the verbosity alone,
    at verbosities the shell runner treats alike, end with the same result
    and the same world, have run the same tools with the same endings, and
    have reached the same outcome (failed, or the measured size and the
    verdict of the policy) for every fragment: the runs differ in what the
    operator sees only. This holds between verbosity 1 and 2, and between
    any two for a converter whose output reads as text. *)
Lemma alike_verbosities_change_console_only tools temp_dir output_dir ext
    vgmstream_path v1 v2 delete_small min_file_size remove_duplicates w :
  alike tools v1 v2 ->
  let run1 :=
    convert_wem_files tools temp_dir output_dir ext vgmstream_path v1
      delete_small min_file_size remove_duplicates w in
  let run2 :=
    convert_wem_files tools temp_dir output_dir ext vgmstream_path v2
      delete_small min_file_size remove_duplicates w in
  run1.1.1 = run2.1.1 /\ run1.1.2 = run2.1.2 /\
  outcomes run1.2 = outcomes run2.2 /\
  actions run1.2 = actions run2.2.
Proof.
  intros Halike run1 run2.
  destruct (convert_wem_files_same tools output_dir ext vgmstream_path
              delete_small min_file_size remove_duplicates temp_dir v1 v2
              Halike w)
    as (Hr & Hw & Ha).
  fold run1 run2 in Hr, Hw, Ha. split; [done |]. split; [done |]. split; [|done].
  by rewrite <- (outcomes_actions run1.2), <- (outcomes_actions run2.2), Ha.
Qed.

(** C7: the code at an input it can meet. The converter exits with 0 and
    leaves an output of 100 bytes, and what it wrote to its standard output
    does not decode. At verbosity 1 the shell runner captures that output,
    the decoding raises, and the run counts as failed: the fragment is a
    failed conversion and its output stays, unmeasured. At verbosity 3
    nothing is captured, the same run counts as a success: the output is
    measured, judged small and removed. The two runs differ in the
    verbosity alone, and in the outcome and on disk. *)
Theorem verbosity_decides_the_outcome :
  let w := before_conversion garbled_converter in
  let fragment := mkPath false ["temp_foo"; "1.wem"] in
  let output := ["app"; "output"; "foo"; "1.wav"] in
  let run verbosity :=
    convert_wem_files garbled_converter (temp_dir_of foo_bnk)
      (output_dir_of foo_bnk output_base) "wav" "vgmstream-cli.exe" verbosity
      true 4844 false w in
  outcomes (run 1).2 = [(fragment, ConversionFailed)] /\
  stat output (fs (run 1).1.2) = Some (IsFile 100) /\
  outcomes (run 3).2 = [(fragment, Judged 100 (true, Some "small"))] /\
  stat output (fs (run 3).1.2) = None.
Proof. by vm_compute. Qed.

(** Measuring a size never raises and changes nothing; a path that cannot
    be read measures 0. So when the shell runner reports the converter's
    run as a success and the output does not exist, the iteration returns,
    the fragment counts as converted and its output is judged as a file of
    0 bytes: delete-as-small whenever small-file deletion is on with a
    positive threshold. *)
Lemma unreadable_output_is_zero_bytes tools :
  (forall filepath w,
     exists size,
       get_file_size filepath w = (Ok size, w, []) /\
       (stat (resolve w filepath) (fs w) = None -> size = 0)) /\
  (forall output_dir ext vgmstream_path verbosity delete_small min_file_size
          remove_duplicates total count wem_file file_sizes w,
     let output_file :=
       path_join output_dir (path_stem wem_file +:+ "." +:+ ext) in
     let after :=
       run_tool tools (CmdConvert vgmstream_path output_file wem_file) w in
     let judgement :=
       should_delete_file output_file 0 delete_small min_file_size
         remove_duplicates file_sizes in
     command_ok verbosity after.2 = true ->
     stat (resolve w output_file) after.1 = None ->
     exists w' tr,
       convert_one tools output_dir ext vgmstream_path verbosity delete_small
         min_file_size remove_duplicates total count wem_file file_sizes w
       = (Ok judgement.2, w', tr) /\
       outcomes tr = [(wem_file, Judged 0 judgement.1)] /\
       (delete_small = true -> 0 < min_file_size ->
        decision_of judgement.1 = Some DeleteSmall)).
Proof.
  split.
  - intros filepath w. rewrite get_file_size_runs. eexists. split; [done |].
    by intros ->.
  - intros output_dir ext vgmstream_path verbosity delete_small min_file_size
      remove_duplicates total count wem_file file_sizes w output_file after
      judgement Hexit Hnone.
    destruct (convert_one_runs tools output_dir ext vgmstream_path delete_small
                min_file_size remove_duplicates verbosity total count wem_file
                file_sizes w) as (w' & tr & Hrun & _ & _ & _ & Hact).
    fold output_file after in Hrun, Hact.
    rewrite Hexit, Hnone in Hrun, Hact.
    fold judgement in Hrun, Hact.
    exists w', tr. split; [done |]. split.
    + by rewrite <- outcomes_actions, Hact.
    + intros -> Hpos. subst judgement.
      by rewrite should_delete_file_small.
Qed.

Example unreadable_output_of_mute_converter :
  let w2 := before_conversion mute_converter in
  let fragment := mkPath false ["temp_foo"; "1.wem"] in
  exists w' tr,
    convert_one mute_converter (output_dir_of foo_bnk output_base) "wav"
      "vgmstream-cli.exe" 1 true 4844 true 1 1 fragment ∅ w2
    = (Ok ∅, w', tr) /\
    outcomes tr = [(fragment, Judged 0 (true, Some "small"))] /\
    (true = true -> 0 < 4844 -> decision_of (true, Some "small") = Some DeleteSmall).
Proof.
  intros w2 fragment.
  exact (proj2 (unreadable_output_is_zero_bytes mute_converter)
           (output_dir_of foo_bnk output_base) "wav" "vgmstream-cli.exe" 1
           true 4844 true 1%nat 1%nat fragment ∅ w2 eq_refl eq_refl).
Qed.

(** C10: the code at an input it can meet. The converter exits with 0 and
    writes no output file, and what it wrote to its standard output does not
    decode. At verbosity 1 the shell runner reports the run as failed, so
    the size is never measured and the policy never asked: the fragment is
    a failed conversion. At verbosity 3 the same run is a success, the
    missing output measures 0 bytes and is judged small. *)
Theorem undecodable_success_is_not_measured :
  let w := before_conversion garbled_mute_converter in
  let fragment := mkPath false ["temp_foo"; "1.wem"] in
  let run verbosity :=
    convert_one garbled_mute_converter (output_dir_of foo_bnk output_base)
      "wav" "vgmstream-cli.exe" verbosity true 4844 true 1 1 fragment ∅ w in
  let converter :=
    CmdConvert "vgmstream-cli.exe"
      (mkPath true ["app"; "output"; "foo"; "1.wav"]) fragment in
  actions (run 1).2 =
    [Exec converter (Undecodable 0); Outcome fragment ConversionFailed] /\
  actions (run 3).2 =
    [Exec converter (Undecodable 0);
     Outcome fragment (Judged 0 (true, Some "small"))].
Proof. by vm_compute. Qed.

(** * The per-archive step, as specified *)

(** C4, as amended. When [process_bnk_file] has returned, by success, by
    a reported failure or by a caught exception, the workspace of the
    archive no longer exists, provided the operating system refuses no
    removal inside the workspace. *)
Theorem workspace_removed_unless_refused tools bnk_file output_base_dir ext
    bnkextr_path vgmstream_path verbosity cleanup_wem delete_small
    min_file_size remove_duplicates w b w' tr :
  process_bnk_file tools bnk_file output_base_dir ext bnkextr_path
    vgmstream_path verbosity cleanup_wem delete_small min_file_size
    remove_duplicates w = (Ok b, w', tr) ->
  (forall u, u ∈ undeletable w ->
     ~ resolve w (temp_dir_of bnk_file) `prefix_of` u) ->
  stat (resolve w (temp_dir_of bnk_file)) (fs w') = None /\ cwd w' = cwd w.
Proof.
  intros Hrun Hfree. apply process_bnk_file_cases in Hrun.
  destruct (step_run_facts _ _ _ _ _ _ _ _ _ _ _ _ _ _ _ Hrun) as [Hret _].
  destruct (Hret b eq_refl) as (Hc & _ & Hgone).
  rewrite resolve_temp_dir in *. split; [|done]. by apply Hgone.
Qed.

Lemma workspace_removed_unless_refused_witness :
  let w := app_world app_tree {[ ["app"; "bnkextr.exe"] ]} in
  (process_foo two_fragments false w).1.1 = Ok true /\
  stat foo_workspace (fs (process_foo two_fragments false w).1.2) = None /\
  cwd (process_foo two_fragments false w).1.2 = ["app"].
Proof.
  intros w. split; [by vm_compute |].
  apply (workspace_removed_unless_refused two_fragments foo_bnk output_base
           "wav" "bnkextr.exe" "vgmstream-cli.exe" 1 false true 4844 true w
           true _ (process_foo two_fragments false w).2).
  - by vm_compute.
  - intros u Hu. subst w. cbn in Hu. apply elem_of_singleton in Hu as ->.
    by intros [k Hk].
Defined.

(** C4 as the specification states it does not hold: the copy of the
    archive resists removal, both removals of the workspace raise, the
    second is swallowed, and the step returns with the workspace still
    there. *)
Lemma workspace_survives_refused_removal :
  exists b w' tr,
    process_foo two_fragments true (app_world app_tree {[ foo_copy ]})
    = (Ok b, w', tr) /\
    stat foo_workspace (fs w') = Some (IsDir 0).
Proof. eexists _, _, _. split; [by vm_compute | by vm_compute]. Qed.

(** C9, as amended. A fragment is moved only when extraction and
    conversion have both succeeded. When the step returns failure and the
    operating system refuses no removal inside the workspace, no fragment
    has been moved and the workspace is gone with all it held, whatever
    the retention setting. *)
Theorem fragments_move_only_after_success tools bnk_file output_base_dir ext
    bnkextr_path vgmstream_path verbosity cleanup_wem delete_small
    min_file_size remove_duplicates w r w' tr :
  process_bnk_file tools bnk_file output_base_dir ext bnkextr_path
    vgmstream_path verbosity cleanup_wem delete_small min_file_size
    remove_duplicates w = (r, w', tr) ->
  (moves tr <> [] ->
   exists w1 t0,
     acquire_workspace bnk_file output_base_dir w = (Ok tt, w1, t0) /\
     both_succeeded tools bnk_file output_base_dir ext bnkextr_path
       vgmstream_path verbosity delete_small min_file_size remove_duplicates
       w1) /\
  ((forall u, u ∈ undeletable w ->
      ~ resolve w (temp_dir_of bnk_file) `prefix_of` u) ->
   r = Ok false ->
   moves tr = [] /\
   forall q, resolve w (temp_dir_of bnk_file) `prefix_of` q ->
             stat q (fs w') = None).
Proof.
  intros Hrun. apply process_bnk_file_cases in Hrun.
  destruct (step_run_facts _ _ _ _ _ _ _ _ _ _ _ _ _ _ _ Hrun) as [Hret Hmoved].
  split; [done |]. intros Hfree ->.
  destruct (Hret false eq_refl) as (_ & _ & Hgone).
  rewrite resolve_temp_dir in *. destruct (Hgone Hfree) as [Hnone Hmv].
  split; [by apply Hmv |]. intros q Hq. by apply (stat_none_below _ q) in Hnone.
Qed.

Lemma fragments_move_only_after_success_witness :
  let run := process_foo failing_extractor false (app_world app_tree ∅) in
  run.1.1 = Ok false /\
  moves run.2 = [] /\
  forall q, foo_workspace `prefix_of` q -> stat q (fs run.1.2) = None.
Proof.
  intros run. split; [by vm_compute |].
  apply (fragments_move_only_after_success failing_extractor foo_bnk
           output_base "wav" "bnkextr.exe" "vgmstream-cli.exe" 1 false true
           4844 true (app_world app_tree ∅) run.1.1 run.1.2 run.2).
  - by vm_compute.
  - intros u Hu. cbn in Hu. by apply not_elem_of_empty in Hu.
  - by vm_compute.
Defined.

(** C9 as the specification states it does not hold: with retention
    configured, extraction and conversion succeed and both fragments are
    moved out; then the removal of the workspace is refused, the exception
    is caught, and the step returns failure with fragments moved and the
    workspace, holding the copy of the archive, still there. *)
Lemma failure_after_fragments_moved :
  exists w' tr,
    process_foo two_fragments false (app_world app_tree {[ foo_copy ]})
    = (Ok false, w', tr) /\
    moves tr =
      [(["app"; "temp_foo"; "1.wem"], ["app"; "output"; "foo"; "1.wem"]);
       (["app"; "temp_foo"; "2.wem"], ["app"; "output"; "foo"; "2.wem"])] /\
    stat foo_workspace (fs w') = Some (IsDir 0) /\
    stat foo_copy (fs w') = Some (IsFile 777).
Proof. eexists _, _. split; [by vm_compute | by vm_compute]. Qed.

(** C8, as amended. When the extraction of an archive succeeds and
    leaves no fragment, the conversion step returns false without running
    anything, [process_bnk_file] returns false (no exception escapes), the
    archive is not in the success report, nothing has been moved, and
    outside the workspace every path other than the output subdirectory
    itself is as it was before the step: the step adds no entry to the
    output subdirectory, and leaves there what an earlier run left. *)
Theorem no_fragments_fails_the_archive tools bnk_file output_base_dir ext
    bnkextr_path vgmstream_path verbosity cleanup_wem delete_small
    min_file_size remove_duplicates w w1 t0 w2 t1 :
  acquire_workspace bnk_file output_base_dir w = (Ok tt, w1, t0) ->
  extract_bnk tools bnk_file (temp_dir_of bnk_file) bnkextr_path verbosity w1
    = (Ok true, w2, t1) ->
  fragments (temp_dir_of bnk_file) w2 = [] ->
  convert_wem_files tools (temp_dir_of bnk_file)
    (output_dir_of bnk_file output_base_dir) ext vgmstream_path verbosity
    delete_small min_file_size remove_duplicates w2 = (Ok false, w2, []) /\
  exists w' tr,
    process_bnk_file tools bnk_file output_base_dir ext bnkextr_path
      vgmstream_path verbosity cleanup_wem delete_small min_file_size
      remove_duplicates w = (Ok false, w', tr) /\
    processed_files tools [bnk_file] output_base_dir ext bnkextr_path
      vgmstream_path verbosity cleanup_wem delete_small min_file_size
      remove_duplicates w = (Ok [], w', tr) /\
    moves tr = [] /\
    forall q,
      q <> resolve w (output_dir_of bnk_file output_base_dir) ->
      ~ resolve w (temp_dir_of bnk_file) `prefix_of` q ->
      stat q (fs w') = stat q (fs w).
Proof.
  intros Hacq Hext Hnone.
  assert (convert_wem_files tools (temp_dir_of bnk_file)
            (output_dir_of bnk_file output_base_dir) ext vgmstream_path
            verbosity delete_small min_file_size remove_duplicates w2
          = (Ok false, w2, [])) as Hconv.
  { unfold convert_wem_files. rewrite bind_glob.
    fold (fragments (temp_dir_of bnk_file) w2). by rewrite Hnone. }
  split; [done |].
  destruct (acquire_workspace_ok _ _ _ _ _ Hacq)
    as (Hc1 & HU1 & HT1 & Hcwd1 & Hno1 & Hframe1 & Ht0 & _).
  rewrite <- Hc1 in HT1, Hcwd1, Hno1.
  destruct (extraction_facts _ _ _ _ _ _ _ _ HT1 Hcwd1 Hno1 Hext)
    as ((Hc2 & _ & _) & Hout2 & Ht1).
  destruct (final_cleanup_runs (temp_dir_of bnk_file) w2)
    as (w' & Hfin & _ & _ & Hframe3 & _).
  assert (pipeline tools bnk_file output_base_dir ext bnkextr_path
            vgmstream_path verbosity cleanup_wem delete_small min_file_size
            remove_duplicates w1
          = (Ok false, w2,
             t1 ++ [] ++ [Print (MsgErrorNoFragments (path_name bnk_file))] ++ []))
    as Hpipe.
  { unfold pipeline. cbv zeta. eapply bind_run; [exact Hext |]. cbn [negb].
    eapply bind_run; [exact Hconv |]. cbn [negb].
    eapply bind_run; reflexivity. }
  assert (process_bnk_file tools bnk_file output_base_dir ext bnkextr_path
            vgmstream_path verbosity cleanup_wem delete_small min_file_size
            remove_duplicates w
          = (Ok false, w',
             t0 ++ (t1 ++ [] ++
                    [Print (MsgErrorNoFragments (path_name bnk_file))] ++ []) ++ []))
    as Hproc.
  { unfold process_bnk_file. eapply bind_run; [exact Hacq |].
    unfold try_finally, try_except. by rewrite Hpipe, Hfin. }
  eexists w', _. split; [exact Hproc |]. split; [| split].
  - cbn [processed_files]. unfold bind. rewrite Hproc. cbn.
    by rewrite !app_nil_r.
  - rewrite !moves_app, (moves_none t0), (moves_none t1) by done. done.
  - intros q HqO HqT. rewrite resolve_temp_dir in *.
    rewrite Hframe3 by by rewrite Hc2, Hc1.
    rewrite (Hout2 q) by by rewrite Hc1.
    by apply Hframe1.
Qed.

Lemma no_fragments_fails_the_archive_witness :
  let w := app_world app_tree ∅ in
  let run := process_foo empty_archive false w in
  run.1.1 = Ok false /\
  processed_files empty_archive [foo_bnk] output_base "wav" "bnkextr.exe"
    "vgmstream-cli.exe" 1 false true 4844 true w = (Ok [], run.1.2, run.2) /\
  listdir (resolve w (output_dir_of foo_bnk output_base)) (fs run.1.2) = [].
Proof.
  intros w run.
  set (w1 := (acquire_workspace foo_bnk output_base w).1.2).
  set (t0 := (acquire_workspace foo_bnk output_base w).2).
  set (ex := extract_bnk empty_archive foo_bnk (temp_dir_of foo_bnk)
               "bnkextr.exe" 1 w1).
  destruct (no_fragments_fails_the_archive empty_archive foo_bnk output_base
              "wav" "bnkextr.exe" "vgmstream-cli.exe" 1 false true 4844 true
              w w1 t0 ex.1.2 ex.2)
    as (_ & w' & tr & Hproc & Hreport & _ & _);
    [by vm_compute | by vm_compute | by vm_compute |].
  assert (run = (Ok false, w', tr)) as Hrun by exact Hproc.
  split; [by rewrite Hrun |]. split; [by rewrite Hrun |]. by vm_compute.
Defined.

(** C8 as the specification states it does not hold: an earlier run has
    left an output in the output subdirectory of the archive; the archive
    now yields no fragment, the step returns false, and the entry is still
    there. *)
Lemma old_output_outlives_failed_archive :
  let w := app_world app_tree_rerun ∅ in
  let w1 := (acquire_workspace foo_bnk output_base w).1.2 in
  let ex := extract_bnk empty_archive foo_bnk (temp_dir_of foo_bnk)
              "bnkextr.exe" 1 w1 in
  let run := process_foo empty_archive false w in
  ex.1.1 = Ok true /\ fragments (temp_dir_of foo_bnk) ex.1.2 = [] /\
  run.1.1 = Ok false /\
  stat (resolve w (output_dir_of foo_bnk output_base) ++ ["old.wav"])
    (fs run.1.2) = Some (IsFile 5000).
Proof. by vm_compute. Qed.

(** * The copy of the archive *)

Lemma copy2_ok src dst w w' tr :
  copy2 src dst w = (Ok tt, w', tr) ->
  let d := resolve w dst in
  let d' := if is_dir d (fs w) then resolve w (path_join dst (path_name src))
            else d in
  tr = [] /\ cwd w' = cwd w /\ undeletable w' = undeletable w /\
  is_dir (removelast d') (fs w) = true /\ is_dir d' (fs w) = false /\
  exists size, fs w' = put_node d' (File size) (fs w).
Proof.
  unfold copy2. rewrite bind_get_world. cbv zeta.
  set (d' := if is_dir (resolve w dst) (fs w) then _ else _). clearbody d'.
  destruct (lookup_node (resolve w src) (fs w)) as [[size|]|]; try done.
  case_bool_decide; [done |]. unfold is_dir.
  destruct (stat d' (fs w)) as [[|]|];
    destruct (stat (removelast d') (fs w)) as [[|]|]; try done;
    intros [= <- <-]; repeat split; eauto.
Qed.

Lemma chdir_ok p w w' tr :
  chdir p w = (Ok tt, w', tr) ->
  tr = [] /\ fs w' = fs w /\ undeletable w' = undeletable w /\
  cwd w' = resolve w p /\ is_dir (resolve w p) (fs w) = true.
Proof.
  unfold chdir. rewrite bind_get_world. cbv zeta. unfold is_dir.
  destruct (stat (resolve w p) (fs w)) as [[|]|]; try done.
  by intros [= <- <-].
Qed.

Lemma is_file_put p s t :
  p <> [] -> is_dir (removelast p) t = true ->
  is_file p (put_node p (File s) t).
Proof.
  intros Hp Hdir. exists s. unfold put_node, stat.
  rewrite <- (app_nil_r p) at 1. by rewrite lookup_update_node_at.
Qed.

(** A tool that writes a file leaves the files of the tree files. *)
Lemma is_file_write_file p s q t :
  is_file q t -> is_file q (write_file p s t).
Proof.
  intros [size Hq]. unfold write_file.
  destruct (is_dir (removelast p) t) eqn:Hpar; cbn [andb]; [|by exists size].
  destruct (is_dir p t) eqn:Hp; cbn [negb]; [by exists size |].
  destruct (decide (p `prefix_of` q)) as [Hpre|Hout].
  - destruct (decide (p = q)) as [->|Hne].
    + apply is_file_put; [|done]. intros ->.
      change (removelast []) with (@nil string) in Hpar. congruence.
    + rewrite (stat_below_is_dir p q t) in Hp; [done | done | done |].
      rewrite Hq. eauto.
  - exists size. unfold put_node. by rewrite stat_update_node_outside.
Qed.

Lemma is_file_foldl_write (files : list (string * Z)) d q t :
  is_file q t ->
  is_file q (foldl (fun t '(name, size) => write_file (d ++ [name]) size t)
               t files).
Proof.
  revert t. induction files as [|[n s] files IH]; intros t Hq; [done |].
  cbn. by apply IH, is_file_write_file.
Qed.

Lemma path_join_empty p : path_join p "" = p.
Proof. unfold path_join. by destruct (decide ("" = "")). Qed.

Section Copy.
Context (tools : Tools) (bnk_file : PyPath) (bnkextr_path : string).
Context (verbosity : Z).

Local Abbreviation temp := ("temp_" +:+ path_stem bnk_file).
Local Abbreviation name := (path_name bnk_file).

(** In a workspace that holds no directory named as the archive or as
    the workspace itself (a fresh workspace holds none), the extraction,
    when it returns, has left the copy of the archive where it put it. *)
Lemma extract_bnk_keeps_the_copy w1 b w2 t1 :
  is_dir (cwd w1 ++ [temp]) (fs w1) = true ->
  is_dir ((cwd w1 ++ [temp]) ++ [temp]) (fs w1) = false ->
  is_dir ((cwd w1 ++ [temp]) ++ [name]) (fs w1) = false ->
  extract_bnk tools bnk_file (temp_dir_of bnk_file) bnkextr_path verbosity w1
    = (Ok b, w2, t1) ->
  name <> "" /\ cwd w2 = cwd w1 /\
  is_file ((cwd w1 ++ [temp]) ++ [name]) (fs w2).
Proof.
  intros HT Hnot Hnon Hrun. rewrite temp_dir_of_parts in Hrun.
  unfold extract_bnk in Hrun. cbv zeta in Hrun.
  apply bind_ok in Hrun as ([] & wa & ta & ? & Hcopy & Hrun & ->).
  apply bind_ok in Hrun as ([] & ? & ? & ? & [= <- <-] & Hrun & ->).
  apply bind_ok in Hrun as (original_dir & ? & ? & ? & [= <- <- <-] & Hrun & ->).
  apply bind_ok in Hrun as ([] & wb & tb & ? & Hin & Hrun & ->).
  apply bind_ok in Hrun as (success & wc & tc & ? & Htool & Hrun & ->).
  apply bind_ok in Hrun as (present & ? & ? & ? & [= <- <- <-] & Hrun & ->).
  apply bind_ok in Hrun as ([] & wd & td & ? & Hunlink & Hrun & ->).
  apply bind_ok in Hrun as ([] & we & te & ? & Hback & Hrun & ->).
  apply bind_ok in Hrun as ([] & ? & ? & ? & [= <- <-] & [= <- <- <-] & ->).
  apply copy2_ok in Hcopy as (-> & Hca & HUa & Hpar & Hfree & size & Hfsa).
  assert (name <> "") as Hname.
  { intros Hempty. rewrite Hempty, !path_join_empty in Hfree.
    change (resolve w1 (mkPath false [temp])) with (cwd w1 ++ [temp]) in Hfree.
    rewrite HT in Hfree. congruence. }
  assert (resolve w1 (path_join (mkPath false [temp]) name)
          = (cwd w1 ++ [temp]) ++ [name]) as Hres.
  { unfold path_join, resolve. destruct (decide (name = "")); [done |].
    cbn. by rewrite <- (assoc_L (++)). }
  rewrite Hres, Hnon in Hpar, Hfree, Hfsa.
  assert (is_file ((cwd w1 ++ [temp]) ++ [name]) (fs wa)) as Hfile.
  { rewrite Hfsa. apply is_file_put; [by destruct (cwd w1 ++ [temp]) | done]. }
  assert (forall q, is_dir q (fs wa) = is_dir q (fs w1)) as Hdirs.
  { intros q. rewrite Hfsa. by apply is_dir_put_file. }
  apply chdir_ok in Hin as (-> & Hfsb & HUb & Hcb & _).
  assert (cwd wb = cwd w1 ++ [temp]) as HcT.
  { rewrite Hcb. unfold resolve. cbn. by rewrite Hca. }
  destruct (run_command_runs tools (CmdExtract bnkextr_path name) verbosity wb)
    as (tr & Htool' & _).
  rewrite Htool in Htool'. injection Htool' as _ Hwc _.
  assert (is_file ((cwd w1 ++ [temp]) ++ [name]) (fs wc) /\
          forall q, is_dir q (fs wc) = is_dir q (fs w1)) as [Hfilec Hdirsc].
  { rewrite Hwc. cbn. unfold run_tool.
    destruct (bnkextr _ _ _ _ _) as [files r]. cbn. split.
    - apply is_file_foldl_write. by rewrite Hfsb.
    - intros q. by rewrite is_dir_foldl_write, Hfsb. }
  assert (cwd wc = cwd w1 ++ [temp]) as HcTc by (rewrite Hwc; exact HcT).
  assert (bool_decide
            (is_Some (stat (resolve wc (path_join (mkPath false [temp]) name))
                        (fs wc))) = false) as Habsent.
  { apply bool_decide_eq_false_2. intros Hsome.
    rewrite <- (Hdirsc ((cwd w1 ++ [temp]) ++ [temp])) in Hnot.
    rewrite (stat_below_is_dir ((cwd w1 ++ [temp]) ++ [temp])
               (resolve wc (path_join (mkPath false [temp]) name)) (fs wc))
      in Hnot; [done | | | done].
    - unfold path_join, resolve. destruct (decide (name = "")); [done |].
      cbn. rewrite HcTc. exists [name]. by rewrite <- !(assoc_L (++)).
    - unfold path_join, resolve. destruct (decide (name = "")); [done |].
      cbn. rewrite HcTc. intros Heq. apply (f_equal length) in Heq.
      rewrite !length_app in Heq. cbn in Heq. lia. }
  rewrite Habsent in Hunlink. injection Hunlink as <- <-.
  apply chdir_ok in Hback as (-> & Hfse & _ & Hce & _).
  split; [done |]. split; [by rewrite Hce |]. by rewrite Hfse.
Qed.

End Copy.

(** So it is for every archive [process_bnk_file] takes, whatever the
    extractor does: once the workspace is acquired and the extraction has
    returned, the copy of the archive is in the workspace, and the process
    is back in its working directory. *)
Lemma copy_stays_through_extraction tools bnk_file output_base_dir
    bnkextr_path verbosity w w1 t0 b w2 t1 :
  let copy := resolve w (path_join (temp_dir_of bnk_file) (path_name bnk_file)) in
  resolve w (output_dir_of bnk_file output_base_dir) <> copy ->
  acquire_workspace bnk_file output_base_dir w = (Ok tt, w1, t0) ->
  extract_bnk tools bnk_file (temp_dir_of bnk_file) bnkextr_path verbosity w1
    = (Ok b, w2, t1) ->
  is_file copy (fs w2) /\ cwd w2 = cwd w.
Proof.
  intros copy HneO Hacq Hext.
  destruct (acquire_workspace_ok _ _ _ _ _ Hacq)
    as (Hc1 & _ & HT1 & _ & Hno1 & _ & _ & Hempty).
  destruct (decide (path_name bnk_file = "")) as [Hname|Hname].
  - exfalso. rewrite <- Hc1 in HT1.
    rewrite temp_dir_of_parts in Hext. unfold extract_bnk in Hext.
    cbv zeta in Hext. apply bind_ok in Hext as ([] & wa & ? & ? & Hcopy & _).
    apply copy2_ok in Hcopy as (_ & _ & _ & _ & Hfree & _).
    rewrite Hname, !path_join_empty in Hfree.
    change (resolve w1 (mkPath false ["temp_" +:+ path_stem bnk_file]))
      with (cwd w1 ++ ["temp_" +:+ path_stem bnk_file]) in Hfree.
    rewrite HT1 in Hfree. congruence.
  - assert (copy = (cwd w ++ ["temp_" +:+ path_stem bnk_file])
                   ++ [path_name bnk_file]) as Hcopy.
    { unfold copy. rewrite temp_dir_of_parts. unfold path_join, resolve.
      destruct (decide (path_name bnk_file = "")); [done |].
      cbn. by rewrite <- (assoc_L (++)). }
    rewrite Hcopy in HneO |- *. rewrite <- Hc1 in *.
    destruct (extract_bnk_keeps_the_copy tools bnk_file bnkextr_path verbosity
                w1 b w2 t1) as (_ & ? & ?); try done.
    + by apply Hno1.
    + unfold is_dir. rewrite Hempty; [done |]. congruence.
Qed.

(** C6: the code at the input [process_bnk_file] gives it. The workspace
    is a relative path, and the program looks for the copy after it has
    changed into the workspace: it looks in [temp_foo/temp_foo], finds
    nothing, removes nothing. Extraction returns with the working
    directory restored and the copy of the archive still in the
    workspace. *)
Theorem extract_bnk_leaves_the_copy :
  let w1 := (acquire_workspace foo_bnk output_base (app_world app_tree ∅)).1.2 in
  let run := extract_bnk two_fragments foo_bnk (temp_dir_of foo_bnk)
               "bnkextr.exe" 1 w1 in
  run.1.1 = Ok true /\ cwd run.1.2 = ["app"] /\
  stat foo_copy (fs run.1.2) = Some (IsFile 777).
Proof. by vm_compute. Qed.

(** Given the workspace as an absolute path, the same code removes the
    copy. *)
Example extract_bnk_absolute_workspace :
  let w1 := (acquire_workspace foo_bnk output_base (app_world app_tree ∅)).1.2 in
  let run := extract_bnk two_fragments foo_bnk (mkPath true foo_workspace)
               "bnkextr.exe" 1 w1 in
  run.1.1 = Ok true /\ cwd run.1.2 = ["app"] /\
  stat foo_copy (fs run.1.2) = None /\
  listdir foo_workspace (fs run.1.2) = ["1.wem"; "2.wem"].
Proof. by vm_compute. Qed.

(** * Text *)

Lemma string_app_cons c (a b : string) : String c a +:+ b = String c (a +:+ b).
Proof. reflexivity. Qed.

Lemma string_app_nil (b : string) : "" +:+ b = b.
Proof. reflexivity. Qed.

Lemma lstrip_blank ws s : blank ws = true -> lstrip (ws +:+ s) = lstrip s.
Proof.
  induction ws as [|c ws IH]; [done|].
  rewrite string_app_cons. cbn. intros [Hc Hws]%andb_true_iff. rewrite Hc. auto.
Qed.

Lemma rstrip_blank_only ws : blank ws = true -> rstrip ws = "".
Proof.
  induction ws as [|c ws IH]; cbn; [done|].
  intros [Hc Hws]%andb_true_iff. rewrite (IH Hws), Hc. done.
Qed.

Lemma rstrip_blank s ws : blank ws = true -> rstrip (s +:+ ws) = rstrip s.
Proof.
  intros Hws. induction s as [|c s IH].
  - by apply rstrip_blank_only.
  - rewrite string_app_cons. cbn. by rewrite IH.
Qed.

Lemma lstrip_cases s :
  (lstrip s = "" /\ blank s = true) \/
  (exists c r, lstrip s = String c r /\ is_space c = false).
Proof.
  induction s as [|c s IH]; cbn; [by left|].
  destruct (is_space c) eqn:Hc; cbn; [done|].
  right. by exists c, s.
Qed.

Lemma lstrip_app s t :
  blank s = false -> lstrip (s +:+ t) = lstrip s +:+ t.
Proof.
  induction s as [|c s IH]; [done|].
  rewrite string_app_cons. cbn.
  destruct (is_space c) eqn:Hc; cbn; [auto|done].
Qed.

Lemma blank_app s t : blank (s +:+ t) = blank s && blank t.
Proof.
  induction s as [|c s IH]; [done|].
  rewrite string_app_cons. cbn. rewrite IH. by rewrite andb_assoc.
Qed.

Lemma strip_padded ws1 s ws2 :
  blank ws1 = true -> blank ws2 = true ->
  strip (ws1 +:+ s +:+ ws2) = strip s.
Proof.
  intros H1 H2. unfold strip. rewrite lstrip_blank by done.
  destruct (blank s) eqn:Hs.
  - rewrite !rstrip_blank_only; [done| |].
    + destruct (lstrip_cases s) as [[-> _]|(c & r & _ & Hc)]; [done|].
      clear -Hs. induction s as [|c' s IH]; cbn in *; [done|].
      apply andb_true_iff in Hs as [-> ?]. auto.
    + assert (blank (s +:+ ws2) = true) as Hb by (rewrite blank_app, Hs, H2; done).
      clear -Hb. induction (s +:+ ws2) as [|c' s' IH]; cbn in *; [done|].
      apply andb_true_iff in Hb as [-> ?]. auto.
  - rewrite lstrip_app by done. by rewrite rstrip_blank.
Qed.

(** * Rules for sessions *)

Lemma ui_bind_cases {A B} (m : UI A) (k : A -> UI B) s r s' tr :
  ui_bind m k s = (r, s', tr) ->
  (exists e, m s = (Raised e, s', tr) /\ r = Raised e) \/
  (exists a s1 t1 t2,
     m s = (Returned a, s1, t1) /\ k a s1 = (r, s', t2) /\ tr = t1 ++ t2).
Proof.
  unfold ui_bind. destruct (m s) as [[[a|e] s1] t1].
  - destruct (k a s1) as [[r2 s2] t2] eqn:Hk. intros [= <- <- <-].
    right. by exists a, s1, t1, t2.
  - intros [= <- <- <-]. left. by exists e.
Qed.

Lemma ui_bind_run {A B} (m : UI A) (k : A -> UI B) s a s1 t1 r s2 t2 :
  m s = (Returned a, s1, t1) -> k a s1 = (r, s2, t2) ->
  ui_bind m k s = (r, s2, t1 ++ t2).
Proof. unfold ui_bind. by intros -> ->. Qed.

Lemma ui_bind_raised {A B} (m : UI A) (k : A -> UI B) s e s1 t1 :
  m s = (Raised e, s1, t1) -> ui_bind m k s = (Raised e, s1, t1).
Proof. unfold ui_bind. by intros ->. Qed.

Section AsksOnly.

Context {A B : Type}.

Lemma asks_only_ret E (R : A -> Prop) a : R a -> asks_only E R (ui_ret a).
Proof. intros Ha s r s' tr [= <- <- <-]. by split_and!. Qed.

Lemma asks_only_raise (E : ui_exn -> Prop) (R : A -> Prop) e :
  E e -> asks_only E R (ui_raise e).
Proof. intros He s r s' tr [= <- <- <-]. by split_and!. Qed.

Lemma asks_only_bind E (R1 : A -> Prop) (R : B -> Prop) (m : UI A)
    (k : A -> UI B) :
  asks_only E R1 m -> (forall a, R1 a -> asks_only E R (k a)) ->
  asks_only E R (ui_bind m k).
Proof.
  intros Hm Hk s r s' tr
    [(e & Hrun & ->)|(a & s1 & t1 & t2 & Hrun & Hrun2 & ->)]%ui_bind_cases.
  - by destruct (Hm _ _ _ _ Hrun) as (? & ? & ? & ?).
  - destruct (Hm _ _ _ _ Hrun) as (Hw1 & Ht1 & Hs1 & Ha).
    destruct (Hk a Ha _ _ _ _ Hrun2) as (Hw2 & Ht2 & Hs2 & Hr).
    split; [congruence|]. split; [by apply Forall_app|].
    split; [by etrans|done].
Qed.

Lemma asks_only_weaken (E E' : ui_exn -> Prop) (R R' : A -> Prop) (m : UI A) :
  asks_only E R m -> (forall e, E e -> E' e) -> (forall a, R a -> R' a) ->
  asks_only E' R' m.
Proof.
  intros Hm HE HR s r s' tr Hrun.
  destruct (Hm _ _ _ _ Hrun) as (? & ? & ? & Hr).
  split_and!; [done..|]. destruct r; auto.
Qed.

End AsksOnly.

Lemma asks_only_say E text : asks_only E (fun _ => True) (say text).
Proof.
  intros s r s' tr [= <- <- <-].
  split_and!; [done|by apply Forall_singleton|done|done].
Qed.

Lemma asks_only_input E prompt :
  E EOFError -> asks_only E (fun _ => True) (input prompt).
Proof.
  intros HE s r s' tr. unfold input.
  destruct (stdin s) as [|line rest] eqn:Hin; intros [= <- <- <-].
  - split_and!; [done|by apply Forall_singleton|by rewrite Hin|done].
  - cbn. split_and!; [done|by apply Forall_singleton| |done].
    by apply suffix_cons_r.
Qed.

Lemma asks_only_for_each {A} E (xs : list A) body :
  (forall x, asks_only E (fun _ => True) (body x)) ->
  asks_only E (fun _ => True) (ui_for_each xs body).
Proof.
  intros Hbody. induction xs as [|x xs IH]; cbn.
  - by apply asks_only_ret.
  - eapply asks_only_bind; [apply Hbody|]. intros _ _. apply IH.
Qed.

(** A step of the pipeline that only looks. *)
Lemma asks_only_lift {A} E (R : A -> Prop) (m : M A) :
  (forall w, exists a, m w = (Ok a, w, []) /\ R a) ->
  asks_only E R (lift m).
Proof.
  intros Hm s r s' tr. unfold lift.
  destruct (Hm (world s)) as (a & -> & Ha). intros [= <- <- <-].
  cbn. by split_and!.
Qed.

(** * Asking for a choice *)

Lemma say_run text s : say text s = (Returned tt, s, [Say text]).
Proof. reflexivity. Qed.

Lemma input_run prompt w line rest :
  input prompt (mkSession w (line :: rest))
  = (Returned line, mkSession w rest, [Ask prompt]).
Proof. reflexivity. Qed.

Lemma input_eof prompt w :
  input prompt (mkSession w []) = (Raised EOFError, mkSession w [], [Ask prompt]).
Proof. reflexivity. Qed.

Lemma print_options_run (options : dict) s :
  ui_for_each options (fun '(k, v) => say (k +:+ ". " +:+ v)) s
  = (Returned tt, s,
     (fun kv : string * string => Say (kv.1 +:+ ". " +:+ kv.2)) <$> options).
Proof.
  induction options as [|[k v] options IH]; [done|].
  cbn [ui_for_each]. erewrite ui_bind_run; [|apply say_run|apply IH]. done.
Qed.

Lemma get_choice_loop_accepts {A} options (validator : option (string -> option A))
    w bad good rest value :
  Forall (fun line => accept options validator (strip line) = None) bad ->
  accept options validator (strip good) = Some value ->
  get_choice_loop options validator (bad ++ good :: rest)
    (mkSession w (bad ++ good :: rest))
  = (Returned value, mkSession w rest, rejections bad ++ [Ask "Enter choice: "]).
Proof.
  intros Hbad Hgood.
  induction Hbad as [|line bad Hline _ IH]; cbn [get_choice_loop app].
  - erewrite ui_bind_run; [|apply input_run|]; [done|]. by rewrite Hgood.
  - erewrite ui_bind_run; [|apply input_run|]; [done|]. rewrite Hline.
    erewrite ui_bind_run; [|apply say_run|apply IH]. done.
Qed.

Lemma get_choice_loop_exhausted {A} options (validator : option (string -> option A))
    w lines :
  Forall (fun line => accept options validator (strip line) = None) lines ->
  get_choice_loop options validator lines (mkSession w lines)
  = (Raised EOFError, mkSession w [], rejections lines ++ [Ask "Enter choice: "]).
Proof.
  intros Hbad. induction Hbad as [|line bad Hline _ IH]; cbn [get_choice_loop].
  - by erewrite ui_bind_raised; [|apply input_eof].
  - erewrite ui_bind_run; [|apply input_run|]; [done|]. rewrite Hline.
    erewrite ui_bind_run; [|apply say_run|apply IH]. done.
Qed.

Lemma get_choice_unfold {A} prompt options (validator : option (string -> option A)) s :
  get_choice prompt options validator s
  = let '(r, s', tr) := get_choice_loop options validator (stdin s) s in
    (r, s', menu prompt options ++ tr).
Proof.
  unfold get_choice.
  destruct (get_choice_loop options validator (stdin s) s) as [[r s'] tr] eqn:Hloop.
  erewrite ui_bind_run; [|apply say_run|].
  2:{ erewrite ui_bind_run; [|apply print_options_run|apply Hloop]. done. }
  done.
Qed.

(** Every list of lines splits at its first acceptable one, if it has
    one. *)
Lemma first_accepted {A} (ok : string -> option A) (lines : list string) :
  Forall (fun line => ok line = None) lines \/
  exists bad good rest value,
    lines = bad ++ good :: rest /\
    Forall (fun line => ok line = None) bad /\ ok good = Some value.
Proof.
  induction lines as [|line lines IH]; [by left|].
  destruct (ok line) as [value|] eqn:Hline.
  - right. by exists [], line, lines, value.
  - destruct IH as [Hall|(bad & good & rest & value & -> & Hbad & Hgood)].
    + left. by constructor.
    + right. exists (line :: bad), good, rest, value. by split_and!; [|constructor|].
Qed.

Lemma console_only_menu prompt options : Forall console_only (menu prompt options).
Proof.
  constructor; [done|]. apply Forall_fmap, Forall_forall. by intros.
Qed.

Lemma console_only_rejections bad : Forall console_only (rejections bad).
Proof.
  unfold rejections. apply Forall_bind, Forall_forall. intros ? _.
  by repeat constructor.
Qed.

Lemma asks_only_get_choice {A} prompt options (validator : option (string -> option A)) :
  asks_only (fun e => e = EOFError)
    (fun value => exists line, accept options validator (strip line) = Some value)
    (get_choice prompt options validator).
Proof.
  intros [w lines] r s' tr. rewrite get_choice_unfold. cbn [stdin].
  destruct (first_accepted (fun line => accept options validator (strip line)) lines)
    as [Hall|(bad & good & rest & value & -> & Hbad & Hgood)].
  - rewrite get_choice_loop_exhausted by done. intros [= <- <- <-].
    split_and!; [done| |by apply suffix_nil|done].
    apply (Forall_app_2 _ (menu prompt options)); [apply console_only_menu|].
    apply Forall_app_2; [apply console_only_rejections|by repeat constructor].
  - rewrite (get_choice_loop_accepts _ _ _ _ _ _ value) by done.
    intros [= <- <- <-]. cbn [world stdin].
    split_and!; [done| | |by exists good].
    + apply (Forall_app_2 _ (menu prompt options)); [apply console_only_menu|].
      apply Forall_app_2; [apply console_only_rejections|by repeat constructor].
    + exists (bad ++ [good]). by rewrite <-(assoc_L (++)).
Qed.

Lemma accept_key options choice value :
  accept options (None : option (string -> option Empty_set)) choice = Some value ->
  value = inr choice /\ dict_has options choice = true.
Proof. cbn. destruct (dict_has options choice); [|done]. by intros [= <-]. Qed.

Lemma asks_only_get_choice_key prompt options :
  asks_only (fun e => e = EOFError) (fun choice => dict_has options choice = true)
    (get_choice_key prompt options).
Proof.
  eapply asks_only_bind; [apply asks_only_get_choice|].
  intros value (line & [-> Hkey]%accept_key). by apply asks_only_ret.
Qed.

Lemma get_choice_key_run prompt options w bad good rest :
  Forall (fun line => dict_has options (strip line) = false) bad ->
  dict_has options (strip good) = true ->
  get_choice_key prompt options (mkSession w (bad ++ good :: rest))
  = (Returned (strip good), mkSession w rest,
     menu prompt options ++ rejections bad ++ [Ask "Enter choice: "]).
Proof.
  intros Hbad Hgood. unfold get_choice_key.
  assert (get_choice prompt options (None : option (string -> option Empty_set))
            (mkSession w (bad ++ good :: rest))
          = (Returned (inr (strip good)), mkSession w rest,
             menu prompt options ++ rejections bad ++ [Ask "Enter choice: "]))
    as Hrun.
  { rewrite get_choice_unfold. cbn [stdin].
    rewrite (get_choice_loop_accepts _ _ _ _ _ _ (inr (strip good))); [done| |].
    - eapply Forall_impl; [apply Hbad|]. cbn. by intros line ->.
    - cbn. by rewrite Hgood. }
  erewrite ui_bind_run; [|exact Hrun|reflexivity].
  by rewrite app_nil_r.
Qed.

Lemma tools_run_console_only tr : Forall console_only tr -> tools_run tr = [].
Proof.
  unfold tools_run. induction 1 as [|[| |e] tr He _ IH]; [done..|].
  destruct He.
Qed.

(** * Asking for a choice, as the code has it *)

(** X1. [get_choice] without a validator returns the first line typed
    that, stripped of surrounding whitespace, is a key of [options]; every
    line before it is answered with "Invalid choice." and asked again; the
    lines after it stay on the console. *)
Theorem get_choice_takes_first_key prompt options w bad good rest :
  Forall (fun line => dict_has options (strip line) = false) bad ->
  dict_has options (strip good) = true ->
  get_choice_key prompt options (mkSession w (bad ++ good :: rest))
  = (Returned (strip good), mkSession w rest,
     menu prompt options ++ rejections bad ++ [Ask "Enter choice: "]).
Proof. apply get_choice_key_run. Qed.

Lemma get_choice_takes_first_key_witness :
  get_choice_key "Pick:" [("1", "one"); ("2", "two")]
    (mkSession (app_world app_tree ∅) (["3"; "two"] ++ " 2 " :: ["1"]))
  = (Returned "2", mkSession (app_world app_tree ∅) ["1"],
     [Say "Pick:"; Say "1. one"; Say "2. two";
      Ask "Enter choice: "; Say "Invalid choice.";
      Ask "Enter choice: "; Say "Invalid choice.";
      Ask "Enter choice: "]).
Proof.
  apply (get_choice_takes_first_key "Pick:" [("1", "one"); ("2", "two")]
           (app_world app_tree ∅) ["3"; "two"] " 2 " ["1"]).
  - by repeat constructor.
  - reflexivity.
Defined.

(** X2. When no line on the console is a key, [get_choice] rejects them
    all and the next [input] raises [EOFError]: the loop has no other way
    out. *)
Theorem get_choice_runs_dry prompt options w lines :
  Forall (fun line => dict_has options (strip line) = false) lines ->
  get_choice_key prompt options (mkSession w lines)
  = (Raised EOFError, mkSession w [],
     menu prompt options ++ rejections lines ++ [Ask "Enter choice: "]).
Proof.
  intros Hbad. unfold get_choice_key. apply ui_bind_raised.
  rewrite get_choice_unfold. cbn [stdin].
  rewrite get_choice_loop_exhausted; [done|].
  eapply Forall_impl; [apply Hbad|]. cbn. by intros line ->.
Qed.

Lemma get_choice_runs_dry_witness :
  get_choice_key "Pick:" [("1", "one")] (mkSession (app_world app_tree ∅) ["x"])
  = (Raised EOFError, mkSession (app_world app_tree ∅) [],
     [Say "Pick:"; Say "1. one"; Ask "Enter choice: "; Say "Invalid choice.";
      Ask "Enter choice: "]).
Proof.
  apply (get_choice_runs_dry "Pick:" [("1", "one")] (app_world app_tree ∅) ["x"]).
  by repeat constructor.
Defined.

(** X3. With a validator, the validator alone decides: the first line it
    accepts ends the loop with the validator's value, whether or not the
    line is a key of [options]. *)
Theorem get_choice_validator_decides {A} prompt options (validate : string -> option A)
    w bad good rest value :
  Forall (fun line => validate (strip line) = None) bad ->
  validate (strip good) = Some value ->
  get_choice prompt options (Some validate) (mkSession w (bad ++ good :: rest))
  = (Returned (inl value), mkSession w rest,
     menu prompt options ++ rejections bad ++ [Ask "Enter choice: "]).
Proof.
  intros Hbad Hgood. rewrite get_choice_unfold. cbn [stdin].
  rewrite (get_choice_loop_accepts _ _ _ _ _ _ (inl value)); [done| |].
  - eapply Forall_impl; [apply Hbad|]. cbn. by intros line ->.
  - cbn. by rewrite Hgood.
Qed.

Lemma get_choice_validator_decides_witness :
  get_choice "Size:" [("1", "one")] (Some int_of)
    (mkSession (app_world app_tree ∅) (["x"] ++ "12" :: []))
  = (Returned (inl 12), mkSession (app_world app_tree ∅) [],
     [Say "Size:"; Say "1. one"; Ask "Enter choice: "; Say "Invalid choice.";
      Ask "Enter choice: "]).
Proof.
  apply (get_choice_validator_decides "Size:" [("1", "one")] int_of
           (app_world app_tree ∅) ["x"] "12" [] 12).
  - by repeat constructor.
  - reflexivity.
Defined.

(** * The settings *)

Lemma dict_has_elem options choice :
  dict_has options choice = true -> choice ∈ options.*1.
Proof. unfold dict_has. by intros ?%bool_decide_eq_true. Qed.

Ltac each_key H :=
  repeat (apply elem_of_cons in H as [->|H]); [..|by apply elem_of_nil in H].

Lemma asks_only_get_format :
  asks_only (fun e => e = EOFError)
    (fun format => format ∈ ["wav"; "mp3"; "ogg"; "flac"; "m4a"]) get_format.
Proof.
  eapply asks_only_bind; [apply asks_only_get_choice_key|].
  intros choice Hkey%dict_has_elem. cbn in Hkey.
  each_key Hkey; apply asks_only_ret; set_solver.
Qed.

Lemma asks_only_get_verbosity :
  asks_only (fun e => e = EOFError)
    (fun verbosity => verbosity ∈ [1; 2; 3]) get_verbosity.
Proof.
  eapply asks_only_bind; [apply asks_only_get_choice_key|].
  intros choice Hkey%dict_has_elem. cbn in Hkey.
  each_key Hkey; apply asks_only_ret; set_solver.
Qed.

(** X4. [get_format] never fails on the dictionary lookup: it returns one
    of the five extensions, in lower case, or the console runs dry with
    [EOFError]; it changes nothing and runs nothing. *)
Theorem get_format_returns_an_extension s :
  let '(r, s', tr) := get_format s in
  world s' = world s /\ tools_run tr = [] /\
  (r = Raised EOFError \/
   exists format,
     r = Returned format /\ format ∈ ["wav"; "mp3"; "ogg"; "flac"; "m4a"]).
Proof.
  destruct (get_format s) as [[r s'] tr] eqn:Hrun.
  destruct (asks_only_get_format _ _ _ _ Hrun) as (Hw & Htr & _ & Hr).
  split_and!; [done|by apply tools_run_console_only|].
  destruct r as [format|e]; [right; by exists format|left; by subst].
Qed.

(** X5. [get_verbosity] never fails on the conversion to an integer: it
    returns 1, 2 or 3, the levels the pipeline tests for, or the console
    runs dry with [EOFError]. *)
Theorem get_verbosity_returns_a_level s :
  let '(r, s', tr) := get_verbosity s in
  world s' = world s /\ tools_run tr = [] /\
  (r = Raised EOFError \/
   exists verbosity, r = Returned verbosity /\ 1 <= verbosity <= 3).
Proof.
  destruct (get_verbosity s) as [[r s'] tr] eqn:Hrun.
  destruct (asks_only_get_verbosity _ _ _ _ Hrun) as (Hw & Htr & _ & Hr).
  split_and!; [done|by apply tools_run_console_only|].
  destruct r as [verbosity|e]; [right|left; by subst].
  exists verbosity. split; [done|]. each_key Hr; lia.
Qed.

Lemma rstrip_fixed s : rstrip (rstrip s) = rstrip s.
Proof.
  induction s as [|c s IH]; [done|]. cbn.
  destruct (rstrip s) as [|c' r] eqn:Hr.
  - destruct (is_space c) eqn:Hc; [done|]. cbn. by rewrite Hc.
  - cbn [rstrip] in IH |- *. by rewrite IH.
Qed.

Lemma lstrip_fixed_head c r : is_space c = false -> lstrip (String c r) = String c r.
Proof. cbn. by intros ->. Qed.

Lemma rstrip_head c r :
  is_space c = false -> exists r', rstrip (String c r) = String c r'.
Proof.
  intros Hc. cbn. destruct (rstrip r); rewrite ?Hc; eauto.
Qed.

Lemma strip_fixed s : strip (strip s) = strip s.
Proof.
  unfold strip.
  destruct (lstrip_cases s) as [[-> _]|(c & r & -> & Hc)]; [done|].
  destruct (rstrip_head c r Hc) as (r' & Hr). rewrite Hr.
  rewrite lstrip_fixed_head by done. by rewrite <- Hr, rstrip_fixed.
Qed.

Lemma int_of_strip s : int_of (strip s) = int_of s.
Proof. unfold int_of. by rewrite strip_fixed. Qed.

Lemma int_of_blank s : strip s = "" -> int_of s = None.
Proof. unfold int_of. by intros ->. Qed.

Lemma asks_only_get_cleanup_settings :
  asks_only (fun e => e = EOFError)
    (fun settings : bool * bool * Z * bool =>
       settings.1.1.2 = false -> settings.1.2 = 0)
    get_cleanup_settings.
Proof.
  eapply asks_only_bind; [apply asks_only_get_choice_key|]. intros c1 _. cbn beta.
  eapply asks_only_bind; [apply asks_only_get_choice_key|]. intros c2 _. cbn beta.
  eapply asks_only_bind with
    (R1 := fun m => bool_decide (c2 = "2") = false -> m = 0).
  - destruct (bool_decide (c2 = "2")).
    + eapply asks_only_bind; [by apply asks_only_input|]. intros size _.
      by apply asks_only_ret.
    + by apply asks_only_ret.
  - intros m Hm.
    eapply asks_only_bind; [apply asks_only_get_choice_key|]. intros c3 _.
    by apply asks_only_ret.
Qed.

(** X6. Without small-file deletion, [get_cleanup_settings] returns the
    threshold 0, whatever was typed; it changes nothing, runs nothing, and
    can end early only with [EOFError]. *)
Theorem no_deletion_no_threshold s :
  let '(r, s', tr) := get_cleanup_settings s in
  world s' = world s /\ tools_run tr = [] /\
  match r with
  | Returned (cleanup_wem, delete_small, min_file_size, remove_duplicates) =>
      delete_small = false -> min_file_size = 0
  | Raised e => e = EOFError
  end.
Proof.
  destruct (get_cleanup_settings s) as [[r s'] tr] eqn:Hrun.
  destruct (asks_only_get_cleanup_settings _ _ _ _ Hrun) as (Hw & Htr & _ & Hr).
  split_and!; [done|by apply tools_run_console_only|].
  by destruct r as [[[[??]?]?]|e].
Qed.

Lemma yes_or_no (line : string) options :
  options.*1 = ["1"; "2"] -> strip line ∈ ["1"; "2"] ->
  dict_has options (strip line) = true.
Proof. intros Hkeys Hline. unfold dict_has. rewrite Hkeys. by apply bool_decide_eq_true. Qed.

(** X7. With small-file deletion chosen, [get_cleanup_settings] reads one
    more line for the threshold: the integer typed there (a negative one
    too), and 4844 when the line is blank or no integer. The three choices
    are read as typed, "2" standing for yes. *)
Theorem threshold_is_typed_or_default w (l1 l2 size l3 : string) rest :
  strip l1 ∈ ["1"; "2"] -> strip l2 = "2" -> strip l3 ∈ ["1"; "2"] ->
  exists tr,
    get_cleanup_settings (mkSession w (l1 :: l2 :: size :: l3 :: rest))
    = (Returned (bool_decide (strip l1 = "2"), true,
                 default 4844 (int_of size),
                 bool_decide (strip l3 = "2")),
       mkSession w rest, tr).
Proof.
  intros H1 H2 H3. unfold get_cleanup_settings. eexists.
  erewrite ui_bind_run;
    [|apply (get_choice_key_run _ _ w [] l1); [done|by apply yes_or_no]|].
  2:{ cbn beta.
      erewrite ui_bind_run;
        [|apply (get_choice_key_run _ _ w [] l2);
            [done|apply yes_or_no;
               [done|rewrite H2; by apply (list_elem_of_lookup_2 _ 1%nat)]]|].
      2:{ cbn beta. rewrite H2. cbn [bool_decide decide_rel].
          rewrite bool_decide_eq_true_2 by done.
          erewrite ui_bind_run.
          2:{ erewrite ui_bind_run; [|apply input_run|reflexivity]. done. }
          2:{ erewrite ui_bind_run;
                [|apply (get_choice_key_run _ _ w [] l3); [done|by apply yes_or_no]
                 |reflexivity].
              done. }
          done. }
      done. }
  f_equal. f_equal. f_equal. f_equal.
  destruct (decide (strip size = "")) as [Hblank|Hfull].
  - by rewrite int_of_blank.
  - rewrite int_of_strip. by destruct (int_of size).
Qed.

Lemma threshold_is_typed_or_default_witness :
  exists tr,
    get_cleanup_settings (mkSession (app_world app_tree ∅) ["1"; " 2"; "-7"; "2"; "A"])
    = (Returned (false, true, -7, true), mkSession (app_world app_tree ∅) ["A"], tr).
Proof.
  apply (threshold_is_typed_or_default (app_world app_tree ∅) "1" " 2" "-7" "2" ["A"]).
  - by apply (list_elem_of_lookup_2 _ 0%nat).
  - reflexivity.
  - by apply (list_elem_of_lookup_2 _ 1%nat).
Defined.

(** * Numbers, typed and shown *)

Lemma digit_is_plain c :
  is_digit c = true ->
  is_space c = false /\ upper_char c = c /\
  Ascii.eqb c "_" = false /\ c <> "+"%char /\ c <> "-"%char /\
  c <> "A"%char /\ c <> "M"%char.
Proof.
  destruct c as [[] [] [] [] [] [] [] []]; vm_compute; intros; try discriminate;
    by split_and!.
Qed.

Lemma all_digits_lstrip s : all_digits s = true -> lstrip s = s.
Proof.
  destruct s as [|c s]; [done|]. cbn.
  intros [Hc _]%andb_true_iff. by destruct (digit_is_plain c Hc) as [-> _].
Qed.

Lemma all_digits_rstrip s : all_digits s = true -> rstrip s = s.
Proof.
  induction s as [|c s IH]; [done|]. cbn.
  intros [Hc Hs]%andb_true_iff. rewrite (IH Hs).
  destruct (digit_is_plain c Hc) as [-> _]. by destruct s.
Qed.

Lemma all_digits_strip s : all_digits s = true -> strip s = s.
Proof. intros Hs. unfold strip. by rewrite all_digits_lstrip, all_digits_rstrip. Qed.

Lemma all_digits_upper s : all_digits s = true -> upper s = s.
Proof.
  induction s as [|c s IH]; [done|]. cbn.
  intros [Hc Hs]%andb_true_iff. rewrite (IH Hs).
  by destruct (digit_is_plain c Hc) as (_ & -> & _).
Qed.

Lemma all_digits_count s : all_digits s = true -> count_digits s = String.length s.
Proof.
  induction s as [|c s IH]; [done|]. cbn.
  intros [-> Hs]%andb_true_iff. by rewrite (IH Hs).
Qed.

Lemma all_digits_uint d : all_digits (NilEmpty.string_of_uint d) = true.
Proof. induction d; cbn; [done|by rewrite ?IHd..]. Qed.

Lemma int_digits_uint d acc after_digit :
  d <> Decimal.Nil \/ after_digit = true ->
  int_digits (NilEmpty.string_of_uint d) (Z.of_nat acc) after_digit
  = Some (Z.of_nat (Nat.of_uint_acc d acc)).
Proof.
  revert acc after_digit.
  induction d as [|d IH|d IH|d IH|d IH|d IH|d IH|d IH|d IH|d IH|d IH];
    intros acc after_digit Hd;
    [by destruct Hd as [?| ->]|..];
    cbn [NilEmpty.string_of_uint int_digits Nat.of_uint_acc];
    match goal with
    | |- context [is_digit ?c] =>
        change (is_digit c) with true; cbn match;
        let v := eval vm_compute in (digit_value c) in
        change (digit_value c) with v
    end;
    rewrite <- (IH _ true) by (by right); f_equal;
    rewrite Nat.tail_mul_spec; lia.
Qed.

Lemma str_nat_digits n : all_digits (str_nat n) = true.
Proof. apply all_digits_uint. Qed.

Lemma to_uint_not_nil n : Nat.to_uint n <> Decimal.Nil.
Proof.
  intros Hnil. pose proof (Unsigned.of_to n) as Hn. rewrite Hnil in Hn.
  cbn in Hn. subst n. discriminate Hnil.
Qed.

Lemma str_nat_nonempty n : str_nat n <> "".
Proof.
  unfold str_nat. pose proof (to_uint_not_nil n).
  by destruct (Nat.to_uint n).
Qed.

(** [int(str(n))] is [n], while the interpreter converts that many
    digits. *)
Lemma int_of_str_nat n :
  (String.length (str_nat n) <= int_max_str_digits)%nat ->
  int_of (str_nat n) = Some (Z.of_nat n).
Proof.
  intros Hlen. unfold int_of. rewrite all_digits_strip by apply str_nat_digits.
  pose proof (str_nat_digits n) as Hd. pose proof (str_nat_nonempty n) as Hne.
  assert (int_digits (str_nat n) 0 false = Some (Z.of_nat n)) as Hval.
  { unfold str_nat.
    rewrite (int_digits_uint _ 0%nat) by (left; apply to_uint_not_nil).
    by rewrite <- (Unsigned.of_to n) at 2. }
  destruct (str_nat n) as [|c r] eqn:Hs; [done|].
  pose proof Hd as [Hc _]%andb_true_iff.
  destruct (digit_is_plain c Hc) as (_ & _ & _ & Hplus & Hminus & _).
  assert ((match String c r with
           | String "+"%char r' => (false, r')
           | String "-"%char r' => (true, r')
           | _ => (false, String c r)
           end) = (false, String c r)) as ->.
  { clear -Hplus Hminus.
    destruct c as [[] [] [] [] [] [] [] []]; try done. }
  rewrite all_digits_count by done.
  apply Nat.ltb_ge in Hlen. rewrite Hlen. by rewrite Hval.
Qed.

Lemma isdigit_str_nat n : isdigit (str_nat n) = true.
Proof.
  unfold isdigit. rewrite str_nat_digits.
  by rewrite bool_decide_eq_false_2 by apply str_nat_nonempty.
Qed.

Lemma str_nat_no_letter n s :
  (s = "A" \/ s = "M") -> str_nat n <> s.
Proof.
  intros Hs Heq. pose proof (str_nat_digits n) as Hd. rewrite Heq in Hd.
  by destruct Hs as [-> | ->].
Qed.

(** * Indexing *)

Lemma py_index_in_range {A} (xs : list A) (i : Z) :
  0 <= i < Z.of_nat (length xs) -> py_index xs i = xs !! Z.to_nat i.
Proof.
  intros Hi. unfold py_index.
  destruct (0 <=? i) eqn:H0; [|lia]. destruct (i <? _) eqn:H1; [done|lia].
Qed.

Lemma py_index_elem {A} (xs : list A) (i : Z) x : py_index xs i = Some x -> x ∈ xs.
Proof.
  unfold py_index. repeat case_match; try done; apply list_elem_of_lookup_2.
Qed.

(** * Splitting a line *)

Lemma string_app_assoc (a b c : string) : (a +:+ b) +:+ c = a +:+ (b +:+ c).
Proof. induction a as [|x a IH]; [done|]. by rewrite !string_app_cons, IH. Qed.

Lemma string_app_empty_r (a : string) : a +:+ "" = a.
Proof. induction a as [|x a IH]; [done|]. by rewrite string_app_cons, IH. Qed.

Lemma string_app_nonempty (a b : string) : b <> "" -> a +:+ b <> "".
Proof. by destruct a, b. Qed.

Lemma split_go_token cur t rest :
  spaceless t = true -> split_go cur (t +:+ rest) = split_go (cur +:+ t) rest.
Proof.
  revert cur. induction t as [|c t IH]; intros cur.
  - by rewrite string_app_empty_r.
  - rewrite string_app_cons. cbn.
    intros [Hc Ht]%andb_true_iff. apply negb_true_iff in Hc. rewrite Hc.
    rewrite IH by done. by rewrite string_app_assoc.
Qed.

Lemma split_concat (tokens : list string) :
  Forall (fun t => t <> "" /\ spaceless t = true) tokens ->
  split (String.concat " " tokens) = tokens.
Proof.
  unfold split. induction 1 as [|t tokens [Hne Ht] Htokens IH]; [done|].
  destruct tokens as [|t' tokens].
  - cbn [String.concat]. rewrite <- (string_app_empty_r t) at 1.
    rewrite split_go_token by done. cbn. by rewrite decide_False.
  - change (String.concat " " (t :: t' :: tokens))
      with (t +:+ String " " (String.concat " " (t' :: tokens))).
    rewrite split_go_token by done. cbn [split_go].
    change (is_space " ") with true. cbn match.
    rewrite decide_False by done. by rewrite IH.
Qed.

Lemma split_go_lstrip s : split_go "" (lstrip s) = split_go "" s.
Proof.
  induction s as [|c s IH]; [done|]. cbn.
  destruct (is_space c) eqn:Hc; [|by cbn; rewrite Hc]. by rewrite IH.
Qed.

Lemma split_go_cons cur c s :
  split_go cur (String c s)
  = if is_space c
    then (if decide (cur = "") then [] else [cur]) ++ split_go "" s
    else split_go (cur +:+ String c "") s.
Proof. reflexivity. Qed.

Lemma split_go_rstrip s : forall cur, split_go cur (rstrip s) = split_go cur s.
Proof.
  induction s as [|c s IH]; intros cur; [done|]. cbn [rstrip].
  destruct (rstrip s) as [|c' r] eqn:Hr.
  - destruct (is_space c) eqn:Hc; cbn; rewrite Hc.
    + rewrite <- IH. cbn. by rewrite app_nil_r.
    + by rewrite <- IH.
  - rewrite (split_go_cons cur c (String c' r)), (split_go_cons cur c s).
    destruct (is_space c); by rewrite IH.
Qed.

Lemma split_strip s : split (strip s) = split s.
Proof. unfold split, strip. by rewrite split_go_rstrip, split_go_lstrip. Qed.

Lemma all_digits_spaceless s : all_digits s = true -> spaceless s = true.
Proof.
  induction s as [|c s IH]; [done|]. cbn.
  intros [Hc Hs]%andb_true_iff. rewrite (IH Hs).
  by destruct (digit_is_plain c Hc) as [-> _].
Qed.

(** * Selecting archives *)

Lemma say_each_run {A} (xs : list A) (body : A -> UI unit) (text : A -> string) s :
  (forall x s, body x s = (Returned tt, s, [Say (text x)])) ->
  ui_for_each xs body s = (Returned tt, s, Say ∘ text <$> xs).
Proof.
  intros Hbody. induction xs as [|x xs IH]; [done|].
  cbn [ui_for_each]. erewrite ui_bind_run; [|apply Hbody|apply IH]. done.
Qed.

Lemma select_multiple_within bnk_files numbers files :
  select_multiple bnk_files numbers = Some files ->
  Forall (fun file => file ∈ bnk_files) files.
Proof.
  unfold select_multiple. intros Hsel.
  apply bind_Some in Hsel as (ns & _ & Hfiles).
  apply mapM_Some_1 in Hfiles.
  induction Hfiles as [|i file is_ files Hi _ IH]; constructor; [|done].
  by eapply py_index_elem.
Qed.

Lemma asks_only_select_files bnk_files :
  asks_only (fun e => e = EOFError)
    (fun files => Forall (fun file => file ∈ bnk_files) files)
    (select_files bnk_files).
Proof.
  unfold select_files.
  eapply asks_only_bind; [apply asks_only_say|intros _ _].
  eapply asks_only_bind;
    [apply asks_only_for_each; intros [i f]; apply asks_only_say|intros _ _].
  do 3 (eapply asks_only_bind; [apply asks_only_say|intros _ _]).
  eapply asks_only_bind;
    [apply asks_only_for_each; intros [i f]; apply asks_only_say|intros _ _].
  eapply asks_only_bind; [by apply asks_only_input|intros line _]. cbn zeta.
  destruct (decide _) as [_|_].
  { apply asks_only_ret, Forall_forall. auto. }
  destruct (decide _) as [_|_].
  { eapply asks_only_bind; [apply asks_only_say|intros _ _].
    eapply asks_only_bind; [by apply asks_only_input|intros numbers _]. cbn zeta.
    destruct (select_multiple _ _) as [files|] eqn:Hsel.
    - apply asks_only_ret. by eapply select_multiple_within.
    - by apply asks_only_ret. }
  destruct (int_of _) as [n|]; [|by apply asks_only_ret]. cbn zeta.
  destruct (_ && _) eqn:Hrange; [|by apply asks_only_ret].
  apply andb_true_iff in Hrange as [H0%Z.leb_le H1%Z.ltb_lt].
  rewrite py_index_in_range by lia.
  destruct (bnk_files !! Z.to_nat (n - 1)) as [file|] eqn:Hfile.
  - apply asks_only_ret. constructor; [|done]. by eapply list_elem_of_lookup_2.
  - apply lookup_ge_None in Hfile. lia.
Qed.

Lemma ends_bind {A B} (m : UI A) (k : A -> UI B) s a s1 r s2 :
  (exists t1, m s = (Returned a, s1, t1)) ->
  (exists t2, k a s1 = (r, s2, t2)) ->
  exists tr, ui_bind m k s = (r, s2, tr).
Proof.
  intros [t1 Hm] [t2 Hk]. exists (t1 ++ t2). by apply ui_bind_run with a s1.
Qed.

Lemma ends_say text s : exists tr, say text s = (Returned tt, s, tr).
Proof. by eexists. Qed.

Lemma ends_input prompt w line rest :
  exists tr, input prompt (mkSession w (line :: rest))
             = (Returned line, mkSession w rest, tr).
Proof. by eexists. Qed.

Lemma ends_say_each {A} (xs : list A) (body : A -> UI unit) s :
  (forall x s, exists tr, body x s = (Returned tt, s, tr)) ->
  exists tr, ui_for_each xs body s = (Returned tt, s, tr).
Proof.
  intros Hbody. induction xs as [|x xs IH]; [by eexists|].
  cbn [ui_for_each]. by eapply ends_bind.
Qed.

Ltac select_prelude :=
  unfold select_files;
  eapply ends_bind; [apply ends_say|];
  eapply ends_bind; [apply ends_say_each; intros [??] ?; apply ends_say|];
  do 3 (eapply ends_bind; [apply ends_say|]);
  eapply ends_bind; [apply ends_say_each; intros [??] ?; apply ends_say|];
  eapply ends_bind; [apply ends_input|]; cbn zeta.

Lemma select_files_all bnk_files w line rest :
  upper (strip line) = "A" ->
  exists tr,
    select_files bnk_files (mkSession w (line :: rest))
    = (Returned bnk_files, mkSession w rest, tr).
Proof.
  intros Hsel. select_prelude.
  rewrite Hsel. rewrite decide_True by done. by eexists.
Qed.

Lemma select_files_multiple bnk_files w line numbers rest :
  upper (strip line) = "M" ->
  exists tr,
    select_files bnk_files (mkSession w (line :: numbers :: rest))
    = (Returned (default [] (select_multiple bnk_files (split (strip numbers)))),
       mkSession w rest, tr).
Proof.
  intros Hsel. select_prelude.
  rewrite Hsel. rewrite decide_False by done. rewrite decide_True by done.
  eapply ends_bind; [apply ends_say|].
  eapply ends_bind; [apply ends_input|]. cbn zeta.
  destruct (select_multiple _ _); by eexists.
Qed.

Lemma select_files_single bnk_files w line rest n :
  upper (strip line) <> "A" -> upper (strip line) <> "M" ->
  int_of (upper (strip line)) = Some n ->
  exists tr,
    select_files bnk_files (mkSession w (line :: rest))
    = (Returned (if (0 <=? n - 1) && (n - 1 <? Z.of_nat (length bnk_files))
                 then option_list (bnk_files !! Z.to_nat (n - 1)) else []),
       mkSession w rest, tr).
Proof.
  intros HA HM Hn. select_prelude.
  rewrite decide_False by done. rewrite decide_False by done.
  rewrite Hn. cbn zeta.
  destruct (_ && _) eqn:Hrange; [|by eexists].
  apply andb_true_iff in Hrange as [H0%Z.leb_le H1%Z.ltb_lt].
  rewrite py_index_in_range by lia.
  destruct (bnk_files !! Z.to_nat (n - 1)) as [file|] eqn:Hfile; [by eexists|].
  apply lookup_ge_None in Hfile. lia.
Qed.

Lemma select_files_junk bnk_files w line rest :
  upper (strip line) <> "A" -> upper (strip line) <> "M" ->
  int_of (upper (strip line)) = None ->
  exists tr,
    select_files bnk_files (mkSession w (line :: rest))
    = (Returned [], mkSession w rest, tr).
Proof.
  intros HA HM Hn. select_prelude.
  rewrite decide_False by done. rewrite decide_False by done.
  rewrite Hn. by eexists.
Qed.

Lemma List_filter_sublist {A} (P : A -> bool) (xs : list A) :
  List.filter P xs `sublist_of` xs.
Proof.
  induction xs as [|x xs IH]; [done|]. cbn. destruct (P x).
  - by apply sublist_skip.
  - by apply sublist_cons.
Qed.

Lemma List_filter_Forall {A} (P : A -> bool) (xs : list A) :
  Forall (fun x => P x = true) (List.filter P xs).
Proof.
  induction xs as [|x xs IH]; [done|]. cbn. destruct (P x) eqn:Hx; [|done].
  by constructor.
Qed.

Lemma typed_numbers bnk_files tokens ns :
  Forall2 (fun token n => isdigit token = true /\ int_of token = Some n)
    tokens ns ->
  forall files,
    Forall2 (fun i file => py_index bnk_files i = Some file)
      (List.filter (fun i => (0 <=? i) && (i <? Z.of_nat (length bnk_files)))
         ((fun n => n - 1) <$> ns)) files ->
    exists typed,
      typed `sublist_of` tokens /\ Forall2 (names_archive bnk_files) typed files.
Proof.
  induction 1 as [|token n tokens ns [Hd Hn] _ IH]; intros files Hfiles.
  - apply Forall2_nil_inv_l in Hfiles as ->. by exists [].
  - cbn [fmap list_fmap List.filter] in Hfiles.
    destruct ((0 <=? n - 1) && (n - 1 <? Z.of_nat (length bnk_files))) eqn:Hrange.
    + apply andb_true_iff in Hrange as [H0%Z.leb_le H1%Z.ltb_lt].
      apply Forall2_cons_inv_l in Hfiles as (file & files' & Hfile & Hrest & ->).
      destruct (IH _ Hrest) as (typed & Hsub & Hall).
      exists (token :: typed). split; [by apply sublist_skip|].
      constructor; [|done]. split; [done|].
      exists (Z.to_nat (n - 1)). split.
      * rewrite Hn. f_equal. lia.
      * by rewrite py_index_in_range in Hfile by lia.
    + destruct (IH _ Hfiles) as (typed & Hsub & Hall).
      exists typed. split; [by apply sublist_cons|done].
Qed.

Lemma select_multiple_typed bnk_files numbers :
  exists typed,
    typed `sublist_of` numbers /\
    Forall2 (names_archive bnk_files) typed
      (default [] (select_multiple bnk_files numbers)).
Proof.
  destruct (select_multiple bnk_files numbers) as [files|] eqn:Hsel;
    [|exists []; split; [apply sublist_nil_l|constructor]].
  unfold select_multiple in Hsel.
  apply bind_Some in Hsel as (ns & Hns & Hfiles).
  apply mapM_Some_1 in Hns. apply mapM_Some_1 in Hfiles.
  destruct (typed_numbers bnk_files (List.filter isdigit numbers) ns) with files
    as (typed & Hsub & Hall); [|done|].
  - pose proof (List_filter_Forall isdigit numbers) as Hd.
    revert Hd. clear -Hns. induction Hns; [constructor|].
    intros [Hx Hl]%Forall_cons. constructor; auto.
  - exists typed. split; [|done].
    etrans; [exact Hsub|apply List_filter_sublist].
Qed.

(** X8. [select_files] returns only archives it was given, and it cannot
    fail on an index or on a number. In the single selection an answer
    that reads as no number, or as a number below 1 or past the end of the
    list, selects nothing. In the multiple selection the archives selected
    answer, one by one and in order, to tokens typed that are strings of
    digits naming their place in the menu: what is no such token selects
    nothing. Only a console that runs dry ends the selection early. It
    changes nothing and runs nothing. *)
Theorem select_files_stays_within bnk_files s :
  let '(r, s', tr) := select_files bnk_files s in
  world s' = world s /\ tools_run tr = [] /\
  (r = Raised EOFError \/
   exists files,
     r = Returned files /\
     Forall (fun file => file ∈ bnk_files) files /\
     (forall line rest,
        stdin s = line :: rest ->
        upper (strip line) <> "A" -> upper (strip line) <> "M" ->
        (int_of (upper (strip line)) = None -> files = []) /\
        (forall n,
           int_of (upper (strip line)) = Some n ->
           n < 1 \/ Z.of_nat (length bnk_files) < n -> files = [])) /\
     (forall line numbers rest,
        stdin s = line :: numbers :: rest ->
        upper (strip line) = "M" ->
        exists typed,
          typed `sublist_of` split (strip numbers) /\
          Forall2 (names_archive bnk_files) typed files)).
Proof.
  destruct (select_files bnk_files s) as [[r s'] tr] eqn:Hrun.
  destruct (asks_only_select_files _ _ _ _ _ Hrun) as (Hw & Htr & _ & Hr).
  split_and!; [done|by apply tools_run_console_only|].
  destruct r as [files|e]; [right|left; by subst].
  exists files. split_and!; [done..| |].
  - intros line rest Hin HA HM. destruct s as [w lines]. cbn in Hin. subst lines.
    split.
    + intros Hn.
      destruct (select_files_junk bnk_files w line rest HA HM Hn) as [tr' Hrun'].
      rewrite Hrun' in Hrun. by injection Hrun as <- _ _.
    + intros n Hn Hout.
      destruct (select_files_single bnk_files w line rest n HA HM Hn)
        as [tr' Hrun'].
      rewrite Hrun' in Hrun. injection Hrun as <- _ _.
      destruct (0 <=? n - 1) eqn:H0; [|done].
      destruct (n - 1 <? Z.of_nat (length bnk_files)) eqn:H1; [|done].
      apply Z.leb_le in H0. apply Z.ltb_lt in H1. lia.
  - intros line numbers rest Hin HM. destruct s as [w lines]. cbn in Hin.
    subst lines.
    destruct (select_files_multiple bnk_files w line numbers rest HM)
      as [tr' Hrun'].
    rewrite Hrun' in Hrun. injection Hrun as <- _ _.
    apply select_multiple_typed.
Qed.

Lemma strip_padded_digits ws1 s ws2 :
  blank ws1 = true -> blank ws2 = true -> all_digits s = true ->
  strip (ws1 +:+ s +:+ ws2) = s.
Proof. intros. rewrite strip_padded by done. by apply all_digits_strip. Qed.

(** X9. The answer [a] or [A], with any whitespace around it, selects
    every archive, in the order they were found. *)
Theorem select_files_all_of_them bnk_files w (letter ws1 ws2 : string) rest :
  letter = "a" \/ letter = "A" -> blank ws1 = true -> blank ws2 = true ->
  exists tr,
    select_files bnk_files (mkSession w ((ws1 +:+ letter +:+ ws2) :: rest))
    = (Returned bnk_files, mkSession w rest, tr).
Proof.
  intros Hletter H1 H2. apply select_files_all.
  rewrite strip_padded by done. by destruct Hletter as [-> | ->].
Qed.

Lemma select_files_all_of_them_witness :
  exists tr,
    select_files [foo_bnk] (mkSession (app_world app_tree ∅) ["  a " ; "x"])
    = (Returned [foo_bnk], mkSession (app_world app_tree ∅) ["x"], tr).
Proof.
  apply (select_files_all_of_them [foo_bnk] (app_world app_tree ∅) "a" "  " " " ["x"]).
  - by left.
  - reflexivity.
  - reflexivity.
Defined.

(** X10. Typing the number the menu shows before an archive selects that
    archive alone; typing 0, or a number past the end of the list, selects
    nothing. (The number is read back while the interpreter converts that
    many digits.) *)
Theorem select_files_by_menu_number bnk_files w (i : nat) (ws1 ws2 : string) rest :
  (String.length (str_nat i) <= int_max_str_digits)%nat ->
  blank ws1 = true -> blank ws2 = true ->
  exists tr,
    select_files bnk_files (mkSession w ((ws1 +:+ str_nat i +:+ ws2) :: rest))
    = (Returned match i with
                | O => []
                | S k => option_list (bnk_files !! k)
                end, mkSession w rest, tr).
Proof.
  intros Hlen H1 H2.
  pose proof (str_nat_digits i) as Hd.
  destruct (select_files_single bnk_files w (ws1 +:+ str_nat i +:+ ws2) rest
              (Z.of_nat i)) as [tr Hrun].
  - rewrite strip_padded_digits, all_digits_upper by done.
    apply str_nat_no_letter. by left.
  - rewrite strip_padded_digits, all_digits_upper by done.
    apply str_nat_no_letter. by right.
  - rewrite strip_padded_digits, all_digits_upper by done.
    by apply int_of_str_nat.
  - exists tr. rewrite Hrun. do 2 f_equal.
    destruct i as [|k]; [done|].
    replace (Z.of_nat (S k) - 1) with (Z.of_nat k) by lia.
    rewrite Nat2Z.id.
    destruct (bnk_files !! k) as [file|] eqn:Hfile.
    + apply lookup_lt_Some in Hfile.
      rewrite (proj2 (Z.leb_le 0 (Z.of_nat k))) by lia.
      by rewrite (proj2 (Z.ltb_lt (Z.of_nat k) _)) by lia.
    + destruct (0 <=? Z.of_nat k), (Z.of_nat k <? Z.of_nat (length bnk_files)); reflexivity.
Qed.

Lemma select_files_by_menu_number_witness :
  exists tr,
    select_files [foo_bnk; output_base]
      (mkSession (app_world app_tree ∅) [" 2" ; "x"])
    = (Returned [output_base], mkSession (app_world app_tree ∅) ["x"], tr).
Proof.
  apply (select_files_by_menu_number [foo_bnk; output_base]
           (app_world app_tree ∅) 2 " " "" ["x"]).
  - vm_compute. lia.
  - reflexivity.
  - reflexivity.
Defined.

Lemma filter_all {A} (P : A -> bool) (xs : list A) :
  Forall (fun x => P x = true) xs -> List.filter P xs = xs.
Proof. induction 1 as [|x xs Hx _ IH]; [done|]. cbn. by rewrite Hx, IH. Qed.

Lemma select_in_range (bnk_files : list PyPath) (ks : list nat) :
  mapM (py_index bnk_files)
    (List.filter (fun i => (0 <=? i) && (i <? Z.of_nat (length bnk_files)))
       ((fun n => n - 1) <$> (Z.of_nat <$> ks)))
  = Some (ks ≫= fun k => match k with
                          | O => []
                          | S j => option_list (bnk_files !! j)
                          end).
Proof.
  induction ks as [|k ks IH]; [done|]. cbn [fmap list_fmap List.filter mbind list_bind].
  destruct k as [|j].
  - cbn [Z.of_nat Z.sub Z.opp Z.add Z.leb Z.compare andb app]. exact IH.
  - replace (Z.of_nat (S j) - 1) with (Z.of_nat j) by lia.
    destruct (bnk_files !! j) as [file|] eqn:Hfile.
    + pose proof (lookup_lt_Some _ _ _ Hfile).
      rewrite (proj2 (Z.leb_le 0 (Z.of_nat j))) by lia.
      rewrite (proj2 (Z.ltb_lt (Z.of_nat j) _)) by lia.
      cbn [andb mapM]. rewrite py_index_in_range by lia.
      rewrite Nat2Z.id, Hfile. cbn. by rewrite IH.
    + pose proof (lookup_ge_None_1 _ _ Hfile).
      rewrite (proj2 (Z.ltb_ge (Z.of_nat j) _)) by lia.
      rewrite andb_false_r. exact IH.
Qed.

Lemma select_multiple_numbers bnk_files (ks : list nat) :
  Forall (fun k => (String.length (str_nat k) <= int_max_str_digits)%nat) ks ->
  select_multiple bnk_files (split (strip (String.concat " " (str_nat <$> ks))))
  = Some (ks ≫= fun k => match k with
                          | O => []
                          | S j => option_list (bnk_files !! j)
                          end).
Proof.
  intros Hks. rewrite split_strip, split_concat.
  2:{ apply Forall_fmap, Forall_forall. intros k _. cbn. split.
      - apply str_nat_nonempty.
      - apply all_digits_spaceless, str_nat_digits. }
  unfold select_multiple. rewrite filter_all.
  2:{ apply Forall_fmap, Forall_forall. intros k _. apply isdigit_str_nat. }
  rewrite (mapM_Some_2 _ _ (Z.of_nat <$> ks)).
  2:{ apply Forall2_fmap, Forall_Forall2_diag.
      eapply Forall_impl; [apply Hks|]. intros k Hk. by apply int_of_str_nat. }
  cbn [mbind option_bind]. apply select_in_range.
Qed.

(** X11. In the multiple selection, typing menu numbers separated by
    single spaces selects those archives in the order typed; a number
    typed twice selects its archive twice, and 0 or a number past the end
    of the list is passed over. *)
Theorem select_files_multiple_keeps_order bnk_files w line (ks : list nat) rest :
  upper (strip line) = "M" ->
  Forall (fun k => (String.length (str_nat k) <= int_max_str_digits)%nat) ks ->
  exists tr,
    select_files bnk_files
      (mkSession w (line :: String.concat " " (str_nat <$> ks) :: rest))
    = (Returned (ks ≫= fun k => match k with
                                 | O => []
                                 | S j => option_list (bnk_files !! j)
                                 end),
       mkSession w rest, tr).
Proof.
  intros Hsel Hks.
  destruct (select_files_multiple bnk_files w line
              (String.concat " " (str_nat <$> ks)) rest Hsel) as [tr Hrun].
  exists tr. rewrite Hrun. by rewrite select_multiple_numbers.
Qed.

Lemma select_files_multiple_keeps_order_witness :
  exists tr,
    select_files [foo_bnk; output_base]
      (mkSession (app_world app_tree ∅) ["m"; "2 1 2 0 7"; "x"])
    = (Returned [output_base; foo_bnk; output_base],
       mkSession (app_world app_tree ∅) ["x"], tr).
Proof.
  apply (select_files_multiple_keeps_order [foo_bnk; output_base]
           (app_world app_tree ∅) "m" [2; 1; 2; 0; 7]%nat ["x"]).
  - reflexivity.
  - repeat constructor; vm_compute; lia.
Defined.

(** * Finding the archives and the tools *)

Lemma lift_path_exists p s :
  lift (path_exists p) s
  = (Returned (bool_decide (is_Some (stat (resolve (world s) p) (fs (world s))))),
     s, []).
Proof. by destruct s. Qed.

Lemma lift_glob dir suffix s :
  lift (glob dir suffix) s
  = (Returned (path_join dir <$>
        List.filter (ends_with suffix)
          (listdir (resolve (world s) dir) (fs (world s)))), s, []).
Proof. by destruct s. Qed.

Lemma asks_only_path_exists E p :
  asks_only E (fun _ => True) (lift (path_exists p)).
Proof. intros s r s' tr. rewrite lift_path_exists. intros [= <- <- <-]. by split_and!. Qed.

Lemma asks_only_glob E dir suffix :
  asks_only E (fun _ => True) (lift (glob dir suffix)).
Proof. intros s r s' tr. rewrite lift_glob. intros [= <- <- <-]. by split_and!. Qed.

(** Waiting for Enter, then leaving with status 1. *)
Lemma asks_only_leave {A} (R : A -> Prop) prompt :
  asks_only (fun e => e = EOFError \/ e = SystemExit 1) R
    (ui_bind (input prompt) (fun _ => sys_exit 1)).
Proof.
  eapply asks_only_bind; [apply asks_only_input; by left|].
  intros _ _. apply asks_only_raise. by right.
Qed.

Lemma asks_only_find_bnk_files rt :
  asks_only (fun e => e = EOFError \/ e = SystemExit 1)
    (fun found : list PyPath * PyPath =>
       found.2 = path_join (get_executable_dir rt) "output")
    (find_bnk_files rt).
Proof.
  unfold find_bnk_files. cbn zeta.
  eapply asks_only_bind; [apply asks_only_path_exists|intros present _].
  eapply asks_only_bind with (R1 := fun _ => True).
  { destruct present; cbn [negb]; [by apply asks_only_ret|].
    do 2 (eapply asks_only_bind; [apply asks_only_say|intros _ _]).
    apply asks_only_leave. }
  intros _ _.
  eapply asks_only_bind; [apply asks_only_glob|intros bnk_files _].
  eapply asks_only_bind with (R1 := fun _ => True).
  { destruct bnk_files; [|by apply asks_only_ret].
    eapply asks_only_bind; [apply asks_only_say|intros _ _].
    apply asks_only_leave. }
  intros _ _. by apply asks_only_ret.
Qed.

Lemma asks_only_validate_tools rt :
  asks_only (fun e => e = EOFError \/ e = SystemExit 1) (fun _ => True)
    (validate_tools rt).
Proof.
  unfold validate_tools. cbn zeta.
  eapply asks_only_bind; [|intros _ _; by apply asks_only_ret].
  apply asks_only_for_each. intros [tool_path tool_name].
  eapply asks_only_bind; [apply asks_only_path_exists|intros present _].
  destruct present; cbn [negb]; [by apply asks_only_ret|].
  eapply asks_only_bind; [apply asks_only_say|intros _ _].
  apply asks_only_leave.
Qed.

(** X12. [find_bnk_files] returns exactly the entries of the [input]
    directory beside the program whose names end in [.bnk], together with
    the [output] directory beside the program, and only when there is at
    least one; when the directory is missing or holds none it waits for
    Enter and leaves with exit status 1. It changes nothing on disk. *)
Theorem find_bnk_files_finds_or_exits rt s :
  let input_dir := path_join (get_executable_dir rt) "input" in
  let found :=
    path_join input_dir <$>
      List.filter (ends_with ".bnk")
        (listdir (resolve (world s) input_dir) (fs (world s))) in
  let '(r, s', tr) := find_bnk_files rt s in
  world s' = world s /\ tools_run tr = [] /\
  match r with
  | Returned (bnk_files, output_dir) =>
      bnk_files = found /\ found <> [] /\
      is_Some (stat (resolve (world s) input_dir) (fs (world s))) /\
      output_dir = path_join (get_executable_dir rt) "output"
  | Raised e =>
      (stat (resolve (world s) input_dir) (fs (world s)) = None \/ found = []) /\
      ((e = SystemExit 1 /\ stdin s <> []) \/ (e = EOFError /\ stdin s = []))
  end.
Proof.
  intros input_dir found.
  destruct (find_bnk_files rt s) as [[r s'] tr] eqn:Hrun.
  destruct (asks_only_find_bnk_files rt _ _ _ _ Hrun) as (Hw & Htr & _ & _).
  split; [done|]. split; [by apply tools_run_console_only|].
  clear Hw Htr. revert Hrun. unfold find_bnk_files. cbn zeta.
  fold input_dir. destruct s as [w lines]. cbn [world stdin] in *.
  intros Hrun. apply ui_bind_cases in Hrun
    as [(e & Hrun & ->)|(present & s1 & t1 & t2 & Hrun & Hrest & ->)];
    rewrite lift_path_exists in Hrun; [done|].
  injection Hrun as <- <- <-. cbn [world] in Hrest.
  case_bool_decide as Hdir; cbn [negb] in Hrest.
  - apply ui_bind_cases in Hrest
      as [(e & Hrun & ->)|([] & s1 & t1 & t3 & Hrun & Hrest & ->)]; [done|].
    injection Hrun as <- <-.
    apply ui_bind_cases in Hrest
      as [(e & Hrun & ->)|(bnk_files & s1 & t1 & t4 & Hrun & Hrest & ->)];
      rewrite lift_glob in Hrun; [done|].
    injection Hrun as <- <- <-. cbn [world] in Hrest. fold found in Hrest.
    destruct found as [|file files] eqn:Hfound.
    + apply ui_bind_cases in Hrest
        as [(e & Hrun & ->)|([] & s1 & t1 & t5 & Hrun & Hrest & ->)].
      * split; [by right|]. destruct lines as [|line lines]; cbn in Hrun.
        -- injection Hrun as <- <- <-. by right.
        -- injection Hrun as <- <- <-. by left.
      * by destruct lines.
    + cbn in Hrest. injection Hrest as <- <- <-. by split_and!.
  - apply ui_bind_cases in Hrest
      as [(e & Hrun & ->)|([] & s1 & t1 & t3 & Hrun & Hrest & ->)].
    + split; [left; by apply eq_None_not_Some|].
      destruct lines as [|line lines]; cbn in Hrun.
      * injection Hrun as <- <- <-. by right.
      * injection Hrun as <- <- <-. by left.
    + by destruct lines.
Qed.

(** X13. [validate_tools] returns the two tool paths only when both
    exist; when one is missing it reports the first missing one, waits for
    Enter and leaves with exit status 1. It changes nothing on disk. *)
Theorem validate_tools_needs_both rt s :
  let bnkextr_path := get_resource_path rt ["bnkextr.exe"] in
  let vgmstream_path :=
    get_resource_path rt ["vgmstream-cli"; "vgmstream-cli.exe"] in
  let present p := is_Some (stat (resolve (world s) p) (fs (world s))) in
  let '(r, s', tr) := validate_tools rt s in
  world s' = world s /\ tools_run tr = [] /\
  match r with
  | Returned paths =>
      present bnkextr_path /\ present vgmstream_path /\
      paths = (path_str bnkextr_path, path_str vgmstream_path) /\ tr = []
  | Raised e =>
      ~ (present bnkextr_path /\ present vgmstream_path) /\
      ((e = SystemExit 1 /\ stdin s <> []) \/ (e = EOFError /\ stdin s = []))
  end.
Proof.
  intros bnkextr_path vgmstream_path present.
  destruct (validate_tools rt s) as [[r s'] tr] eqn:Hrun.
  destruct (asks_only_validate_tools rt _ _ _ _ Hrun) as (Hw & Htr & _ & _).
  split; [done|]. split; [by apply tools_run_console_only|].
  clear Hw Htr. revert Hrun. unfold validate_tools. cbn zeta.
  fold bnkextr_path vgmstream_path. cbn [ui_for_each].
  destruct s as [w lines]. subst present. cbn [world stdin] in *.
  unfold ui_bind. rewrite lift_path_exists. cbn [world].
  case_bool_decide as H1; cbn [negb].
  - cbn [ui_ret]. rewrite lift_path_exists. cbn [world].
    case_bool_decide as H2; cbn [negb].
    + cbn. intros [= <- <- <-]. by split_and!.
    + destruct lines as [|line lines]; cbn; intros [= <- <- <-];
        (split; [by intros [_ ?]|]); [by right|by left].
  - destruct lines as [|line lines]; cbn; intros [= <- <- <-];
      (split; [by intros [? _]|]); [by right|by left].
Qed.

(** * The whole session *)

Lemma tools_run_app t1 t2 : tools_run (t1 ++ t2) = tools_run t1 ++ tools_run t2.
Proof. unfold tools_run. by rewrite omap_app, executed_app. Qed.

Lemma tools_run_ran tr : tools_run (Ran <$> tr) = executed tr.
Proof. unfold tools_run. f_equal. induction tr as [|e tr IH]; [done|]. cbn. by rewrite IH. Qed.

Lemma lift_cases {A} (m : M A) s r s' tr :
  lift m s = (r, s', tr) ->
  exists r0 w tr0,
    m (world s) = (r0, w, tr0) /\ s' = mkSession w (stdin s) /\
    tr = Ran <$> tr0 /\
    r = match r0 with
        | Ok a => Returned a
        | Raise e => Raised (LibraryError e)
        end.
Proof.
  unfold lift. destruct (m (world s)) as [[r0 w] tr0]. intros [= <- <- <-].
  by exists r0, w, tr0.
Qed.

Lemma asks_only_eof_widen {A} (R : A -> Prop) (m : UI A) :
  asks_only (fun e => e = EOFError) R m ->
  asks_only (fun e => e = EOFError \/ e = SystemExit 1) R m.
Proof. intros Hm. eapply asks_only_weaken; [apply Hm|by left|done]. Qed.

Lemma announced_or_idle_bind {A B} (R : A -> Prop) (m : UI A) (k : A -> UI B)
    (line : string) s r s' tr :
  asks_only (fun e => e = EOFError \/ e = SystemExit 1) R m ->
  (forall a s1 r s' tr,
     k a s1 = (r, s', tr) -> announced_or_idle line s1 r s' tr) ->
  ui_bind m k s = (r, s', tr) ->
  announced_or_idle line s r s' tr.
Proof.
  intros Hm Hk
    [(e & Hrun & ->)|(a & s1 & t1 & t2 & Hrun & Hrest & ->)]%ui_bind_cases.
  - destruct (Hm _ _ _ _ Hrun) as (Hw & Htr & _ & He). by left.
  - destruct (Hm _ _ _ _ Hrun) as (Hw & Htr & _ & _).
    destruct (Hk _ _ _ _ _ Hrest) as [(Hw' & Htr' & Hr)|(tr1 & tr2 & -> & Htr1)].
    + left. split_and!; [congruence|by apply Forall_app|done].
    + right. exists (t1 ++ tr1), tr2. split; [by rewrite <- (assoc_L (++))|].
      by apply Forall_app.
Qed.

(** X14. [main] acts only after it has said so. A session in which
    "[*] Creating main output directory..." is never printed has changed
    nothing on disk and taken no step of the pipeline, and it has ended in
    one of three ways: by returning (no files selected), with exit status
    1, or because the console ran dry; no library call has failed in it.
    In a session in which the line is printed, all that precedes the line
    is console traffic: no tool was started before it, and a failure to
    create the output directory is raised after it. *)
Theorem main_announces_before_it_acts tools rt s :
  let '(r, s', tr) := main tools rt s in
  (world s' = world s /\ Forall console_only tr /\
   (r = Returned tt \/ r = Raised EOFError \/ r = Raised (SystemExit 1))) \/
  (exists tr1 tr2,
     tr = tr1 ++ Say (nl +:+ "[*] Creating main output directory...") :: tr2 /\
     Forall console_only tr1).
Proof.
  destruct (main tools rt s) as [[r s'] tr] eqn:Hrun.
  enough (announced_or_idle (nl +:+ "[*] Creating main output directory...")
            s r s' tr) as [(Hw & Htr & Hr)|Hsaid]; [|by right|].
  { left. split_and!; [done..|].
    destruct r as [[]|e]; [by left|right]. by destruct Hr as [-> | ->]; [left|right]. }
  revert Hrun. unfold main.
  do 4 (eapply (announced_or_idle_bind (fun _ => True));
          [apply asks_only_say|intros _ ? ? ? ?]).
  eapply announced_or_idle_bind;
    [apply asks_only_eof_widen, asks_only_get_format|intros ext ? ? ? ?].
  eapply announced_or_idle_bind;
    [apply asks_only_eof_widen, asks_only_get_verbosity|intros verbosity ? ? ? ?].
  eapply announced_or_idle_bind;
    [apply asks_only_eof_widen, asks_only_get_cleanup_settings
    |intros [[[??]?]?] ? ? ? ?].
  eapply announced_or_idle_bind;
    [apply asks_only_find_bnk_files|intros [bnk_files output_dir] ? ? ? ?].
  eapply announced_or_idle_bind;
    [apply asks_only_eof_widen, asks_only_select_files|intros files ? ? ? ?].
  destruct files as [|file files].
  - intros [= <- <- <-]. left. split_and!; [done| |done].
    by repeat constructor.
  - intros [(e & Hrun & ->)|([] & ? & ? & rest & [= <- <-] & _ & ->)]%ui_bind_cases;
      [done|].
    right. by exists [], rest.
Qed.

Lemma exit_is_early_bind {A B} (R : A -> Prop) (m : UI A) (k : A -> UI B)
    (G : Session -> Z -> Session -> list ui_event -> Prop) s code s' tr :
  asks_only (fun e => e = EOFError \/ e = SystemExit 1) R m ->
  (forall s0 s1 t1,
     world s1 = world s0 -> Forall console_only t1 ->
     (G s0 1 s1 t1) /\
     forall code s' t2, G s1 code s' t2 -> G s0 code s' (t1 ++ t2)) ->
  (forall a s1 code s' tr,
     R a -> k a s1 = (Raised (SystemExit code), s', tr) -> G s1 code s' tr) ->
  ui_bind m k s = (Raised (SystemExit code), s', tr) ->
  G s code s' tr.
Proof.
  intros Hm HG Hk
    [(e & Hrun & [= <-])|(a & s1 & t1 & t2 & Hrun & Hrest & ->)]%ui_bind_cases.
  - destruct (Hm _ _ _ _ Hrun) as (Hw & Htr & _ & [?|[= ->]]); [done|].
    by apply HG.
  - destruct (Hm _ _ _ _ Hrun) as (Hw & Htr & _ & Ha).
    apply (HG s s1 t1 Hw Htr). by eapply Hk.
Qed.

Lemma processed_files_raises tools files output_dir ext bnkextr_path
    vgmstream_path verbosity cleanup_wem delete_small min_file_size
    remove_duplicates s e s' tr :
  lift (processed_files tools files output_dir ext bnkextr_path vgmstream_path
          verbosity cleanup_wem delete_small min_file_size remove_duplicates) s
  = (Raised e, s', tr) ->
  exists e', e = LibraryError e'.
Proof.
  intros (r0 & w & tr0 & _ & _ & _ & Hr)%lift_cases.
  destruct r0; [done|]. injection Hr as ->. by eexists.
Qed.

(** X15. [main] leaves with an exit status only before any archive is
    processed: the status is 1, no tool has been started, and nothing on
    disk differs from the start but, at most, the [output] directory
    beside the program (created before the tools are looked for). *)
Theorem main_exits_before_processing tools rt s code s' tr :
  main tools rt s = (Raised (SystemExit code), s', tr) ->
  code = 1 /\ tools_run tr = [] /\
  forall q,
    q <> resolve (world s) (path_join (get_executable_dir rt) "output") ->
    stat q (fs (world s')) = stat q (fs (world s)).
Proof.
  set (out := path_join (get_executable_dir rt) "output").
  set (G := fun (s : Session) (code : Z) (s' : Session) (tr : list ui_event) =>
              code = 1 /\ tools_run tr = [] /\
              forall q, q <> resolve (world s) out ->
                        stat q (fs (world s')) = stat q (fs (world s))).
  assert (forall s0 s1 t1,
            world s1 = world s0 -> Forall console_only t1 ->
            (G s0 1 s1 t1) /\
            forall code s' t2, G s1 code s' t2 -> G s0 code s' (t1 ++ t2)) as HG.
  { intros s0 s1 t1 Hw Ht1. split.
    - split_and!; [done|by apply tools_run_console_only|]. intros q _. by rewrite Hw.
    - intros c s2 t2 (-> & Hno & Hframe). split_and!; [done| |].
      + by rewrite tools_run_app, Hno, (tools_run_console_only t1).
      + intros q Hq. rewrite <- Hw. apply Hframe. by rewrite Hw. }
  change (main tools rt s = (Raised (SystemExit code), s', tr) -> G s code s' tr).
  revert s code s' tr. unfold main.
  intros s code s' tr.
  do 4 (eapply (exit_is_early_bind (fun _ => True));
          [apply asks_only_say|exact HG|clear s code s' tr; intros _ s code s' tr _]).
  eapply exit_is_early_bind;
    [apply asks_only_eof_widen, asks_only_get_format|exact HG
    |clear s code s' tr; intros ext s code s' tr _].
  eapply exit_is_early_bind;
    [apply asks_only_eof_widen, asks_only_get_verbosity|exact HG
    |clear s code s' tr; intros verbosity s code s' tr _].
  eapply exit_is_early_bind;
    [apply asks_only_eof_widen, asks_only_get_cleanup_settings|exact HG
    |clear s code s' tr; intros [[[??]?]?] s code s' tr _].
  eapply exit_is_early_bind;
    [apply asks_only_find_bnk_files|exact HG
    |clear s code s' tr; intros [bnk_files output_dir] s code s' tr Hout].
  cbn in Hout. subst output_dir.
  eapply exit_is_early_bind;
    [apply asks_only_eof_widen, asks_only_select_files|exact HG
    |clear s code s' tr; intros files s code s' tr _].
  destruct files as [|file files]; [done|].
  eapply (exit_is_early_bind (fun _ => True));
    [apply asks_only_say|exact HG|clear s code s' tr; intros _ s code s' tr _].
  intros [(e & Hrun & [= <-])|([] & s1 & t1 & t2 & Hrun & Hrest & ->)]%ui_bind_cases.
  { apply lift_cases in Hrun as (r0 & w & tr0 & _ & _ & _ & Hr). by destruct r0. }
  apply lift_cases in Hrun as (r0 & w1 & tr0 & Hmk & -> & -> & Hr).
  destruct r0 as [[]|]; [clear Hr|done].
  pose proof (mkdir_ok _ _ _ _ _ Hmk) as [-> _].
  apply ui_bind_cases in Hrest
    as [(e & Hrun & [= <-])|([bnkextr_path vgmstream_path] & s2 & t3 & t4 & Hrun & Hrest & ->)].
  { destruct (asks_only_validate_tools rt _ _ _ _ Hrun)
      as (Hw & Htr & _ & [?|[= ->]]); [done|].
    cbn [world] in Hw. split_and!; [done|by apply tools_run_console_only|].
    intros q Hq. rewrite Hw. by eapply mkdir_frame. }
  exfalso.
  apply ui_bind_cases in Hrest
    as [(e & Hrun' & [= <-])|(report & s3 & t5 & t6 & Hrun' & Hrest & ->)].
  { by apply processed_files_raises in Hrun' as [e' ?]. }
  assert (asks_only (fun e => e = EOFError) (fun _ => True)
            (ui_bind (say (nl +:+ times "=" 40)) (fun _ =>
             ui_bind (say "[*] All conversions completed!") (fun _ =>
             ui_bind (ui_for_each report
               (fun bnk_file : PyPath =>
                  say ("[*] Output saved to: " +:+
                       path_str (path_join (get_executable_dir rt) "output") +:+
                       "/" +:+ path_stem bnk_file +:+ "/"))) (fun _ =>
             ui_bind (say (times "=" 40)) (fun _ =>
             ui_bind (input "Press Enter to exit...") (fun _ => ui_ret tt)))))))
    as Htail.
  { do 2 (eapply asks_only_bind; [apply asks_only_say|intros _ _]).
    eapply asks_only_bind;
      [apply asks_only_for_each; intros ?; apply asks_only_say|intros _ _].
    eapply asks_only_bind; [apply asks_only_say|intros _ _].
    eapply asks_only_bind; [by apply asks_only_input|intros _ _].
    by apply asks_only_ret. }
  by destruct (Htail _ _ _ _ Hrest) as (_ & _ & _ & ?).
Qed.

Lemma main_exits_before_processing_witness :
  let s := mkSession (app_world app_tree ∅) ["1"; "1"; "1"; "1"; "1"; "A"; ""] in
  exists s' tr,
    main two_fragments app_runtime s = (Raised (SystemExit 1), s', tr) /\
    1 = 1 /\ tools_run tr = [] /\
    forall q,
      q <> resolve (world s) (path_join (get_executable_dir app_runtime) "output") ->
      stat q (fs (world s')) = stat q (fs (world s)).
Proof.
  intros s.
  destruct (main two_fragments app_runtime s) as [[r s'] tr] eqn:Hrun.
  assert (r = Raised (SystemExit 1)) as ->.
  { pose proof Hrun as Hrun'. vm_compute in Hrun'. by injection Hrun' as <- _ _. }
  exists s', tr. split; [done|].
  exact (main_exits_before_processing two_fragments app_runtime s 1 s' tr Hrun).
Defined.

(** * The runner and one conversion, as the code has them *)

(** X16. [run_command] never raises: it starts the command once and
    returns true exactly when the process could be started, ended with
    status 0 and, unless the verbosity is 3, wrote output that decodes as
    text: below verbosity 3 the output is captured and decoded, and a tool
    that exits with 0 after writing undecodable bytes counts as failed.
    What the tool did to the disk stays, whatever the answer; the working
    directory is untouched. *)
Theorem run_command_never_raises tools cmd verbosity w :
  let r := (run_tool tools cmd w).2 in
  exists b tr,
    run_command tools cmd verbosity w
    = (Ok b, mkWorld (run_tool tools cmd w).1 (cwd w) (undeletable w), tr) /\
    executed tr = [cmd] /\
    (b = true <-> r = Exited 0 \/ (verbosity = 3 /\ r = Undecodable 0)).
Proof.
  intros r.
  destruct (run_command_runs tools cmd verbosity w) as (tr & Hrun & Hact).
  exists (command_ok verbosity r), tr. split; [done|].
  split; [by rewrite <- executed_actions, Hact|].
  apply command_ok_true.
Qed.

(** X17. When the converter fails on a fragment (a status other than 0, or
    no start at all), the iteration goes on without looking at the output:
    whatever the converter wrote stays on disk, unmeasured and undeleted,
    and [file_sizes] is as it was. *)
Theorem failed_conversion_is_left_alone tools output_dir ext vgmstream_path
    verbosity delete_small min_file_size remove_duplicates total count
    wem_file file_sizes w :
  let cmd :=
    CmdConvert vgmstream_path
      (path_join output_dir (path_stem wem_file +:+ "." +:+ ext)) wem_file in
  exit_ok (run_tool tools cmd w).2 = false ->
  exists tr,
    convert_one tools output_dir ext vgmstream_path verbosity delete_small
      min_file_size remove_duplicates total count wem_file file_sizes w
    = (Ok file_sizes, mkWorld (run_tool tools cmd w).1 (cwd w) (undeletable w), tr) /\
    outcomes tr = [(wem_file, ConversionFailed)].
Proof.
  intros cmd Hfail.
  destruct (convert_one_runs tools output_dir ext vgmstream_path delete_small
              min_file_size remove_duplicates verbosity total count wem_file
              file_sizes w) as (w' & tr & Hrun & _ & _ & Hw & Hact).
  fold cmd in Hrun, Hw, Hact.
  assert (command_ok verbosity (run_tool tools cmd w).2 = false) as Hno.
  { unfold command_ok. by rewrite Hfail. }
  rewrite Hno in Hrun, Hw, Hact.
  cbn [andb] in Hw. subst w'. exists tr. split; [done|].
  by rewrite <- outcomes_actions, Hact.
Qed.

Lemma failed_conversion_is_left_alone_witness :
  let w := (acquire_workspace foo_bnk output_base (app_world app_tree ∅)).1.2 in
  let w2 := (extract_bnk failing_converter foo_bnk (temp_dir_of foo_bnk)
               "bnkextr.exe" 1 w).1.2 in
  let fragment := mkPath false ["temp_foo"; "1.wem"] in
  exists tr,
    convert_one failing_converter (output_dir_of foo_bnk output_base) "wav"
      "vgmstream-cli.exe" 1 true 4844 true 1 1 fragment ∅ w2
    = (Ok ∅,
       mkWorld
         (run_tool failing_converter
            (CmdConvert "vgmstream-cli.exe"
               (mkPath true ["app"; "output"; "foo"; "1.wav"]) fragment) w2).1
         (cwd w2) (undeletable w2), tr) /\
    outcomes tr = [(fragment, ConversionFailed)].
Proof.
  intros w w2 fragment.
  exact (failed_conversion_is_left_alone failing_converter
           (output_dir_of foo_bnk output_base) "wav" "vgmstream-cli.exe" 1
           true 4844 true 1%nat 1%nat fragment ∅ w2 eq_refl).
Defined.

(** X18. When the shell runner reports the converter's run as a success
    (status 0 and, below verbosity 3, output that decodes) and the policy
    condemns its output, a regular file, the output is unlinked; when the
    operating system refuses the removal, the refusal is swallowed and the
    file stays. In both cases the iteration returns, with the dictionary
    the policy left. *)
Theorem condemned_output_is_unlinked tools output_dir ext vgmstream_path
    verbosity delete_small min_file_size remove_duplicates total count
    wem_file file_sizes w file_size :
  let output_file :=
    path_join output_dir (path_stem wem_file +:+ "." +:+ ext) in
  let after := run_tool tools (CmdConvert vgmstream_path output_file wem_file) w in
  let verdict :=
    should_delete_file output_file file_size delete_small min_file_size
      remove_duplicates file_sizes in
  command_ok verbosity after.2 = true ->
  stat (resolve w output_file) after.1 = Some (IsFile file_size) ->
  verdict.1.1 = true ->
  exists w' tr,
    convert_one tools output_dir ext vgmstream_path verbosity delete_small
      min_file_size remove_duplicates total count wem_file file_sizes w
    = (Ok verdict.2, w', tr) /\
    fs w' = (if bool_decide (resolve w output_file ∈ undeletable w)
             then after.1
             else remove_node (resolve w output_file) after.1) /\
    (resolve w output_file ∉ undeletable w ->
     stat (resolve w output_file) (fs w') = None).
Proof.
  intros output_file after verdict Hexit Hfile Hverdict.
  destruct (convert_one_runs tools output_dir ext vgmstream_path delete_small
              min_file_size remove_duplicates verbosity total count wem_file
              file_sizes w) as (w' & tr & Hrun & _ & _ & Hw & _).
  fold output_file after in Hrun, Hw. rewrite Hexit, Hfile in Hrun, Hw.
  fold verdict in Hrun, Hw. rewrite Hverdict in Hw. cbn [andb] in Hw.
  exists w', tr. split; [done|].
  assert (fs w' = (if bool_decide (resolve w output_file ∈ undeletable w)
                   then after.1
                   else remove_node (resolve w output_file) after.1)) as Hfs.
  { subst w'. unfold try_except, unlink. rewrite bind_get_world. cbv zeta.
    change (resolve (mkWorld after.1 (cwd w) (undeletable w)) output_file)
      with (resolve w output_file).
    cbn [fs undeletable].
    rewrite Hfile. by case_bool_decide. }
  split; [done|]. intros Hfree. rewrite Hfs.
  rewrite bool_decide_eq_false_2 by done.
  apply stat_remove_node_below; [|done].
  assert (path_stem wem_file +:+ "." +:+ ext <> "") as Hname.
  { apply string_app_nonempty. by destruct ext. }
  unfold output_file, path_join, resolve. rewrite decide_False by done.
  cbn [p_abs p_parts]. destruct (p_abs output_dir).
  - by destruct (p_parts output_dir).
  - rewrite (assoc_L (++)). by destruct (cwd w ++ p_parts output_dir).
Qed.

Lemma condemned_output_is_unlinked_witness :
  let w := (acquire_workspace foo_bnk output_base (app_world app_tree ∅)).1.2 in
  let w2 := (extract_bnk tiny_outputs foo_bnk (temp_dir_of foo_bnk)
               "bnkextr.exe" 1 w).1.2 in
  let fragment := mkPath false ["temp_foo"; "1.wem"] in
  exists w' tr,
    convert_one tiny_outputs (output_dir_of foo_bnk output_base) "wav"
      "vgmstream-cli.exe" 1 true 4844 true 1 1 fragment ∅ w2
    = (Ok ∅, w', tr) /\
    fs w' = remove_node ["app"; "output"; "foo"; "1.wav"]
              (run_tool tiny_outputs
                 (CmdConvert "vgmstream-cli.exe"
                    (mkPath true ["app"; "output"; "foo"; "1.wav"]) fragment) w2).1 /\
    (["app"; "output"; "foo"; "1.wav"] ∉ (∅ : gset (list string)) ->
     stat ["app"; "output"; "foo"; "1.wav"] (fs w') = None).
Proof.
  intros w w2 fragment.
  exact (condemned_output_is_unlinked tiny_outputs
           (output_dir_of foo_bnk output_base) "wav" "vgmstream-cli.exe" 1
           true 4844 true 1%nat 1%nat fragment ∅ w2 100 eq_refl eq_refl eq_refl).
Defined.

(** * The policy over a whole archive *)

Lemma should_delete_file_cases output_file file_size delete_small
    min_file_size file_sizes :
  let r := should_delete_file output_file file_size delete_small min_file_size
             true file_sizes in
  (r = ((true, Some "small"), file_sizes)) \/
  (r = ((true, Some "duplicate"), file_sizes) /\ is_Some (file_sizes !! file_size)) \/
  (r = ((false, None), <[file_size := path_name output_file]> file_sizes) /\
   file_sizes !! file_size = None).
Proof.
  unfold should_delete_file.
  destruct (delete_small && (file_size <? min_file_size)); [by left|].
  cbn [andb]. case_bool_decide as Hin; right; [by left|right].
  split; [done|]. by apply eq_None_not_Some.
Qed.

Lemma kept_sizes_are_new outputs delete_small min_file_size :
  forall file_sizes j o size,
    outputs !! j = Some (o, size) ->
    filter_outputs outputs delete_small min_file_size true file_sizes !! j
    = Some (false, None) ->
    file_sizes !! size = None /\
    forall i o' size',
      (i < j)%nat -> outputs !! i = Some (o', size') ->
      filter_outputs outputs delete_small min_file_size true file_sizes !! i
      = Some (false, None) ->
      size' <> size.
Proof.
  induction outputs as [|[o0 s0] outputs IH]; intros file_sizes j o size; [done|].
  cbn [filter_outputs].
  destruct (should_delete_file_cases o0 s0 delete_small min_file_size file_sizes)
    as [Hr|[[Hr Hin]|[Hr Hnew]]]; cbv zeta in Hr; rewrite Hr; clear Hr.
  - destruct j as [|j]; [done|]. cbn. intros Hj Hkept.
    destruct (IH _ _ _ _ Hj Hkept) as [Hfree Hdiff]. split; [done|].
    intros [|i] o' size' Hlt; [done|]. cbn. apply Hdiff. lia.
  - destruct j as [|j]; [done|]. cbn. intros Hj Hkept.
    destruct (IH _ _ _ _ Hj Hkept) as [Hfree Hdiff]. split; [done|].
    intros [|i] o' size' Hlt; [done|]. cbn. apply Hdiff. lia.
  - destruct j as [|j]; cbn.
    + intros [= <- <-] _. split; [done|]. intros i o' size' Hlt. lia.
    + intros Hj Hkept. destruct (IH _ _ _ _ Hj Hkept) as [Hfree Hdiff].
      apply lookup_insert_None in Hfree as [Hfree Hne]. split; [done|].
      intros [|i] o' size' Hlt; cbn.
      * by intros [= <- <-] _.
      * apply Hdiff. lia.
Qed.

Lemma duplicates_have_twins outputs delete_small min_file_size :
  forall file_sizes j o size,
    outputs !! j = Some (o, size) ->
    filter_outputs outputs delete_small min_file_size true file_sizes !! j
    = Some (true, Some "duplicate") ->
    is_Some (file_sizes !! size) \/
    exists i o',
      (i < j)%nat /\ outputs !! i = Some (o', size) /\
      filter_outputs outputs delete_small min_file_size true file_sizes !! i
      = Some (false, None).
Proof.
  induction outputs as [|[o0 s0] outputs IH]; intros file_sizes j o size; [done|].
  cbn [filter_outputs].
  destruct (should_delete_file_cases o0 s0 delete_small min_file_size file_sizes)
    as [Hr|[[Hr Hin]|[Hr Hnew]]]; cbv zeta in Hr; rewrite Hr; clear Hr.
  - destruct j as [|j]; [done|]. cbn. intros Hj Hdup.
    destruct (IH _ _ _ _ Hj Hdup) as [Hin|(i & o' & Hlt & Hi & Hkept)]; [by left|].
    right. exists (S i), o'. split; [lia|done].
  - destruct j as [|j]; cbn.
    + intros [= <- <-] _. by left.
    + intros Hj Hdup.
      destruct (IH _ _ _ _ Hj Hdup) as [Hin'|(i & o' & Hlt & Hi & Hkept)]; [by left|].
      right. exists (S i), o'. split; [lia|done].
  - destruct j as [|j]; [done|]. cbn. intros Hj Hdup.
    destruct (IH _ _ _ _ Hj Hdup) as [Hin|(i & o' & Hlt & Hi & Hkept)].
    + destruct (decide (s0 = size)) as [->|Hne].
      * right. exists 0%nat, o0. split; [lia|done].
      * left. by rewrite lookup_insert_ne in Hin.
    + right. exists (S i), o'. split; [lia|done].
Qed.

(** The outputs the conversion step judged, and the policy run over them
    from an empty dictionary. *)
Lemma convert_wem_files_judged tools temp_dir output_dir ext vgmstream_path
    verbosity delete_small min_file_size remove_duplicates w :
  let output_of := fun wem_file : PyPath =>
    path_join output_dir (path_stem wem_file +:+ "." +:+ ext) in
  let tr := (convert_wem_files tools temp_dir output_dir ext vgmstream_path
               verbosity delete_small min_file_size remove_duplicates w).2 in
  (judged output_of tr).*2
  = filter_outputs (judged output_of tr).*1 delete_small min_file_size
      remove_duplicates ∅.
Proof.
  intros output_of tr. subst tr.
  unfold convert_wem_files. rewrite bind_glob.
  destruct (path_join temp_dir <$> _) as [|wem_file rest] eqn:Hfr; [done|].
  assert (exists ts, when (verbosity =? 1) (spinner_start MsgConverting) w
                     = (Ok tt, w, ts) /\ actions ts = []) as (ts & Hs & Hsa).
  { destruct (verbosity =? 1); by eexists. }
  destruct (convert_loop_runs tools output_dir ext vgmstream_path delete_small
              min_file_size remove_duplicates verbosity
              (length (wem_file :: rest)) (wem_file :: rest) 1%nat ∅ w)
    as (fs' & w' & tl & Hloop & _ & _ & Hjud).
  assert (exists te,
            (if verbosity =? 2 then print MsgNewline
             else if verbosity =? 1 then spinner_stop else ret tt) w'
            = (Ok tt, w', te) /\ actions te = []) as (te & He & Hea).
  { destruct (verbosity =? 2); [by eexists |].
    destruct (verbosity =? 1); by eexists. }
  erewrite bind_run; [|exact Hs|].
  2:{ eapply bind_run; [exact Hloop|]. eapply bind_run; [exact He|reflexivity]. }
  cbn [snd].
  assert (judged output_of (ts ++ tl ++ te ++ []) = judged output_of tl) as ->; [|done].
  unfold judged. rewrite !outcomes_app.
  rewrite <- (outcomes_actions ts), <- (outcomes_actions te), Hsa, Hea.
  change (outcomes []) with (@nil (PyPath * outcome)).
  by rewrite !app_nil_r.
Qed.

Lemma lookup_judged {A B} (l : list (A * B)) j a b :
  l !! j = Some (a, b) -> l.*1 !! j = Some a /\ l.*2 !! j = Some b.
Proof. intros Hj. by rewrite !list_lookup_fmap, Hj. Qed.

(** X19. With duplicate removal on, no two outputs the conversion step
    keeps have the same measured size: whatever the tools do, of the
    outputs of one archive that share a size at most the first is kept. *)
Theorem kept_outputs_differ_in_size tools temp_dir output_dir ext
    vgmstream_path verbosity delete_small min_file_size w i j o1 o2 s1 s2 :
  let output_of := fun wem_file : PyPath =>
    path_join output_dir (path_stem wem_file +:+ "." +:+ ext) in
  let tr := (convert_wem_files tools temp_dir output_dir ext vgmstream_path
               verbosity delete_small min_file_size true w).2 in
  (i < j)%nat ->
  judged output_of tr !! i = Some ((o1, s1), (false, None)) ->
  judged output_of tr !! j = Some ((o2, s2), (false, None)) ->
  s1 <> s2.
Proof.
  intros output_of tr Hlt Hi Hj.
  pose proof (convert_wem_files_judged tools temp_dir output_dir ext
                vgmstream_path verbosity delete_small min_file_size true w) as Hjud.
  cbv zeta in Hjud. fold output_of tr in Hjud.
  apply lookup_judged in Hi as [Hi1 Hi2]. apply lookup_judged in Hj as [Hj1 Hj2].
  rewrite Hjud in Hi2, Hj2.
  destruct (kept_sizes_are_new _ _ _ _ _ _ _ Hj1 Hj2) as [_ Hdiff].
  by eapply Hdiff.
Qed.

(** X20. With duplicate removal on, an output is deleted as a duplicate
    only when an earlier output of the same archive with the same measured
    size was kept. *)
Theorem duplicate_has_a_kept_twin tools temp_dir output_dir ext
    vgmstream_path verbosity delete_small min_file_size w j o size :
  let output_of := fun wem_file : PyPath =>
    path_join output_dir (path_stem wem_file +:+ "." +:+ ext) in
  let tr := (convert_wem_files tools temp_dir output_dir ext vgmstream_path
               verbosity delete_small min_file_size true w).2 in
  judged output_of tr !! j = Some ((o, size), (true, Some "duplicate")) ->
  exists i o',
    (i < j)%nat /\
    judged output_of tr !! i = Some ((o', size), (false, None)).
Proof.
  intros output_of tr Hj.
  pose proof (convert_wem_files_judged tools temp_dir output_dir ext
                vgmstream_path verbosity delete_small min_file_size true w) as Hjud.
  cbv zeta in Hjud. fold output_of tr in Hjud.
  apply lookup_judged in Hj as [Hj1 Hj2]. rewrite Hjud in Hj2.
  destruct (duplicates_have_twins _ _ _ _ _ _ _ Hj1 Hj2)
    as [[? Hin]|(i & o' & Hlt & Hi1 & Hi2)]; [done|].
  exists i, o'. split; [done|]. rewrite <- Hjud in Hi2.
  rewrite list_lookup_fmap in Hi1. rewrite list_lookup_fmap in Hi2.
  destruct (judged output_of tr !! i) as [[[o'' s''] v]|]; [|done].
  cbn in Hi1, Hi2. by simplify_eq.
Qed.

Lemma kept_outputs_differ_in_size_witness :
  let w := (acquire_workspace foo_bnk output_base (app_world app_tree ∅)).1.2 in
  let w2 := (extract_bnk two_fragments foo_bnk (temp_dir_of foo_bnk)
               "bnkextr.exe" 1 w).1.2 in
  let output_of := fun wem_file : PyPath =>
    path_join (output_dir_of foo_bnk output_base) (path_stem wem_file +:+ "." +:+ "wav") in
  let tr := (convert_wem_files two_fragments (temp_dir_of foo_bnk)
               (output_dir_of foo_bnk output_base) "wav" "vgmstream-cli.exe" 1
               true 4844 true w2).2 in
  judged output_of tr
  = [((mkPath true ["app"; "output"; "foo"; "1.wav"], 5000), (false, None));
     ((mkPath true ["app"; "output"; "foo"; "2.wav"], 6000), (false, None))] /\
  5000 <> 6000.
Proof.
  intros w w2 output_of tr.
  assert (judged output_of tr
          = [((mkPath true ["app"; "output"; "foo"; "1.wav"], 5000), (false, None));
             ((mkPath true ["app"; "output"; "foo"; "2.wav"], 6000), (false, None))])
    as Hjudged by (vm_compute; reflexivity).
  split; [exact Hjudged|].
  apply (kept_outputs_differ_in_size two_fragments (temp_dir_of foo_bnk)
           (output_dir_of foo_bnk output_base) "wav" "vgmstream-cli.exe" 1
           true 4844 w2 0%nat 1%nat
           (mkPath true ["app"; "output"; "foo"; "1.wav"])
           (mkPath true ["app"; "output"; "foo"; "2.wav"]) 5000 6000).
  - lia.
  - fold output_of tr. by rewrite Hjudged.
  - fold output_of tr. by rewrite Hjudged.
Defined.

Lemma duplicate_has_a_kept_twin_witness :
  let w := (acquire_workspace foo_bnk output_base (app_world app_tree ∅)).1.2 in
  let w2 := (extract_bnk twin_outputs foo_bnk (temp_dir_of foo_bnk)
               "bnkextr.exe" 1 w).1.2 in
  let output_of := fun wem_file : PyPath =>
    path_join (output_dir_of foo_bnk output_base) (path_stem wem_file +:+ "." +:+ "wav") in
  let tr := (convert_wem_files twin_outputs (temp_dir_of foo_bnk)
               (output_dir_of foo_bnk output_base) "wav" "vgmstream-cli.exe" 1
               true 4844 true w2).2 in
  judged output_of tr
  = [((mkPath true ["app"; "output"; "foo"; "1.wav"], 5000), (false, None));
     ((mkPath true ["app"; "output"; "foo"; "2.wav"], 5000),
      (true, Some "duplicate"))] /\
  exists i o',
    (i < 1)%nat /\ judged output_of tr !! i = Some ((o', 5000), (false, None)).
Proof.
  intros w w2 output_of tr.
  assert (judged output_of tr
          = [((mkPath true ["app"; "output"; "foo"; "1.wav"], 5000), (false, None));
             ((mkPath true ["app"; "output"; "foo"; "2.wav"], 5000),
              (true, Some "duplicate"))])
    as Hjudged by (vm_compute; reflexivity).
  split; [exact Hjudged|].
  apply (duplicate_has_a_kept_twin twin_outputs (temp_dir_of foo_bnk)
           (output_dir_of foo_bnk output_base) "wav" "vgmstream-cli.exe" 1
           true 4844 w2 1%nat (mkPath true ["app"; "output"; "foo"; "2.wav"]) 5000).
  fold output_of tr. by rewrite Hjudged.
Defined.

(** * Extraction, as the code has it *)

Lemma unlink_ok p w w' tr :
  unlink p w = (Ok tt, w', tr) ->
  tr = [] /\ cwd w' = cwd w /\ undeletable w' = undeletable w.
Proof.
  unfold unlink. rewrite bind_get_world. cbv zeta.
  destruct (stat (resolve w p) (fs w)) as [[|]|]; try done.
  case_bool_decide; [done|]. by intros [= <- <-].
Qed.

(** X21. When [extract_bnk] returns, it has started exactly one tool, the
    extractor on the archive's name, with the workspace as the working
    directory; it returns what the shell runner made of that run: true
    exactly when the extractor ended with status 0 and, unless the
    verbosity is 3, wrote output that decodes as text. The working
    directory is again what it was. *)
Theorem extract_bnk_returns_runner_answer tools bnk_file temp_dir
    bnkextr_path verbosity w b w' tr :
  extract_bnk tools bnk_file temp_dir bnkextr_path verbosity w = (Ok b, w', tr) ->
  cwd w' = cwd w /\ undeletable w' = undeletable w /\
  executed tr = [CmdExtract bnkextr_path (path_name bnk_file)] /\
  exists wc,
    let r := (run_tool tools (CmdExtract bnkextr_path (path_name bnk_file)) wc).2 in
    cwd wc = resolve w temp_dir /\ undeletable wc = undeletable w /\
    (b = true <-> r = Exited 0 \/ (verbosity = 3 /\ r = Undecodable 0)).
Proof.
  unfold extract_bnk. cbv zeta.
  intros [(e & _ & [=])|([] & w1 & t1 & t2 & Hcopy & Hrest & ->)]%bind_cases.
  apply copy2_ok in Hcopy as (-> & Hc1 & Hu1 & _).
  apply bind_cases in Hrest as [(e & _ & [=])|([] & w1' & t1 & t3 & [= <- <-] & Hrest & ->)].
  apply bind_cases in Hrest as [(e & Hg & _)|(od & w1' & t1 & t4 & Hg & Hrest & ->)];
    unfold getcwd in Hg; rewrite bind_get_world in Hg; [done|].
  injection Hg as <- <- <-.
  apply bind_cases in Hrest as [(e & _ & [=])|([] & w2 & t1 & t5 & Hcd & Hrest & ->)].
  apply chdir_ok in Hcd as (-> & Hf2 & Hu2 & Hc2 & _).
  destruct (run_command_runs tools (CmdExtract bnkextr_path (path_name bnk_file))
              verbosity w2) as (tc & Hcmd & Hact).
  apply bind_cases in Hrest as [(e & Hcmd' & [=])|(success & w3 & t1 & t6 & Hcmd' & Hrest & ->)].
  rewrite Hcmd in Hcmd'. injection Hcmd' as <- <- <-.
  rewrite bind_path_exists in Hrest.
  apply bind_cases in Hrest as [(e & _ & [=])|([] & w4 & t1 & t7 & Hun & Hrest & ->)].
  assert (t1 = [] /\ cwd w4 = cwd w2 /\ undeletable w4 = undeletable w2)
    as (-> & Hc4 & Hu4).
  { destruct (bool_decide _); cbn [when] in Hun.
    - by apply unlink_ok in Hun.
    - by injection Hun as <- <-. }
  apply bind_cases in Hrest as [(e & _ & [=])|([] & w5 & t1 & t8 & Hback & Hrest & ->)].
  apply chdir_ok in Hback as (-> & _ & Hu5 & Hc5 & _).
  apply bind_cases in Hrest as [(e & _ & [=])|([] & w6 & t1 & t9 & [= <- <-] & [= <- <- <-] & ->)].
  split; [by rewrite Hc5|]. split; [congruence|]. split.
  - cbn [app]. change (SpinnerStart ?m :: ?l) with ([SpinnerStart m] ++ l).
    rewrite !executed_app, <- (executed_actions tc), Hact. done.
  - exists w2. cbv zeta. split; [rewrite Hc2; unfold resolve; by rewrite Hc1|].
    split; [congruence|]. apply command_ok_true.
Qed.

Lemma extract_bnk_returns_runner_answer_witness :
  let w := (acquire_workspace foo_bnk output_base (app_world app_tree ∅)).1.2 in
  exists w' tr,
    extract_bnk garbled_extractor foo_bnk (temp_dir_of foo_bnk) "bnkextr.exe" 1 w
    = (Ok false, w', tr) /\
    cwd w' = cwd w /\ undeletable w' = undeletable w /\
    executed tr = [CmdExtract "bnkextr.exe" "foo.bnk"] /\
    exists wc,
      let r := (run_tool garbled_extractor
                  (CmdExtract "bnkextr.exe" (path_name foo_bnk)) wc).2 in
      cwd wc = resolve w (temp_dir_of foo_bnk) /\ undeletable wc = undeletable w /\
      (false = true <-> r = Exited 0 \/ (1 = 3 /\ r = Undecodable 0)).
Proof.
  intros w.
  destruct (extract_bnk garbled_extractor foo_bnk (temp_dir_of foo_bnk)
              "bnkextr.exe" 1 w) as [[r w'] tr] eqn:Hrun.
  assert (r = Ok false) as ->.
  { pose proof Hrun as Hrun'. vm_compute in Hrun'. by injection Hrun' as <- _ _. }
  exists w', tr. split; [done|].
  exact (extract_bnk_returns_runner_answer garbled_extractor foo_bnk
           (temp_dir_of foo_bnk) "bnkextr.exe" 1 w false w' tr Hrun).
Defined.

(** * Releasing the workspace, as the code has it *)

Section Releasing.
Context (c0 : list string) (U : gset (list string)) (temp : string).
Context (output_dir : PyPath) (t0 : node).

Local Abbreviation T := (c0 ++ [temp]).
Local Abbreviation O := (resolve (mkWorld t0 c0 U) output_dir).
Local Abbreviation temp_dir := (mkPath false [temp]).
Local Abbreviation J := (releasing c0 U temp t0).
Local Abbreviation phi := (fragment_move T O).

Hypothesis output_is_dir : is_dir O t0 = true.
Hypothesis output_outside : ~ T `prefix_of` O.

Lemma releasing_output w : J w -> resolve w output_dir = O /\ is_dir O (fs w) = true.
Proof.
  intros (Hc & _ & _ & Hframe).
  assert (resolve w output_dir = O) as Hres by (unfold resolve; cbn; by rewrite Hc).
  split; [done|]. unfold is_dir in *.
  rewrite Hframe; [done|done|]. by destruct (stat O t0).
Qed.

Lemma move_fragment_releasing name :
  ends_with ".wem" name = true ->
  hoare phi J (move (path_join temp_dir name) output_dir) (fun _ => J).
Proof.
  intros Hend. pose proof (ends_with_nonempty ".wem" name ltac:(done) Hend) as Hname.
  unfold move. apply hoare_get_world; intros w0; cbv zeta.
  apply (hoare_consequence _ _ (fun w => J w0 /\ w = w0) _ _ (fun _ => J));
    [| by intros ? [-> ?] | done].
  apply hoare_pure_pre. intros HJ.
  destruct (releasing_output w0 HJ) as [HO HOdir].
  destruct HJ as (Hc & HU & HT & Hframe).
  assert (resolve w0 (path_join temp_dir name) = T ++ [name]) as ->.
  { unfold path_join, resolve. rewrite decide_False by done.
    cbn. by rewrite Hc, <- (assoc_L (++)). }
  set (s := T ++ [name]).
  assert (path_name (path_join temp_dir name) = name) as ->.
  { unfold path_join, path_name. rewrite decide_False by done. cbn. done. }
  rewrite HO, HOdir.
  assert (resolve w0 (path_join output_dir name) = O ++ [name]) as ->.
  { unfold path_join. rewrite decide_False by done. rewrite <- HO.
    unfold resolve. cbn. destruct (p_abs output_dir); [done|].
    by rewrite (assoc_L (++)). }
  set (d' := O ++ [name]). cbn [andb].
  case_bool_decide; [apply hoare_ret; by intros ? ->|].
  case_bool_decide as Hd'; [apply hoare_raise; by intros ? ->|].
  destruct (lookup_node s (fs w0)) as [n|];
    [|apply hoare_raise; by intros ? ->].
  case_bool_decide; [apply hoare_ret; by intros ? ->|].
  case_bool_decide as Hsd; [apply hoare_raise; by intros ? ->|].
  destruct (blocked w0 s); [apply hoare_raise; by intros ? ->|].
  assert (stat d' (fs w0) = None) as Hfree by by apply eq_None_not_Some.
  rewrite Hfree.
  assert (removelast d' = O) as -> by (unfold d'; by rewrite removelast_last).
  assert (exists z, stat O (fs w0) = Some (IsDir z)) as [z ->] by by apply is_dir_stat.
  assert (~ s `prefix_of` T) as HsT.
  { intros Hpre. apply prefix_length in Hpre. unfold s in Hpre.
    rewrite length_app in Hpre. cbn in Hpre. lia. }
  assert (hoare phi (fun w => w = w0)
            (set_fs (put_node d' n (remove_node s (fs w0))) ;; emit (Moved s d'))
            (fun _ => J)) as Hput.
  { eapply hoare_bind with (Q1 := fun _ => J); [| |done].
    - apply hoare_set_fs. intros ? ->. split_and!; [done|done| |]; cbn.
      + apply is_dir_put_free.
        * unfold remove_node. rewrite is_dir_outside by done.
          unfold is_dir. by rewrite Hfree.
        * unfold remove_node. by rewrite is_dir_outside.
      + intros q Hq Hsome. rewrite <- (Hframe q Hq Hsome).
        unfold put_node, remove_node.
        rewrite !stat_update_node_outside; [done| |].
        * intros Hpre. apply Hq. etrans; [|exact Hpre]. by apply prefix_app_r.
        * intros Hpre. pose proof (Hframe q Hq Hsome) as Hq0.
          rewrite (stat_none_below d' q (fs w0) Hpre Hfree) in Hq0.
          rewrite <- Hq0 in Hsome. by destruct Hsome.
    - intros ?. apply keeps_emit. cbn. by exists name. }
  by destruct n.
Qed.

Lemma remove_workspace_releasing :
  hoare phi J (present <- path_exists temp_dir ;; when present (rmtree temp_dir))
    (fun _ w =>
       forall q, ~ T `prefix_of` q -> is_Some (stat q t0) ->
                 stat q (fs w) = stat q t0).
Proof.
  intros w r w' tr (Hc & HU & HT & Hframe). rewrite bind_path_exists.
  assert (resolve w temp_dir = T) as -> by (unfold resolve; cbn; by rewrite Hc).
  destruct (bool_decide _); cbn [when].
  - unfold rmtree. rewrite bind_get_world. cbv zeta.
    assert (resolve w temp_dir = T) as -> by (unfold resolve; cbn; by rewrite Hc).
    destruct (stat T (fs w)) as [[|]|]; try (intros [= <- <- <-]; by split).
    destruct (_ || _); intros [= <- <- <-]; (split; [|done]); [done|].
    cbn. intros q Hq Hsome. rewrite <- (Hframe q Hq Hsome).
    unfold remove_node. by apply stat_update_node_outside.
  - intros [= <- <- <-]. by split.
Qed.

Lemma cleanup_temp_dir_releasing cleanup_wem verbosity :
  hoare phi J (cleanup_temp_dir temp_dir output_dir cleanup_wem verbosity)
    (fun _ w =>
       forall q, ~ T `prefix_of` q -> is_Some (stat q t0) ->
                 stat q (fs w) = stat q t0).
Proof.
  unfold cleanup_temp_dir. destruct cleanup_wem.
  - eapply hoare_bind; [by apply hoare_when_print| |by intros ? ? [[=] _]].
    intros []. cbn beta.
    eapply hoare_consequence;
      [apply remove_workspace_releasing|by intros ? [_ ?]|done].
  - eapply hoare_bind; [by apply hoare_when_print| |by intros ? ? [[=] _]].
    intros []. cbn beta.
    eapply hoare_bind with
      (Q1 := fun r w =>
               (exists l, r = Ok l /\
                  Forall (fun p => exists n, ends_with ".wem" n = true /\
                                             p = path_join temp_dir n) l)
               /\ J w);
      [| |by intros ? ? [(? & [=] & _) _]].
    { intros w r w' tr [_ Hst]. unfold glob. rewrite bind_get_world.
      intros [= <- <- <-]. split; [|by constructor]. split; [|done].
      eexists. split; [done|]. apply Forall_fmap, Forall_forall.
      intros n Hn. apply list_elem_of_In, filter_In in Hn as [_ Hn].
      by exists n. }
    intros wem_files. cbn beta.
    apply (hoare_consequence _ _
             (fun w => Forall (fun p => exists n, ends_with ".wem" n = true /\
                                                  p = path_join temp_dir n)
                         wem_files /\ J w) _ _
             (fun _ w =>
                forall q, ~ T `prefix_of` q -> is_Some (stat q t0) ->
                          stat q (fs w) = stat q t0));
      [|by intros w [(l & [= <-] & Hl) ?]|done].
    apply hoare_pure_pre. intros Hall.
    eapply hoare_bind with (Q1 := fun r w => r = Ok tt /\ J w);
      [| |by intros ? ? [[=] _]].
    + apply hoare_for_each_ok. intros wem_file Hin.
      rewrite Forall_forall in Hall. destruct (Hall _ Hin) as (n & Hn & ->).
      eapply hoare_try_except with (Q1 := fun _ => J);
        [by apply move_fragment_releasing|intros [] ? ?; by split|].
      intros ?. by apply hoare_ret.
    + intros []. cbn beta.
      eapply hoare_consequence;
        [apply remove_workspace_releasing|by intros ? [_ ?]|done].
Qed.

End Releasing.

Lemma releasing_start temp w :
  is_dir (cwd w ++ [temp]) (fs w) = true ->
  releasing (cwd w) (undeletable w) temp (fs w) w.
Proof. by intros ?; split_and!. Qed.

(** X22. Releasing the workspace never replaces or removes what was on
    disk outside it: every path outside the workspace that existed before
    [cleanup_temp_dir] is afterward as it was, whether fragments are moved
    or deleted and however the call ends. A fragment whose name is taken
    in the output directory is therefore not moved there. *)
Theorem release_keeps_what_was_there temp output_dir cleanup_wem verbosity
    w r w' tr :
  let T := cwd w ++ [temp] in
  let O := resolve w output_dir in
  is_dir T (fs w) = true -> is_dir O (fs w) = true -> ~ T `prefix_of` O ->
  cleanup_temp_dir (mkPath false [temp]) output_dir cleanup_wem verbosity w
  = (r, w', tr) ->
  forall q,
    ~ T `prefix_of` q -> is_Some (stat q (fs w)) ->
    stat q (fs w') = stat q (fs w).
Proof.
  intros T O HT HO Hout Hrun.
  by destruct (cleanup_temp_dir_releasing (cwd w) (undeletable w) temp
                 output_dir (fs w) HO Hout cleanup_wem verbosity w r w' tr
                 (releasing_start temp w HT) Hrun) as [Hframe _].
Qed.

Lemma moves_elem tr s d : (s, d) ∈ moves tr -> Moved s d ∈ tr.
Proof.
  unfold moves. intros (e & He & Hm)%list_elem_of_omap.
  destruct e; try done. by injection Hm as -> ->.
Qed.

Lemma cleanup_deleting_moves_nothing temp_dir output_dir verbosity w r w' tr :
  cleanup_temp_dir temp_dir output_dir true verbosity w = (r, w', tr) ->
  moves tr = [].
Proof.
  unfold cleanup_temp_dir.
  intros [(e & Hp & _)|([] & w1 & t1 & t2 & Hp & Hrest & ->)]%bind_cases.
  { by destruct (2 <=? verbosity). }
  assert (moves t1 = [] /\ w1 = w) as [Ht1 ->].
  { destruct (2 <=? verbosity); by injection Hp as <- <-. }
  rewrite moves_app, Ht1. rewrite bind_path_exists in Hrest.
  destruct (bool_decide _); cbn [when] in Hrest; [|by injection Hrest as <- <- <-].
  revert Hrest. unfold rmtree. rewrite bind_get_world. cbv zeta.
  destruct (stat _ _) as [[|]|]; try by intros [= <- <- <-].
  destruct (_ || _); by intros [= <- <- <-].
Qed.

(** X23. The only moves a release makes are of fragments: every completed
    [shutil.move] takes an entry of the workspace whose name ends in
    [.wem] to the same name in the output directory, and none is made when
    fragments are to be deleted. *)
Theorem release_moves_fragments_only temp output_dir cleanup_wem verbosity
    w r w' tr :
  let T := cwd w ++ [temp] in
  let O := resolve w output_dir in
  is_dir T (fs w) = true -> is_dir O (fs w) = true -> ~ T `prefix_of` O ->
  cleanup_temp_dir (mkPath false [temp]) output_dir cleanup_wem verbosity w
  = (r, w', tr) ->
  forall s d,
    (s, d) ∈ moves tr ->
    cleanup_wem = false /\
    exists name,
      ends_with ".wem" name = true /\ s = T ++ [name] /\ d = O ++ [name].
Proof.
  intros T O HT HO Hout Hrun s d Hmoved. split.
  - destruct cleanup_wem; [|done].
    apply cleanup_deleting_moves_nothing in Hrun. rewrite Hrun in Hmoved.
    by apply elem_of_nil in Hmoved.
  - destruct (cleanup_temp_dir_releasing (cwd w) (undeletable w) temp
                output_dir (fs w) HO Hout cleanup_wem verbosity w r w' tr
                (releasing_start temp w HT) Hrun) as [_ Hphi].
    apply moves_elem in Hmoved. rewrite Forall_forall in Hphi.
    exact (Hphi _ Hmoved).
Qed.

Lemma release_keeps_what_was_there_witness :
  let w3 := before_release two_fragments (app_world app_tree_retained ∅) in
  let run := cleanup_temp_dir (mkPath false ["temp_foo"])
               (output_dir_of foo_bnk output_base) false 1 w3 in
  stat ["app"; "output"; "foo"; "1.wem"] (fs w3) = Some (IsFile 999) /\
  stat ["app"; "temp_foo"; "1.wem"] (fs w3) = Some (IsFile 10) /\
  stat ["app"; "output"; "foo"; "1.wem"] (fs run.1.2)
  = stat ["app"; "output"; "foo"; "1.wem"] (fs w3).
Proof.
  intros w3 run.
  split; [by vm_compute|]. split; [by vm_compute|].
  apply (release_keeps_what_was_there "temp_foo"
           (output_dir_of foo_bnk output_base) false 1 w3 run.1.1 run.1.2 run.2).
  - by vm_compute.
  - by vm_compute.
  - intros [k Hk]. vm_compute in Hk. discriminate Hk.
  - unfold run. by destruct (cleanup_temp_dir _ _ _ _ _) as [[??]?].
  - intros [k Hk]. vm_compute in Hk. discriminate Hk.
  - vm_compute. by eexists.
Defined.

Lemma release_moves_fragments_only_witness :
  let w3 := before_release two_fragments (app_world app_tree_retained ∅) in
  let run := cleanup_temp_dir (mkPath false ["temp_foo"])
               (output_dir_of foo_bnk output_base) false 1 w3 in
  moves run.2
  = [(["app"; "temp_foo"; "2.wem"], ["app"; "output"; "foo"; "2.wem"])] /\
  (false = false /\
   exists name,
     ends_with ".wem" name = true /\
     ["app"; "temp_foo"; "2.wem"] = (cwd w3 ++ ["temp_foo"]) ++ [name] /\
     ["app"; "output"; "foo"; "2.wem"]
     = resolve w3 (output_dir_of foo_bnk output_base) ++ [name]).
Proof.
  intros w3 run.
  assert (moves run.2
          = [(["app"; "temp_foo"; "2.wem"], ["app"; "output"; "foo"; "2.wem"])])
    as Hmoves by by vm_compute.
  split; [exact Hmoves|].
  apply (release_moves_fragments_only "temp_foo"
           (output_dir_of foo_bnk output_base) false 1 w3 run.1.1 run.1.2 run.2).
  - by vm_compute.
  - by vm_compute.
  - intros [k Hk]. vm_compute in Hk. discriminate Hk.
  - unfold run. by destruct (cleanup_temp_dir _ _ _ _ _) as [[??]?].
  - rewrite Hmoves. by apply list_elem_of_singleton.
Defined.

(** * The per-archive step, as the code has it *)

Lemma empty_dir_lists_nothing p t :
  is_dir p t = true -> (forall c, stat (p ++ [c]) t = None) -> listdir p t = [].
Proof.
  intros (s & m & Hp)%is_dir_lookup Hnone. unfold listdir. rewrite Hp.
  assert (m = ∅) as ->; [|by rewrite map_to_list_empty].
  apply map_empty. intros c. specialize (Hnone c).
  unfold stat in Hnone. rewrite lookup_node_app, Hp in Hnone. cbn in Hnone.
  by destruct (m !! c).
Qed.

(** X24. After the statements before the [try] have run, the workspace is
    an empty directory, whatever an earlier run had left under that name:
    no stale fragment can reach the conversion of this run. (The output
    subdirectory is taken not to lie inside the workspace.) *)
Theorem workspace_starts_empty bnk_file output_base_dir w w1 tr :
  let T := resolve w (temp_dir_of bnk_file) in
  let O := resolve w (output_dir_of bnk_file output_base_dir) in
  ~ T `prefix_of` O ->
  acquire_workspace bnk_file output_base_dir w = (Ok tt, w1, tr) ->
  is_dir T (fs w1) = true /\ listdir T (fs w1) = [] /\
  fragments (temp_dir_of bnk_file) w1 = [].
Proof.
  intros T O Hout Hrun.
  destruct (acquire_workspace_ok _ _ _ _ _ Hrun)
    as (Hc & _ & HT & _ & _ & _ & _ & Hempty).
  assert (T = cwd w ++ ["temp_" +:+ path_stem bnk_file]) as HTeq.
  { unfold T. by rewrite temp_dir_of_parts. }
  rewrite <- HTeq in HT, Hempty.
  assert (listdir T (fs w1) = []) as Hlist.
  { apply empty_dir_lists_nothing; [done|]. intros c. apply Hempty.
    intros Heq. apply Hout. unfold O. rewrite <- Heq. by apply prefix_app_r. }
  split; [done|]. split; [done|].
  unfold fragments.
  assert (resolve w1 (temp_dir_of bnk_file) = T) as ->.
  { unfold T, resolve. by rewrite Hc. }
  by rewrite Hlist.
Qed.

Lemma workspace_starts_empty_witness :
  let stale :=
    Dir 0 {[ "app" :=
      Dir 0 {[ "input" := Dir 0 {[ "foo.bnk" := File 777 ]};
               "output" := Dir 0 ∅;
               "temp_foo" := Dir 0 {[ "9.wem" := File 3 ]} ]} ]} in
  let run := acquire_workspace foo_bnk output_base (app_world stale ∅) in
  fragments (temp_dir_of foo_bnk) (app_world stale ∅)
  = [mkPath false ["temp_foo"; "9.wem"]] /\
  is_dir ["app"; "temp_foo"] (fs run.1.2) = true /\
  listdir ["app"; "temp_foo"] (fs run.1.2) = [] /\
  fragments (temp_dir_of foo_bnk) run.1.2 = [].
Proof.
  intros stale run. split; [by vm_compute|].
  apply (workspace_starts_empty foo_bnk output_base (app_world stale ∅)
           run.1.2 run.2).
  - intros [k Hk]. vm_compute in Hk. discriminate Hk.
  - assert (run.1.1 = Ok tt) as Hok by by vm_compute.
    revert Hok. unfold run.
    destruct (acquire_workspace _ _ _) as [[r w1] tr]. cbn. by intros ->.
Defined.

(** X25. [process_bnk_file] raises only from the statements before its
    [try]: whatever is raised later becomes the return value [False]. So
    when it raises, the acquisition of the workspace raised that
    exception, and nothing further was done. *)
Theorem only_the_acquisition_raises tools bnk_file output_base_dir ext
    bnkextr_path vgmstream_path verbosity cleanup_wem delete_small
    min_file_size remove_duplicates w e w' tr :
  process_bnk_file tools bnk_file output_base_dir ext bnkextr_path
    vgmstream_path verbosity cleanup_wem delete_small min_file_size
    remove_duplicates w = (Raise e, w', tr) ->
  acquire_workspace bnk_file output_base_dir w = (Raise e, w', tr).
Proof.
  intros Hrun%process_bnk_file_cases. by inversion Hrun.
Qed.

Lemma mkdir_new p exist_ok w :
  stat (resolve w p) (fs w) = None ->
  is_dir (removelast (resolve w p)) (fs w) = true ->
  mkdir p exist_ok w
  = (Ok tt, mkWorld (put_node (resolve w p) (Dir 0 ∅) (fs w)) (cwd w)
              (undeletable w), []).
Proof.
  intros Hfree (s & Hpar)%is_dir_stat. unfold mkdir. rewrite bind_get_world.
  cbv zeta. by rewrite Hfree, Hpar.
Qed.

Lemma acquire_into_taken_output bnk_file output_base_dir w z :
  let T := resolve w (temp_dir_of bnk_file) in
  let O := resolve w (output_dir_of bnk_file output_base_dir) in
  is_dir (cwd w) (fs w) = true -> stat T (fs w) = None ->
  stat O (fs w) = Some (IsFile z) ->
  acquire_workspace bnk_file output_base_dir w
  = (Raise FileExistsError,
     mkWorld (put_node T (Dir 0 ∅) (fs w)) (cwd w) (undeletable w),
     [Print (MsgBanner (path_name bnk_file))]).
Proof.
  intros T O Hcwd HT HO. unfold acquire_workspace. cbv zeta.
  assert (removelast T = cwd w) as Hpar.
  { unfold T. rewrite temp_dir_of_parts. unfold resolve. cbn.
    by rewrite removelast_last. }
  erewrite bind_run; [|reflexivity|].
  2:{ rewrite bind_path_exists. fold T. rewrite HT.
      rewrite bool_decide_eq_false_2 by by intros [??]. cbn [when].
      erewrite bind_run; [|reflexivity|].
      2:{ erewrite bind_run; [|apply mkdir_new; fold T; [done|by rewrite Hpar]|].
          2:{ fold T. unfold mkdir. rewrite bind_get_world. cbv zeta.
              cbn [fs cwd undeletable].
              change (resolve (mkWorld ?t (cwd w) ?u)
                        (output_dir_of bnk_file output_base_dir)) with O.
              unfold put_node. rewrite stat_update_node_outside.
              - rewrite HO. reflexivity.
              - intros Hpre. by rewrite (stat_none_below T O (fs w) Hpre HT) in HO. }
          reflexivity. }
      reflexivity. }
  reflexivity.
Qed.

(** X26. When a regular file has the name of the archive's output
    subdirectory, [process_bnk_file] does not return [False]: the
    [FileExistsError] of the second [mkdir] escapes it, no tool is run, and
    the workspace it had just created stays behind, the [finally] block
    not being reached. *)
Theorem taken_output_name_escapes tools bnk_file output_base_dir ext
    bnkextr_path vgmstream_path verbosity cleanup_wem delete_small
    min_file_size remove_duplicates w z :
  let T := resolve w (temp_dir_of bnk_file) in
  let O := resolve w (output_dir_of bnk_file output_base_dir) in
  is_dir (cwd w) (fs w) = true -> stat T (fs w) = None ->
  stat O (fs w) = Some (IsFile z) ->
  exists w',
    process_bnk_file tools bnk_file output_base_dir ext bnkextr_path
      vgmstream_path verbosity cleanup_wem delete_small min_file_size
      remove_duplicates w
    = (Raise FileExistsError, w', [Print (MsgBanner (path_name bnk_file))]) /\
    is_dir T (fs w') = true /\
    forall q, q <> T -> stat q (fs w') = stat q (fs w).
Proof.
  intros T O Hcwd HT HO. eexists. split.
  - unfold process_bnk_file, bind.
    by rewrite (acquire_into_taken_output bnk_file output_base_dir w z).
  - cbn [fs].
    assert (removelast T = cwd w /\ T <> []) as [Hpar Hne].
    { unfold T. rewrite temp_dir_of_parts. unfold resolve. cbn.
      rewrite removelast_last. split; [done|]. by destruct (cwd w). }
    split.
    + apply (is_dir_put_dir T); [done|]. by rewrite Hpar.
    + intros q Hq. destruct (decide (T `prefix_of` q)) as [[k Hk]|Hout].
      * destruct k as [|c k]; [by rewrite app_nil_r in Hk|]. subst q.
        rewrite (stat_put_empty_dir_below T) by done. symmetry.
        apply (stat_none_below T); [by eexists|done].
      * by apply (stat_update_node_outside T).
Qed.

Lemma taken_output_name_escapes_witness :
  exists w',
    process_bnk_file two_fragments foo_bnk output_base "wav" "bnkextr.exe"
      "vgmstream-cli.exe" 1 true true 4844 true (app_world app_tree_taken ∅)
    = (Raise FileExistsError, w', [Print (MsgBanner "foo.bnk")]) /\
    is_dir ["app"; "temp_foo"] (fs w') = true /\
    forall q, q <> ["app"; "temp_foo"] -> stat q (fs w') = stat q app_tree_taken.
Proof.
  apply (taken_output_name_escapes two_fragments foo_bnk output_base "wav"
           "bnkextr.exe" "vgmstream-cli.exe" 1 true true 4844 true
           (app_world app_tree_taken ∅) 5).
  - by vm_compute.
  - by vm_compute.
  - by vm_compute.
Defined.

Lemma only_the_acquisition_raises_witness :
  let w := app_world app_tree_taken ∅ in
  let run := process_bnk_file two_fragments foo_bnk output_base "wav"
               "bnkextr.exe" "vgmstream-cli.exe" 1 true true 4844 true w in
  run.1.1 = Raise FileExistsError /\
  acquire_workspace foo_bnk output_base w
  = (Raise FileExistsError, run.1.2, run.2).
Proof.
  intros w run.
  assert (run.1.1 = Raise FileExistsError) as Hraise by by vm_compute.
  split; [exact Hraise|].
  apply (only_the_acquisition_raises two_fragments foo_bnk output_base "wav"
           "bnkextr.exe" "vgmstream-cli.exe" 1 true true 4844 true w).
  revert Hraise. unfold run.
  destruct (process_bnk_file _ _ _ _ _ _ _ _ _ _ _ _) as [[r w'] tr].
  cbn. by intros ->.
Defined.

Lemma rmtree_trace p w r w' tr : rmtree p w = (r, w', tr) -> tr = [].
Proof.
  unfold rmtree. rewrite bind_get_world. cbv zeta.
  destruct (stat (resolve w p) (fs w)) as [[|]|]; try by intros [= <- <- <-].
  destruct (_ || _); by intros [= <- <- <-].
Qed.

Lemma mkdir_trace p exist_ok w r w' tr : mkdir p exist_ok w = (r, w', tr) -> tr = [].
Proof.
  unfold mkdir. rewrite bind_get_world. cbv zeta.
  destruct (stat (resolve w p) (fs w)) as [[|]|].
  - by intros [= <- <- <-].
  - destruct exist_ok; by intros [= <- <- <-].
  - destruct (stat (removelast (resolve w p)) (fs w)) as [[|]|];
      by intros [= <- <- <-].
Qed.

Lemma acquire_workspace_trace bnk_file output_base_dir w r w1 tr :
  acquire_workspace bnk_file output_base_dir w = (r, w1, tr) ->
  tr = [Print (MsgBanner (path_name bnk_file))].
Proof.
  unfold acquire_workspace. cbv zeta.
  intros [(e & [=] & _)|([] & w0 & t0 & t1 & [= <- <-] & Hrest & ->)]%bind_cases.
  rewrite bind_path_exists in Hrest.
  apply bind_cases in Hrest
    as [(e & Hs & _)|([] & w2 & t2 & t3 & Hs & Hrest & ->)].
  { destruct (bool_decide _); cbn [when] in Hs; [|done].
    by rewrite (rmtree_trace _ _ _ _ _ Hs). }
  assert (t2 = []) as ->.
  { destruct (bool_decide _); cbn [when] in Hs; [by eapply rmtree_trace|].
    by injection Hs as <- <-. }
  apply bind_cases in Hrest
    as [(e & Hm & _)|([] & w3 & t4 & t5 & Hm & Hrest & ->)].
  { by rewrite (mkdir_trace _ _ _ _ _ _ Hm). }
  by rewrite (mkdir_trace _ _ _ _ _ _ Hm), (mkdir_trace _ _ _ _ _ _ Hrest).
Qed.

(** X27. An archive that is no longer there when its turn comes is
    reported, not raised: [process_bnk_file] returns [False] after the
    line "[ERROR] Exception processing ...", having started no tool, and the
    workspace it had created is removed again unless the operating system
    refuses. *)
Theorem missing_archive_is_reported tools bnk_file output_base_dir ext
    bnkextr_path vgmstream_path verbosity cleanup_wem delete_small
    min_file_size remove_duplicates w w1 t0 :
  let T := resolve w (temp_dir_of bnk_file) in
  acquire_workspace bnk_file output_base_dir w = (Ok tt, w1, t0) ->
  lookup_node (resolve w1 bnk_file) (fs w1) = None ->
  exists w',
    process_bnk_file tools bnk_file output_base_dir ext bnkextr_path
      vgmstream_path verbosity cleanup_wem delete_small min_file_size
      remove_duplicates w
    = (Ok false, w',
       [Print (MsgBanner (path_name bnk_file)); SpinnerStop;
        Print (MsgErrorException (path_name bnk_file) FileNotFoundError)]) /\
    ((forall u, u ∈ undeletable w -> ~ T `prefix_of` u) ->
     stat T (fs w') = None).
Proof.
  intros T Hacq Hgone.
  pose proof (acquire_workspace_trace _ _ _ _ _ _ Hacq) as ->.
  destruct (acquire_workspace_ok _ _ _ _ _ Hacq)
    as (Hc & HU & HT & _ & _ & _ & _ & _).
  assert (pipeline tools bnk_file output_base_dir ext bnkextr_path
            vgmstream_path verbosity cleanup_wem delete_small min_file_size
            remove_duplicates w1 = (Raise FileNotFoundError, w1, [])) as Hpipe.
  { unfold pipeline, extract_bnk. cbv zeta. unfold bind at 1. unfold bind at 1.
    unfold copy2 at 1. rewrite bind_get_world. cbv zeta. by rewrite Hgone. }
  destruct (final_cleanup_runs (temp_dir_of bnk_file) w1)
    as (w' & Hfin & _ & _ & _ & Hrm).
  exists w'. split.
  - unfold process_bnk_file. erewrite bind_run; [|exact Hacq|]; [reflexivity|].
    unfold try_finally, try_except. rewrite Hpipe. cbn [spinner_stop print emit bind ret app].
    by rewrite Hfin.
  - intros Hfree.
    assert (resolve w1 (temp_dir_of bnk_file) = T) as HT1.
    { unfold T, resolve. by rewrite Hc. }
    rewrite HT1 in Hrm. apply Hrm. right.
    assert (T = cwd w ++ ["temp_" +:+ path_stem bnk_file]) as HTeq.
    { unfold T. by rewrite temp_dir_of_parts. }
    split; [by rewrite HTeq|]. split.
    + apply not_blocked. by rewrite HU.
    + rewrite HTeq. by destruct (cwd w).
Qed.

Lemma missing_archive_is_reported_witness :
  let gone := mkPath true ["app"; "input"; "gone.bnk"] in
  let w := app_world app_tree ∅ in
  exists w',
    process_bnk_file two_fragments gone output_base "wav" "bnkextr.exe"
      "vgmstream-cli.exe" 1 true true 4844 true w
    = (Ok false, w',
       [Print (MsgBanner "gone.bnk"); SpinnerStop;
        Print (MsgErrorException "gone.bnk" FileNotFoundError)]) /\
    ((forall u, u ∈ (∅ : gset (list string)) ->
                ~ ["app"; "temp_gone"] `prefix_of` u) ->
     stat ["app"; "temp_gone"] (fs w') = None).
Proof.
  intros gone w.
  pose (run := acquire_workspace gone output_base w).
  apply (missing_archive_is_reported two_fragments gone output_base "wav"
           "bnkextr.exe" "vgmstream-cli.exe" 1 true true 4844 true w
           run.1.2 run.2).
  - assert (run.1.1 = Ok tt) as Hok by by vm_compute.
    revert Hok. unfold run.
    destruct (acquire_workspace _ _ _) as [[r w1] tr]. cbn. by intros ->.
  - by vm_compute.
Defined.

(** * The batch *)

(** X28. The success report of [main] lists archives that were handed to
    the loop, in the order they were handed in, each at most as often as
    it was selected: it is a sublist of the files to process. *)
Theorem report_is_a_sublist tools files_to_process output_dir ext bnkextr_path
    vgmstream_path verbosity cleanup_wem delete_small min_file_size
    remove_duplicates w report w' tr :
  processed_files tools files_to_process output_dir ext bnkextr_path
    vgmstream_path verbosity cleanup_wem delete_small min_file_size
    remove_duplicates w = (Ok report, w', tr) ->
  report `sublist_of` files_to_process.
Proof.
  revert w report w' tr.
  induction files_to_process as [|bnk_file rest IH]; intros w report w' tr; cbn.
  - by intros [= <- <- <-].
  - intros [(e & _ & [=])|(ok & w1 & t1 & t2 & _ & Hrest & ->)]%bind_cases.
    apply bind_cases in Hrest
      as [(e & _ & [=])|(report' & w2 & t3 & t4 & Hrec & [= <- <- <-] & ->)].
    apply IH in Hrec. destruct ok; by constructor.
Qed.

Lemma report_is_a_sublist_witness :
  let run := processed_files two_fragments
               [mkPath true ["app"; "input"; "gone.bnk"]; foo_bnk] output_base
               "wav" "bnkextr.exe" "vgmstream-cli.exe" 1 true true 4844 true
               (app_world app_tree ∅) in
  run.1.1 = Ok [foo_bnk] /\
  [foo_bnk] `sublist_of` [mkPath true ["app"; "input"; "gone.bnk"]; foo_bnk].
Proof.
  intros run.
  assert (run.1.1 = Ok [foo_bnk]) as Hok by by vm_compute.
  split; [exact Hok|].
  apply (report_is_a_sublist two_fragments
           [mkPath true ["app"; "input"; "gone.bnk"]; foo_bnk] output_base
           "wav" "bnkextr.exe" "vgmstream-cli.exe" 1 true true 4844 true
           (app_world app_tree ∅) [foo_bnk] run.1.2 run.2).
  revert Hok. unfold run.
  destruct (processed_files _ _ _ _ _ _ _ _ _ _ _ _) as [[r w'] tr].
  cbn. by intros ->.
Defined.

(** * Verdicts and output names over a whole archive *)

Lemma verdicts_by_size outputs delete_small min_file_size remove_duplicates :
  forall file_sizes j o size v,
    outputs !! j = Some (o, size) ->
    filter_outputs outputs delete_small min_file_size remove_duplicates
      file_sizes !! j = Some v ->
    (v = (true, Some "small") <->
     delete_small = true /\ size < min_file_size) /\
    (delete_small = false -> remove_duplicates = false -> v = (false, None)).
Proof.
  induction outputs as [|[o0 s0] outputs IH]; intros file_sizes j o size v; [done|].
  cbn [filter_outputs].
  destruct (should_delete_file o0 s0 delete_small min_file_size
              remove_duplicates file_sizes) as [r file_sizes'] eqn:Hr.
  destruct j as [|j]; cbn; [|by apply IH].
  intros [= <- <-] [= <-]. revert Hr. unfold should_delete_file.
  destruct delete_small; cbn [andb].
  - destruct (s0 <? min_file_size) eqn:Hlt.
    + intros [= <- _]. apply Z.ltb_lt in Hlt. by split_and!.
    + apply Z.ltb_ge in Hlt.
      destruct remove_duplicates; cbn [andb]; [case_bool_decide|];
        intros [= <- _]; (split; [split; [done|lia]|done]).
  - destruct remove_duplicates; cbn [andb]; [case_bool_decide|];
      intros [= <- _]; (split; [split; [done|by intros []]|done]).
Qed.

(** X29. Over a run of [convert_wem_files], an output is deleted as
    "small" exactly when small-file deletion is on and its measured size
    is strictly below the threshold: an output of exactly the threshold
    size is not small. With both filters off every converted output is
    kept. *)
Theorem small_means_strictly_below tools temp_dir output_dir ext
    vgmstream_path verbosity delete_small min_file_size remove_duplicates
    w j o size v :
  let output_of := fun wem_file : PyPath =>
    path_join output_dir (path_stem wem_file +:+ "." +:+ ext) in
  let tr := (convert_wem_files tools temp_dir output_dir ext vgmstream_path
               verbosity delete_small min_file_size remove_duplicates w).2 in
  judged output_of tr !! j = Some ((o, size), v) ->
  (v = (true, Some "small") <->
   delete_small = true /\ size < min_file_size) /\
  (delete_small = false -> remove_duplicates = false -> v = (false, None)).
Proof.
  intros output_of tr Hj.
  pose proof (convert_wem_files_judged tools temp_dir output_dir ext
                vgmstream_path verbosity delete_small min_file_size
                remove_duplicates w) as Hjud.
  cbv zeta in Hjud. fold output_of tr in Hjud.
  apply lookup_judged in Hj as [Hj1 Hj2]. rewrite Hjud in Hj2.
  by eapply verdicts_by_size.
Qed.

Lemma small_means_strictly_below_witness :
  let w := (acquire_workspace foo_bnk output_base (app_world app_tree ∅)).1.2 in
  let w2 := (extract_bnk two_fragments foo_bnk (temp_dir_of foo_bnk)
               "bnkextr.exe" 1 w).1.2 in
  let output_of := fun wem_file : PyPath =>
    path_join (output_dir_of foo_bnk output_base) (path_stem wem_file +:+ "." +:+ "wav") in
  let tr := (convert_wem_files two_fragments (temp_dir_of foo_bnk)
               (output_dir_of foo_bnk output_base) "wav" "vgmstream-cli.exe" 1
               true 5000 false w2).2 in
  judged output_of tr !! 0%nat
  = Some ((mkPath true ["app"; "output"; "foo"; "1.wav"], 5000), (false, None)) /\
  (((false, None) = (true, Some "small") <-> true = true /\ 5000 < 5000) /\
   (true = false -> false = false -> (false, None : option string) = (false, None))).
Proof.
  intros w w2 output_of tr.
  assert (judged output_of tr !! 0%nat
          = Some ((mkPath true ["app"; "output"; "foo"; "1.wav"], 5000), (false, None)))
    as Hjudged by (vm_compute; reflexivity).
  split; [exact Hjudged|].
  exact (small_means_strictly_below two_fragments (temp_dir_of foo_bnk)
           (output_dir_of foo_bnk output_base) "wav" "vgmstream-cli.exe" 1
           true 5000 false w2 0%nat
           (mkPath true ["app"; "output"; "foo"; "1.wav"]) 5000 (false, None)
           Hjudged).
Defined.

Lemma rfind_dot_wem p i :
  rfind_dot (p +:+ ".wem") i = Some (i + String.length p)%nat.
Proof.
  revert i. induction p as [|c p IH]; intros i.
  - cbn. f_equal. lia.
  - rewrite string_app_cons. cbn [rfind_dot String.length]. rewrite IH.
    f_equal. lia.
Qed.

Lemma substring_prefix (p q : string) :
  String.substring 0 (String.length p) (p +:+ q) = p.
Proof.
  induction p as [|c p IH]; [by destruct q|].
  rewrite string_app_cons. cbn. by rewrite IH.
Qed.

Lemma stem_of_wem p : p <> "" -> stem_of (p +:+ ".wem") = p.
Proof.
  intros Hp. unfold stem_of. rewrite rfind_dot_wem. cbn [Nat.add].
  rewrite string_length_app. cbn [String.length].
  assert ((0 <? String.length p)%nat = true) as ->.
  { apply Nat.ltb_lt. destruct p; [done|cbn; lia]. }
  assert ((String.length p <? String.length p + 4 - 1)%nat = true) as ->.
  { apply Nat.ltb_lt. lia. }
  cbn [andb]. apply substring_prefix.
Qed.

Lemma substring_split (s : string) (k : nat) :
  (k <= String.length s)%nat ->
  s = String.substring 0 k s +:+ String.substring k (String.length s - k) s.
Proof.
  revert k. induction s as [|c s IH]; intros k Hk.
  - cbn in Hk. by replace k with 0%nat by lia.
  - destruct k as [|k].
    + cbn [String.substring String.length Nat.sub]. rewrite string_app_nil.
      f_equal. clear. induction s as [|c s IH]; [done|]. cbn. by rewrite <- IH.
    + cbn [String.substring String.length Nat.sub]. rewrite string_app_cons.
      f_equal. apply IH. cbn in Hk. lia.
Qed.

Lemma ends_with_suffix suffix name :
  ends_with suffix name = true -> exists p, name = p +:+ suffix.
Proof.
  unfold ends_with. intros [Hlen Heq]%andb_true_iff.
  apply Nat.leb_le in Hlen. apply String.eqb_eq in Heq.
  remember (String.length name - String.length suffix)%nat as k eqn:Hk.
  assert (String.length suffix = String.length name - k)%nat as Hs by lia.
  rewrite Hs in Heq. exists (String.substring 0 k name).
  rewrite <- Heq. apply substring_split. lia.
Qed.

Lemma string_app_cancel_r (a b c : string) : a +:+ c = b +:+ c -> a = b.
Proof.
  revert b. induction a as [|x a IH]; intros [|y b] Heq; [done| | |].
  - apply (f_equal String.length) in Heq.
    rewrite !string_length_app in Heq. cbn [String.length] in Heq. lia.
  - apply (f_equal String.length) in Heq.
    rewrite !string_length_app in Heq. cbn [String.length] in Heq. lia.
  - rewrite !string_app_cons in Heq. injection Heq as -> Heq.
    f_equal. by apply IH.
Qed.

(** X30. Two different fragments of a workspace are converted to two
    different output files, so that no output of a run is overwritten by
    a later fragment's: the output name, stem plus extension, tells the
    fragments apart. The one exception is a fragment named [.wem], whose
    stem is its whole name. *)
Theorem distinct_fragments_distinct_outputs temp_dir output_dir ext w f1 f2 :
  let output_of := fun wem_file : PyPath =>
    path_join output_dir (path_stem wem_file +:+ "." +:+ ext) in
  f1 ∈ fragments temp_dir w -> f2 ∈ fragments temp_dir w -> f1 <> f2 ->
  path_name f1 <> ".wem" -> path_name f2 <> ".wem" ->
  output_of f1 <> output_of f2.
Proof.
  intros output_of Hf1 Hf2 Hne H1 H2 Heq.
  assert (forall f, f ∈ fragments temp_dir w -> path_name f <> ".wem" ->
            exists p, p <> "" /\ f = path_join temp_dir (p +:+ ".wem") /\
                      path_stem f = p) as Hshape.
  { intros f Hf Hname. unfold fragments in Hf.
    apply list_elem_of_fmap in Hf as (name & -> & Hin).
    apply list_elem_of_In, filter_In in Hin as [_ Hend].
    destruct (ends_with_suffix _ _ Hend) as [p ->].
    assert (p +:+ ".wem" <> "") as Hnonempty by by apply string_app_nonempty.
    assert (path_name (path_join temp_dir (p +:+ ".wem")) = p +:+ ".wem") as Hpn.
    { unfold path_join, path_name. rewrite decide_False by done.
      cbn. apply last_last. }
    exists p. rewrite Hpn in Hname.
    assert (p <> "") as Hp by (intros ->; by apply Hname).
    split; [done|]. split; [done|].
    unfold path_stem. rewrite Hpn. by apply stem_of_wem. }
  destruct (Hshape f1 Hf1 H1) as (p1 & Hp1 & -> & Hs1).
  destruct (Hshape f2 Hf2 H2) as (p2 & Hp2 & -> & Hs2).
  unfold output_of in Heq. rewrite Hs1, Hs2 in Heq.
  assert (p1 +:+ "." +:+ ext <> "") as Hn1 by (apply string_app_nonempty; by destruct ext).
  assert (p2 +:+ "." +:+ ext <> "") as Hn2 by (apply string_app_nonempty; by destruct ext).
  unfold path_join in Heq. rewrite !decide_False in Heq by done.
  injection Heq as Heq. apply app_inj_tail in Heq as [_ Heq].
  apply string_app_cancel_r in Heq. by subst.
Qed.

Lemma distinct_fragments_distinct_outputs_witness :
  let w := (acquire_workspace foo_bnk output_base (app_world app_tree ∅)).1.2 in
  let w2 := (extract_bnk two_fragments foo_bnk (temp_dir_of foo_bnk)
               "bnkextr.exe" 1 w).1.2 in
  let f1 := mkPath false ["temp_foo"; "1.wem"] in
  let f2 := mkPath false ["temp_foo"; "2.wem"] in
  fragments (temp_dir_of foo_bnk) w2 = [f1; f2] /\
  path_join output_base (path_stem f1 +:+ "." +:+ "wav")
  <> path_join output_base (path_stem f2 +:+ "." +:+ "wav").
Proof.
  intros w w2 f1 f2.
  assert (fragments (temp_dir_of foo_bnk) w2 = [f1; f2]) as Hfr by by vm_compute.
  split; [exact Hfr|].
  apply (distinct_fragments_distinct_outputs (temp_dir_of foo_bnk) output_base
           "wav" w2 f1 f2).
  - rewrite Hfr. by apply (list_elem_of_lookup_2 _ 0%nat).
  - rewrite Hfr. by apply (list_elem_of_lookup_2 _ 1%nat).
  - done.
  - done.
  - done.
Defined.
